(** * weatherInTheField: the incremental synchronisation engine

    A shallow embedding of the period planner ([splitTimePeriodByMonth],
    [splitTimePeriodByDays], the planning part of [processDevice]), of the
    telemetry client ([Login], [GetDevices], [GetTelemetry]) and of the
    ingestion sink ([StoreTelemetry], [GetLatestTelemetryTimestamp],
    [processAndSaveTelemetry]), followed by the properties of the
    specification that were checked against them. *)

From Stdlib Require Import ZArith List String Bool Lia Permutation.
From Stdlib Require Import Floats.PrimFloat Uint63.
Import ListNotations.

Local Open Scope Z_scope.

(* ================================================================== *)
(** ** Go's int64 *)

(** Two's-complement wrap-around of a mathematical integer into int64. *)
Definition wrap64 (x : Z) : Z := (x + 2 ^ 63) mod 2 ^ 64 - 2 ^ 63.

Definition add64 (a b : Z) : Z := wrap64 (a + b).
Definition sub64 (a b : Z) : Z := wrap64 (a - b).
Definition mul64 (a b : Z) : Z := wrap64 (a * b).

Definition min_int64 : Z := - 2 ^ 63.
Definition max_int64 : Z := 2 ^ 63 - 1.
Definition in_int64 (x : Z) : Prop := min_int64 <= x <= max_int64.

(** Errors are carried as their message. *)
Inductive result (A : Type) : Type :=
| Ok (a : A)
| Err (msg : string).
Arguments Ok {A} a.
Arguments Err {A} msg.

(* ================================================================== *)
(** ** The part of Go's [time] package the planner uses

    An instant is its Unix time in seconds (every instant the planner
    builds has a zero nanosecond part).  The location is a fixed offset
    [loc], in seconds east of UTC; the calendar is the proleptic Gregorian
    one.  This is what [time.Local] is when the offset of the zone never
    changes (UTC, or a zone of constant offset); a zone whose offset
    changes is outside the model, and every statement below that depends
    on the location is a statement about a location of constant offset. *)

Record civil : Type := mkCivil { c_year : Z; c_month : Z; c_day : Z }.

(** Day number (days since 1970-01-01) of a civil date with [1 <= m <= 12]. *)
Definition days_from_civil (y m d : Z) : Z :=
  let y'  := if m <=? 2 then y - 1 else y in
  let era := y' / 400 in
  let yoe := y' - era * 400 in
  let mp  := if 2 <? m then m - 3 else m + 9 in
  let doy := (153 * mp + 2) / 5 + d - 1 in
  let doe := yoe * 365 + yoe / 4 - yoe / 100 + doy in
  era * 146097 + doe - 719468.

(** Civil date of a day number. *)
Definition civil_from_days (z0 : Z) : civil :=
  let z   := z0 + 719468 in
  let era := z / 146097 in
  let doe := z - era * 146097 in
  let yoe := (doe - doe / 1460 + doe / 36524 - doe / 146096) / 365 in
  let y   := yoe + era * 400 in
  let doy := doe - (365 * yoe + yoe / 4 - yoe / 100) in
  let mp  := (5 * doy + 2) / 153 in
  let d   := doy - (153 * mp + 2) / 5 + 1 in
  let m   := if mp <? 10 then mp + 3 else mp - 9 in
  mkCivil (if m <=? 2 then y + 1 else y) m d.

Definition secondsPerDay : Z := 86400.

(** [time.Unix(sec, 0)] seen in the location [loc]: its civil date. *)
Definition civilOf (loc sec : Z) : civil :=
  civil_from_days ((sec + loc) / secondsPerDay).

Definition Year  (loc sec : Z) : Z := c_year  (civilOf loc sec).
Definition Month (loc sec : Z) : Z := c_month (civilOf loc sec).
Definition Day   (loc sec : Z) : Z := c_day   (civilOf loc sec).

(** Seconds since local midnight. *)
Definition secOfDay (loc sec : Z) : Z := (sec + loc) mod secondsPerDay.

(** [time.Date(y, m, d, 0, 0, sod, 0, loc)]: months outside 1..12 and days
    outside the month are normalised the way Go does, by carrying. *)
Definition Date (loc y m d sod : Z) : Z :=
  let y' := y + (m - 1) / 12 in
  let m' := (m - 1) mod 12 + 1 in
  (days_from_civil y' m' 1 + (d - 1)) * secondsPerDay + sod - loc.

(** [t.AddDate(0, months, 0)]. *)
Definition AddMonths (loc t months : Z) : Z :=
  Date loc (Year loc t) (Month loc t + months) (Day loc t) (secOfDay loc t).

(** [t.UnixNano() / int64(time.Millisecond)]. *)
Definition unixMilli (t : Z) : Z := Z.quot (mul64 t 1000000000) 1000000.

(* ================================================================== *)
(** ** Period planner *)

Record timePeriod : Type := mkPeriod { from : Z; to : Z }.

(** The loop of [splitTimePeriodByMonth] that appends the full months.
    [None] only when [fuel] runs out before the loop exits. *)
Fixpoint monthLoop (fuel : nat) (loc toTime tsTo currentMonth : Z)
    (periods : list timePeriod) : option (list timePeriod) :=
  if currentMonth <? toTime then
    match fuel with
    | O => None
    | S fuel' =>
        let nextMonth   := AddMonths loc currentMonth 1 in
        let periodStart := unixMilli currentMonth in
        let periodEnd   := unixMilli nextMonth in
        let periodEnd   := if tsTo <? periodEnd then tsTo else periodEnd in
        let periods     := periods ++ [mkPeriod periodStart periodEnd] in
        if tsTo <=? unixMilli nextMonth then Some periods
        else monthLoop fuel' loc toTime tsTo nextMonth periods
    end
  else Some periods.

Definition splitTimePeriodByMonth (fuel : nat) (loc tsFrom tsTo : Z)
    : option (list timePeriod) :=
  let fromTime     := Z.quot tsFrom 1000 in
  let toTime       := Z.quot tsTo 1000 in
  let currentMonth := Date loc (Year loc fromTime) (Month loc fromTime) 1 0 in
  if 1 <? Day loc fromTime then
    let nextMonth := AddMonths loc currentMonth 1 in
    let periodEnd := Z.min (unixMilli nextMonth) tsTo in
    monthLoop fuel loc toTime tsTo nextMonth [mkPeriod tsFrom periodEnd]
  else
    monthLoop fuel loc toTime tsTo currentMonth [].

(** The loop of [splitTimePeriodByDays]. *)
Fixpoint daysLoop (fuel : nat) (intervalMs tsTo current : Z)
    (periods : list timePeriod) : option (list timePeriod) :=
  if current <? tsTo then
    match fuel with
    | O => None
    | S fuel' =>
        let periodEnd := add64 current intervalMs in
        let periodEnd := if tsTo <? periodEnd then tsTo else periodEnd in
        daysLoop fuel' intervalMs tsTo periodEnd
                 (periods ++ [mkPeriod current periodEnd])
    end
  else Some periods.

Definition splitTimePeriodByDays (fuel : nat) (tsFrom tsTo days : Z)
    : option (list timePeriod) :=
  let intervalMs := wrap64 (days * 24 * 60 * 60 * 1000) in
  daysLoop fuel intervalMs tsTo tsFrom [].

(** The configured sensor keys. *)
Definition sensorKeys : list string :=
  [ "airtemp"; "soiltemp"; "airmoist"; "rainfall"; "rainfall_daily";
    "windspeed"; "windspeedmax"; "winddir"; "winddirang" ]%string.

(** [now := time.Now().UnixNano() / int64(time.Millisecond)]: the clock is
    read as an int64 count of nanoseconds, so [now] lies in this range. *)
Definition clock_range (now : Z) : Prop :=
  Z.quot min_int64 1000000 <= now <= Z.quot max_int64 1000000.

(** The local variables of [processDevice] that its first loop updates. *)
Record sensorState : Type := mkSensorState {
  sensorLastTs    : list (string * Z);
  newSensors      : list string;
  existingSensors : list string;
  minTsFrom       : Z
}.

(** [m[k] = v] on a map kept as an association list. *)
Definition mapSet (m : list (string * Z)) (k : string) (v : Z)
    : list (string * Z) :=
  (k, v) :: filter (fun e => negb (String.eqb (fst e) k)) m.

(** One iteration of the loop over [sensorKeys]; [getLatest] stands for
    [dbManager.GetLatestTelemetryTimestamp]. *)
Definition classifyStep (getLatest : string -> string -> result Z)
    (deviceID : string) (st : sensorState) (sensorKey : string)
    : sensorState :=
  match getLatest deviceID sensorKey with
  | Err _ =>
      mkSensorState (sensorLastTs st) (newSensors st ++ [sensorKey])
                    (existingSensors st) (minTsFrom st)
  | Ok lastTs =>
      let lastMap := mapSet (sensorLastTs st) sensorKey lastTs in
      if 0 <? lastTs then
        mkSensorState lastMap (newSensors st)
                      (existingSensors st ++ [sensorKey])
                      (if lastTs <? minTsFrom st then lastTs
                       else minTsFrom st)
      else
        mkSensorState lastMap (newSensors st ++ [sensorKey])
                      (existingSensors st) (minTsFrom st)
  end.

Definition classify (getLatest : string -> string -> result Z)
    (deviceID : string) (now : Z) (keys : list string) : sensorState :=
  fold_left (classifyStep getLatest deviceID) keys
            (mkSensorState [] [] [] now).

Definition intervalMs : Z := 15 * 60 * 1000.
Definition yearMs  : Z := 365 * 24 * 60 * 60 * 1000.
Definition monthMs : Z := 30 * 24 * 60 * 60 * 1000.

(** The lower bound of the fetch for the existing sensors. *)
Definition computeTsFrom (now minTs : Z) : Z :=
  if (minTs <? now) && (0 <? minTs) then add64 minTs 1
  else sub64 now intervalMs.

(** The windows requested for the new sensors. *)
Definition newPlan (fuel : nat) (loc now : Z) : option (list timePeriod) :=
  let oneYearAgo := sub64 now yearMs in
  splitTimePeriodByMonth fuel loc oneYearAgo now.

(** The windows requested for the existing sensors. *)
Definition existingPlan (fuel : nat) (now tsFrom : Z)
    : option (list timePeriod) :=
  let oneMonthAgo := sub64 now monthMs in
  if tsFrom <? oneMonthAgo then splitTimePeriodByDays fuel tsFrom now 30
  else Some [mkPeriod tsFrom now].

(** What [processDevice] decides before it fetches anything: the two sensor
    groups and, for each group, the windows it will pass to [GetTelemetry],
    in order.  A group that is empty is given no window.  [None] for the
    windows means that [fuel] ran out. *)
Record devicePlan : Type := mkDevicePlan {
  p_newSensors      : list string;
  p_existingSensors : list string;
  p_tsFrom          : Z;
  p_newPeriods      : option (list timePeriod);
  p_existingPeriods : option (list timePeriod)
}.

Definition processDevice (fuel : nat) (loc : Z)
    (getLatest : string -> string -> result Z) (deviceID : string)
    (now : Z) : devicePlan :=
  let st     := classify getLatest deviceID now sensorKeys in
  let tsFrom := computeTsFrom now (minTsFrom st) in
  mkDevicePlan
    (newSensors st) (existingSensors st) tsFrom
    (match newSensors st with
     | [] => Some []
     | _ :: _ => newPlan fuel loc now
     end)
    (match existingSensors st with
     | [] => Some []
     | _ :: _ => existingPlan fuel now tsFrom
     end).

(* ================================================================== *)
(** ** Telemetry client *)

(** A Go [interface{}] value as the client and the sink meet it. *)
Inductive any : Type :=
| ANil
| ABool (b : bool)
| AString (s : string)
| AFloat64 (f : float)
| AFloat32 (f : float)   (* a float32, by its value *)
| AInt (n : Z)
| AInt64 (n : Z)
| AComposite.            (* a decoded JSON array or object *)

Record Device : Type := mkDevice {
  ID : string; Name : string; Label : string;
  Latitude : float; Longitude : float
}.

Record TelemetryData : Type := mkTelemetryData {
  EntityID : string; Key : string; d_Ts : Z; DblV : float; StrV : any
}.

Record TelemetryPoint : Type := mkPoint { Ts : Z; Value : any }.

(** What one POST to the remote side gives back. *)
Inductive reply (A : Type) : Type :=
| TransportError                         (* [Client.Post] returned an error *)
| BadBody                                (* the body does not decode *)
| Decoded (status : string) (payload : A).
Arguments TransportError {A}.
Arguments BadBody {A}.
Arguments Decoded {A} status payload.

(** The remote side, as the replies it will give to the successive POSTs
    to /login; when the list is exhausted the remote side is unreachable. *)
Definition loginScript : Type := list (reply string).

(** The requests the client has sent, oldest first. *)
Inductive event : Type :=
| EvLogin
| EvDevices (sid : string)
| EvTelemetry (sid deviceID : string) (keys : list string) (tsFrom tsTo : Z).

(** The client: its session and, as ghost state, the requests sent. *)
Record WeatherAPI : Type := mkAPI {
  SessionID : string;
  trace     : list event
}.

Definition Login (w : WeatherAPI) (logins : loginScript)
    : result unit * WeatherAPI * loginScript :=
  let w' := mkAPI (SessionID w) (trace w ++ [EvLogin]) in
  match logins with
  | [] => (Err "post", w', [])
  | TransportError :: rest => (Err "post", w', rest)
  | BadBody :: rest => (Err "decode", w', rest)
  | Decoded status sid :: rest =>
      if String.eqb status "error" then (Err "auth", w', rest)
      else if String.eqb sid "" then (Err "no session token", w', rest)
      else (Ok tt, mkAPI sid (trace w'), rest)
  end.

(** [result[key] = append(result[key], point)] on a map kept as an
    association list in order of first insertion. *)
Fixpoint appendPoint (m : list (string * list TelemetryPoint))
    (key : string) (p : TelemetryPoint) : list (string * list TelemetryPoint) :=
  match m with
  | [] => [(key, [p])]
  | (k, pts) :: rest =>
      if String.eqb k key then (k, pts ++ [p]) :: rest
      else (k, pts) :: appendPoint rest key p
  end.

(** The point built from one record of the response. *)
Definition toPoint (data : TelemetryData) : TelemetryPoint :=
  mkPoint (d_Ts data)
          (if negb (PrimFloat.eqb (DblV data) 0%float)
           then AFloat64 (DblV data) else StrV data).

Definition toMap (resp : list TelemetryData)
    : list (string * list TelemetryPoint) :=
  fold_left (fun m data => appendPoint m (Key data) (toPoint data)) resp [].

(** The login that precedes a request when there is no session yet. *)
Definition ensureSession (w : WeatherAPI) (logins : loginScript)
    : result unit * WeatherAPI * loginScript :=
  if String.eqb (SessionID w) "" then Login w logins else (Ok tt, w, logins).

(** [GetTelemetry], by recursion on the replies of the remote side to the
    POSTs to /telemetry (each call consumes one). *)
Fixpoint GetTelemetry (replies : list (reply (list TelemetryData)))
    (w : WeatherAPI) (logins : loginScript)
    (deviceID : string) (keys : list string) (tsFrom tsTo : Z)
    : result (list (string * list TelemetryPoint)) * WeatherAPI * loginScript :=
  match ensureSession w logins with
  | (Err e, w, logins) => (Err e, w, logins)
  | (Ok _, w, logins) =>
      let w := mkAPI (SessionID w)
                 (trace w ++ [EvTelemetry (SessionID w) deviceID keys tsFrom tsTo]) in
      match replies with
      | [] => (Err "post", w, logins)
      | TransportError :: _ => (Err "post", w, logins)
      | BadBody :: _ => (Err "decode", w, logins)
      | Decoded status data :: rest =>
          if negb (String.eqb status "OK") then
            match Login w logins with
            | (Err e, w, logins) => (Err e, w, logins)
            | (Ok _, w, logins) =>
                GetTelemetry rest w logins deviceID keys tsFrom tsTo
            end
          else (Ok (toMap data), w, logins)
      end
  end.

(** [GetDevices], likewise on the replies to the POSTs to /devices. *)
Fixpoint GetDevices (replies : list (reply (list Device)))
    (w : WeatherAPI) (logins : loginScript)
    : result (list Device) * WeatherAPI * loginScript :=
  match ensureSession w logins with
  | (Err e, w, logins) => (Err e, w, logins)
  | (Ok _, w, logins) =>
      let w := mkAPI (SessionID w) (trace w ++ [EvDevices (SessionID w)]) in
      match replies with
      | [] => (Err "post", w, logins)
      | TransportError :: _ => (Err "post", w, logins)
      | BadBody :: _ => (Err "decode", w, logins)
      | Decoded status data :: rest =>
          if negb (String.eqb status "OK") then
            match Login w logins with
            | (Err e, w, logins) => (Err e, w, logins)
            | (Ok _, w, logins) => GetDevices rest w logins
            end
          else (Ok data, w, logins)
      end
  end.

(* ================================================================== *)
(** ** Ingestion sink *)

(** A row of the table Telemetry.  The IDENTITY column is left out: no
    statement of the program reads it. *)
Record Row : Type := mkRow {
  StationID : string;
  SensorKey : string;
  Timestamp : Z;
  DateValue : Z;          (* [time.Unix(ts/1000, 0)], in seconds *)
  r_Value   : float
}.

(** The stored state: the IDs of the table Stations (the target of the
    foreign key of Telemetry) and the rows of Telemetry, oldest first. *)
Record DB : Type := mkDB {
  Stations  : list string;
  Telemetry : list Row
}.

(** [StationID = @StationID AND SensorKey = @SensorKey AND Timestamp = @Timestamp]. *)
Definition keyMatch (stationID sensorKey : string) (ts : Z) (r : Row) : bool :=
  String.eqb (StationID r) stationID && String.eqb (SensorKey r) sensorKey
  && (Timestamp r =? ts).

Definition setValue (v : float) (r : Row) : Row :=
  mkRow (StationID r) (SensorKey r) (Timestamp r) (DateValue r) v.

(** [INSERT INTO Telemetry ...] under the two constraints of the table. *)
Definition insertRow (db : DB) (r : Row) : result DB :=
  if negb (existsb (String.eqb (StationID r)) (Stations db)) then
    Err "FK_Telemetry_Stations"
  else if existsb (keyMatch (StationID r) (SensorKey r) (Timestamp r))
                  (Telemetry db) then
    Err "UQ_Telemetry_Station_Sensor_Date"
  else Ok (mkDB (Stations db) (Telemetry db ++ [r])).

(** [UPDATE Telemetry SET Value = @Value WHERE ...]. *)
Definition updateValue (db : DB) (stationID sensorKey : string) (ts : Z)
    (v : float) : DB :=
  mkDB (Stations db)
       (map (fun r => if keyMatch stationID sensorKey ts r
                      then setValue v r else r)
            (Telemetry db)).

(** The prepared statement of [StoreTelemetry], executed once. *)
Definition execUpsert (db : DB) (stationID sensorKey : string) (ts dateValue : Z)
    (v : float) : result DB :=
  if negb (existsb (keyMatch stationID sensorKey ts) (Telemetry db)) then
    insertRow db (mkRow stationID sensorKey ts dateValue v)
  else Ok (updateValue db stationID sensorKey ts v).

(** [float64(v)] for an int or int64 [v] (round to nearest even). *)
Definition f64_of_Z (n : Z) : float :=
  if n =? min_int64 then
    PrimFloat.opp (PrimFloat.mul (PrimFloat.of_uint63 (Uint63.of_Z (2 ^ 62))) 2%float)
  else if n <? 0 then PrimFloat.opp (PrimFloat.of_uint63 (Uint63.of_Z (- n)))
  else PrimFloat.of_uint63 (Uint63.of_Z n).

(** The type switch of [StoreTelemetry]; [None] is its default case. *)
Definition toFloat (v : any) : option float :=
  match v with
  | AFloat64 f => Some f
  | AFloat32 f => Some f
  | AInt n     => Some (f64_of_Z n)
  | AInt64 n   => Some (f64_of_Z n)
  | _          => None
  end.

(** The inner loop of [StoreTelemetry], over the points of one sensor. *)
Fixpoint storePoints (deviceID sensorKey : string)
    (points : list TelemetryPoint) (db : DB) : result DB :=
  match points with
  | [] => Ok db
  | point :: rest =>
      let dateValue := Z.quot (Ts point) 1000 in
      match toFloat (Value point) with
      | None => storePoints deviceID sensorKey rest db
      | Some floatValue =>
          match execUpsert db deviceID sensorKey (Ts point) dateValue floatValue with
          | Err e => Err e
          | Ok db' => storePoints deviceID sensorKey rest db'
          end
      end
  end.

(** The outer loop, over the entries of the map in the order in which the
    iteration happens to visit them. *)
Fixpoint storeEntries (deviceID : string)
    (data : list (string * list TelemetryPoint)) (db : DB) : result DB :=
  match data with
  | [] => Ok db
  | (sensorKey, points) :: rest =>
      match storePoints deviceID sensorKey points db with
      | Err e => Err e
      | Ok db' => storeEntries deviceID rest db'
      end
  end.

(** [StoreTelemetry]: one transaction, committed when every statement
    succeeded and rolled back at the first that fails. *)
Definition StoreTelemetry (deviceID : string)
    (data : list (string * list TelemetryPoint)) (db : DB)
    : result unit * DB :=
  match storeEntries deviceID data db with
  | Ok db' => (Ok tt, db')
  | Err e  => (Err e, db)
  end.

(** [GetLatestTelemetryTimestamp] on a reachable database. *)
Definition GetLatestTelemetryTimestamp (db : DB) (stationID sensorKey : string)
    : result Z :=
  match filter (fun r => String.eqb (StationID r) stationID
                         && String.eqb (SensorKey r) sensorKey)
               (Telemetry db) with
  | [] => Ok 0
  | r :: rest => Ok (fold_left Z.max (map Timestamp rest) (Timestamp r))
  end.

(** The number of points of a fetched batch, whatever their values. *)
Definition countRecords (telemetry : list (string * list TelemetryPoint)) : Z :=
  fold_left (fun n e => n + Z.of_nat (List.length (snd e))) telemetry 0.

(** [processAndSaveTelemetry]: the count it returns and the state it leaves. *)
Definition processAndSaveTelemetry (deviceID : string)
    (telemetry : list (string * list TelemetryPoint)) (db : DB) : Z * DB :=
  let recordsCount := countRecords telemetry in
  if recordsCount =? 0 then (0, db)
  else
    match StoreTelemetry deviceID telemetry db with
    | (Err _, db') => (0, db')
    | (Ok _, db')  => (recordsCount, db')
    end.

(* ================================================================== *)
(** ** Predicates used to state the properties *)

Definition span (p : timePeriod) : Z := to p - from p.

(** [ps] is a sequence of non-empty windows, each starting where the
    previous one ends, the first at [a], the last ending at [b]: the windows
    are pairwise disjoint and their union is exactly [[a, b)]. *)
Fixpoint tiles (a : Z) (ps : list timePeriod) (b : Z) : Prop :=
  match ps with
  | [] => a = b
  | p :: rest => from p = a /\ from p < to p /\ tiles (to p) rest b
  end.

(** Every window but the last spans exactly [len]. *)
Fixpoint fullButLast (len : Z) (ps : list timePeriod) : Prop :=
  match ps with
  | [] => True
  | [_] => True
  | p :: rest => span p = len /\ fullButLast len rest
  end.

(** [w] is the oldest watermark of the existing group of a station. *)
Definition oldest_watermark (getLatest : string -> string -> result Z)
    (deviceID : string) (w : Z) : Prop :=
  0 < w /\
  (exists k, In k sensorKeys /\ getLatest deviceID k = Ok w) /\
  (forall k ts, In k sensorKeys -> getLatest deviceID k = Ok ts ->
                0 < ts -> w <= ts).

(** The sensor has no usable watermark: the read failed or found no row. *)
Definition isNew (r : result Z) : bool :=
  match r with
  | Err _ => true
  | Ok ts => negb (0 <? ts)
  end.

(** The natural key of a reading within one station. *)
Definition uniqueKeys (db : DB) : Prop :=
  NoDup (map (fun r => (StationID r, SensorKey r, Timestamp r)) (Telemetry db)).

(** The requests of a telemetry fetch that starts with the session [sid0]
    and logs in again once for each session of [sids]. *)
Definition telemetryRetries (sid0 : string) (sids : list string)
    (deviceID : string) (keys : list string) (tsFrom tsTo : Z) : list event :=
  EvTelemetry sid0 deviceID keys tsFrom tsTo
  :: flat_map (fun sid => [EvLogin; EvTelemetry sid deviceID keys tsFrom tsTo])
              sids.

(** Likewise for a fetch of the device list. *)
Definition devicesRetries (sid0 : string) (sids : list string) : list event :=
  EvDevices sid0 :: flat_map (fun sid => [EvLogin; EvDevices sid]) sids.

(** The remote side answers [Decoded status payload] with a status other
    than OK for each status of [statuses]. *)
Definition refusals {A : Type} (payload : A) (statuses : list string)
    : list (reply A) :=
  map (fun status => Decoded status payload) statuses.

(** The remote side grants the sessions [sids], one per login. *)
Definition grants (sids : list string) : loginScript :=
  map (fun sid => Decoded "OK"%string sid) sids.

Definition countLogins (tr : list event) : nat :=
  List.length (filter (fun e => match e with EvLogin => true | _ => false end) tr).

(** The batch without the points whose value is not numeric. *)
Definition isNumeric (p : TelemetryPoint) : bool :=
  match toFloat (Value p) with Some _ => true | None => false end.

Definition numericOnly (data : list (string * list TelemetryPoint))
    : list (string * list TelemetryPoint) :=
  map (fun e => (fst e, filter isNumeric (snd e))) data.


(** The statements a batch makes [StoreTelemetry] execute, in order: one
    per numeric point, as sensor key, timestamp and value. *)
Definition pointOps (sensorKey : string) (points : list TelemetryPoint)
    : list (string * Z * float) :=
  flat_map (fun p => match toFloat (Value p) with
                     | Some v => [(sensorKey, Ts p, v)]
                     | None => []
                     end) points.

Definition batchOps (data : list (string * list TelemetryPoint))
    : list (string * Z * float) :=
  flat_map (fun e => pointOps (fst e) (snd e)) data.

(** The statements executed one after the other, up to the first error. *)
Fixpoint applyOps (deviceID : string) (ops : list (string * Z * float))
    (db : DB) : result DB :=
  match ops with
  | [] => Ok db
  | (sk, ts, v) :: rest =>
      match execUpsert db deviceID sk ts (Z.quot ts 1000) v with
      | Err e => Err e
      | Ok db' => applyOps deviceID rest db'
      end
  end.

Definition registered (deviceID : string) (db : DB) : bool :=
  existsb (String.eqb deviceID) (Stations db).

Definition hasKey (deviceID : string) (db : DB) (op : string * Z * float)
    : bool :=
  existsb (keyMatch deviceID (fst (fst op)) (snd (fst op))) (Telemetry db).

(** The value of the last statement of [ops] for the key [(sk, ts)]. *)
Fixpoint lastVal (ops : list (string * Z * float)) (sk : string) (ts : Z)
    : option float :=
  match ops with
  | [] => None
  | (sk', ts', v) :: rest =>
      match lastVal rest sk ts with
      | Some v' => Some v'
      | None => if String.eqb sk sk' && (ts =? ts') then Some v else None
      end
  end.

(** A row of the station takes the last value the statements give its key. *)
Definition finalize (deviceID : string) (ops : list (string * Z * float))
    (r : Row) : Row :=
  if String.eqb (StationID r) deviceID then
    match lastVal ops (SensorKey r) (Timestamp r) with
    | Some v => setValue v r
    | None => r
    end
  else r.

Definition rowKey (r : Row) : string * string * Z :=
  (StationID r, SensorKey r, Timestamp r).

(** [m[key]] on a map kept as an association list: the points of the first
    entry with that key, none when there is no such entry. *)
Definition lookupPoints (key : string)
    (m : list (string * list TelemetryPoint)) : list TelemetryPoint :=
  match find (fun e => String.eqb (fst e) key) m with
  | Some e => snd e
  | None => []
  end.

(** The requests a fetch may add to the trace: a login, or the telemetry
    request of the call itself under a session that is not empty. *)
Definition telemetryEvent (deviceID : string) (keys : list string)
    (tsFrom tsTo : Z) (e : event) : Prop :=
  e = EvLogin
  \/ exists sid, String.eqb sid "" = false
                 /\ e = EvTelemetry sid deviceID keys tsFrom tsTo.

(** The rows of Telemetry of one station and sensor. *)
Definition rowsOf (db : DB) (stationID sensorKey : string) : list Row :=
  filter (fun r => String.eqb (StationID r) stationID
                   && String.eqb (SensorKey r) sensorKey)
         (Telemetry db).

(** [StoreStations], on the ID column of Stations (the only column a
    statement of the program reads): each MERGE inserts the station when no
    row has its ID and updates the other columns of that row otherwise. *)
Definition mergeStation (db : DB) (device : Device) : DB :=
  if existsb (String.eqb (ID device)) (Stations db) then db
  else mkDB (Stations db ++ [ID device]) (Telemetry db).

Definition StoreStations (devices : list Device) (db : DB) : DB :=
  fold_left mergeStation devices db.

(** [GetStations]: [SELECT ID FROM Stations]. *)
Definition GetStations (db : DB) : list string := Stations db.

(** The row belongs to a station other than [dev]. *)
Definition otherStation (dev : string) (r : Row) : bool :=
  negb (String.eqb (StationID r) dev).

(** *** The calendar, checked day by day

    The facts about the calendar that the monthly split relies on are
    checked by computation on every day from 1999-11-22 to 2100-02-09. *)

Definition civil_eqb (a b : civil) : bool :=
  (c_year a =? c_year b) && (c_month a =? c_month b) && (c_day a =? c_day b).

(** Day number of the first day of the month after month [m] of year [y]:
    what [Date] computes for the month [m + 1]. *)
Definition nextMonthDay (y m : Z) : Z :=
  days_from_civil (y + m / 12) (m mod 12 + 1) 1.

(** The day [d] with civil date [c]: the first day of its month is [c_day c - 1]
    days before it and has the same year and month; the first day of the
    next month is after [d], 28 to 31 days after the first day of the
    month, and is the first of that next month. *)
Definition dayCheckAt (d : Z) (c : civil) : bool :=
  let s  := d - (c_day c - 1) in
  let nd := nextMonthDay (c_year c) (c_month c) in
  (1 <=? c_month c) && (c_month c <=? 12)
  && (1 <=? c_day c) && (c_day c <=? 31)
  && (days_from_civil (c_year c) (c_month c) 1 =? s)
  && civil_eqb (civil_from_days s) (mkCivil (c_year c) (c_month c) 1)
  && (d <? nd) && (28 <=? nd - s) && (nd - s <=? 31)
  && civil_eqb (civil_from_days nd)
               (mkCivil (c_year c + c_month c / 12) (c_month c mod 12 + 1) 1).

Definition dayCheck (d : Z) : bool := dayCheckAt d (civil_from_days d).

Fixpoint checkFrom (n : nat) (d : Z) : bool :=
  match n with
  | O => true
  | S n' => dayCheck d && checkFrom n' (d + 1)
  end.

Definition firstCheckedDay : Z := 10917.
Definition checkedDays : nat := Z.to_nat 36605.

Definition checkedDay (d : Z) : Prop :=
  firstCheckedDay <= d < firstCheckedDay + 36605.

(** The instants of the years 2000 to 2099, in epoch milliseconds. *)
Definition century (ts : Z) : Prop := 946684800000 <= ts <= 4102444800000.

Definition dayMs : Z := 86400000.

(** [t] (in seconds) is the first instant of a month in the location. *)
Definition monthStart (loc t : Z) : Prop :=
  Day loc t = 1 /\ secOfDay loc t = 0.

(** Where the windows of [splitTimePeriodByMonth] start: at [tsFrom] when it
    falls after the first day of its month, and otherwise at the first
    instant of that month. *)
Definition effectiveStart (loc tsFrom : Z) : Z :=
  let fromTime := Z.quot tsFrom 1000 in
  if 1 <? Day loc fromTime then tsFrom
  else unixMilli (Date loc (Year loc fromTime) (Month loc fromTime) 1 0).

(** *** The fetch-and-store loops of [processDevice]

    The loop over the windows of one sensor group: each window is fetched
    and, when the fetch succeeds, stored; a failed fetch is logged and the
    loop goes on with the next window.  [remote] gives, for each call of
    [GetTelemetry] in turn, the replies of the remote side to the POSTs of
    that call. *)
Fixpoint processPeriods (deviceID : string) (keys : list string)
    (periods : list timePeriod)
    (remote : list (list (reply (list TelemetryData))))
    (w : WeatherAPI) (logins : loginScript) (db : DB) (totalRecordsCount : Z)
    : Z * WeatherAPI * loginScript * DB :=
  match periods with
  | [] => (totalRecordsCount, w, logins, db)
  | period :: rest =>
      match GetTelemetry (hd [] remote) w logins deviceID keys
                         (from period) (to period) with
      | (Err _, w', logins') =>
          processPeriods deviceID keys rest (tl remote) w' logins' db
                         totalRecordsCount
      | (Ok telemetry, w', logins') =>
          let '(recordsCount, db') :=
            processAndSaveTelemetry deviceID telemetry db in
          processPeriods deviceID keys rest (tl remote) w' logins' db'
                         (totalRecordsCount + recordsCount)
      end
  end.

(** A request for the window [p], under some session. *)
Definition requestFor (deviceID : string) (keys : list string)
    (p : timePeriod) (e : event) : Prop :=
  exists sid, e = EvTelemetry sid deviceID keys (from p) (to p).

(** *** Configuration

    [env] is the environment after [godotenv.Load]: [os.Getenv], which gives
    the empty string for a variable that is not set.  [scan] stands for
    [fmt.Sscanf(value, "%d", &n)]: the integer scanned, if any. *)
Record Config : Type := mkConfig {
  ApiLogin : string; ApiPassword : string; ApiBaseURL : string;
  DbServer : string; DbLogin : string; DbPassword : string; DbName : string;
  CollectionInterval : Z
}.

Definition getEnv (env : string -> string) (key defaultValue : string)
    : string :=
  let value := env key in
  if String.eqb value "" then defaultValue else value.

Definition getEnvAsInt (env : string -> string) (scan : string -> option Z)
    (key : string) (defaultValue : Z) : Z :=
  let value := env key in
  if String.eqb value "" then defaultValue
  else match scan value with
       | Some intValue => intValue
       | None => defaultValue
       end.

(** [LoadConfig]; [Err] stands for [log.Fatal]. *)
Definition LoadConfig (env : string -> string) (scan : string -> option Z)
    : result Config :=
  let cfg :=
    mkConfig (getEnv env "API_LOGIN" "") (getEnv env "API_PASSWORD" "")
             (getEnv env "API_BASE_URL" "https://api3.ttrackagro.ru")
             (getEnv env "DB_SERVER" "ACLSDWHODS001.acl.agroconcern.ru")
             (getEnv env "DB_LOGIN" "") (getEnv env "DB_PASSWORD" "")
             (getEnv env "DB_NAME" "WeatherData")
             (getEnvAsInt env scan "COLLECTION_INTERVAL" 15) in
  if String.eqb (ApiLogin cfg) "" || String.eqb (ApiPassword cfg) "" then
    Err "API_LOGIN and API_PASSWORD must be set"
  else if String.eqb (DbLogin cfg) "" || String.eqb (DbPassword cfg) "" then
    Err "DB_LOGIN and DB_PASSWORD must be set"
  else Ok cfg.

(* ================================================================== *)
(** ** Sample inputs *)

(** 2024-03-15T00:00:00Z in epoch milliseconds. *)
Definition sampleNow : Z := 1710460800000.

(** A station on which only [airtemp] has stored readings, the latest at
    [ts]; the other sensors have none. *)
Definition onlyAirtemp (ts : Z) (deviceID sensorKey : string) : result Z :=
  if String.eqb sensorKey "airtemp" then Ok ts else Ok 0.

(** As [onlyAirtemp], with a failing read for [soiltemp]. *)
Definition airtempAndFailure (ts : Z) (deviceID sensorKey : string)
    : result Z :=
  if String.eqb sensorKey "airtemp" then Ok ts
  else if String.eqb sensorKey "soiltemp" then Err "timeout"
  else Ok 0.

(** A client with a session, and a remote side that refuses two telemetry
    requests in a row before it accepts the third. *)
Definition sampleClient : WeatherAPI := mkAPI "s0" [].

Definition twoRefusals : list (reply (list TelemetryData)) :=
  [Decoded "error" []; Decoded "error" []; Decoded "OK" []]%string.

Definition twoGrants : loginScript := grants ["s1"; "s2"]%string.

(** A database that knows the station S1 and holds no reading, and a batch
    whose only point is not numeric. *)
Definition emptyS1 : DB := mkDB ["S1"%string] [].


(** A record of exactly zero with no string value, and a batch in which
    one timestamp of [airtemp] occurs twice. *)
Definition zeroRecord : TelemetryData :=
  mkTelemetryData "S1" "rainfall" 1710460000000 0%float ANil.

Definition sampleBatch : list (string * list TelemetryPoint) :=
  [ ("airtemp"%string,
     [mkPoint 1000 (AFloat64 1.5%float); mkPoint 2000 (AInt 3);
      mkPoint 1000 (AFloat64 2.5%float)]);
    ("rainfall"%string, [mkPoint 1000 (AString "N/A"); mkPoint 1000 (AInt64 0)]) ].

(** 2024-02-29T12:00:00Z in epoch milliseconds; 365 days earlier it is
    2023-03-01T12:00:00Z, the first day of a month but not its first
    instant. *)
Definition leapDayNoon : Z := 1709208000000.

(** A database that holds the readings of [sampleBatch] for S1. *)
Definition storedS1 : DB := snd (StoreTelemetry "S1" sampleBatch emptyS1).

Definition sampleDevices : list Device :=
  [ mkDevice "S1" "north field" "N" 55.5%float 37.5%float;
    mkDevice "S2" "south field" "S" 55.25%float 37.75%float ].

(** An environment with the four credentials and nothing else. *)
Definition credentialsOnly (key : string) : string :=
  if String.eqb key "API_LOGIN" then "user"
  else if String.eqb key "API_PASSWORD" then "secret"
  else if String.eqb key "DB_LOGIN" then "sa"
  else if String.eqb key "DB_PASSWORD" then "secret"
  else "".

Definition neverScans (value : string) : option Z := None.

(* ================================================================== *)
(** ** int64 arithmetic without overflow *)

Lemma wrap64_id (x : Z) : in_int64 x -> wrap64 x = x.
Proof.
  unfold in_int64, min_int64, max_int64, wrap64. intros H.
  rewrite Z.mod_small; lia.
Qed.

Lemma clock_range_bounds (now : Z) :
  clock_range now -> -9223372036854 <= now <= 9223372036854.
Proof.
  unfold clock_range.
  change (Z.quot min_int64 1000000) with (-9223372036854).
  change (Z.quot max_int64 1000000) with 9223372036854.
  trivial.
Qed.

Lemma add64_exact (a b : Z) : in_int64 (a + b) -> add64 a b = a + b.
Proof. apply wrap64_id. Qed.

Lemma sub64_exact (a b : Z) : in_int64 (a - b) -> sub64 a b = a - b.
Proof. apply wrap64_id. Qed.

Ltac int64_range :=
  unfold in_int64, min_int64, max_int64, intervalMs, monthMs, yearMs in *;
  lia.

(* ================================================================== *)
(** ** The fixed-length split *)

Lemma tiles_le (ps : list timePeriod) :
  forall a b, tiles a ps b -> a <= b.
Proof.
  induction ps as [|p ps IH]; simpl; intros a b H.
  - lia.
  - destruct H as (Ha & Hlt & Hrest). apply IH in Hrest. lia.
Qed.

Lemma daysLoop_tiles (fuel : nat) :
  forall len tsTo current acc,
    0 < len -> min_int64 <= current -> tsTo + len <= max_int64 ->
    current <= tsTo -> tsTo - current <= Z.of_nat fuel * len ->
    exists ps,
      daysLoop fuel len tsTo current acc = Some (acc ++ ps)
      /\ tiles current ps tsTo
      /\ Forall (fun p => span p <= len) ps
      /\ fullButLast len ps.
Proof.
  induction fuel as [|fuel IH]; intros len tsTo current acc Hlen Hlo Hhi Hle Hfuel.
  - assert (current = tsTo) by lia. subst current.
    exists []. simpl. rewrite Z.ltb_irrefl, app_nil_r. auto.
  - simpl. destruct (current <? tsTo) eqn:Hcur.
    + apply Z.ltb_lt in Hcur.
      rewrite add64_exact by int64_range.
      set (periodEnd := if tsTo <? current + len then tsTo else current + len).
      assert (Hpe : current < periodEnd <= tsTo
                    /\ periodEnd - current <= len
                    /\ (periodEnd < tsTo -> periodEnd - current = len)
                    /\ tsTo - periodEnd <= Z.of_nat fuel * len).
      { unfold periodEnd. destruct (tsTo <? current + len) eqn:Hclip.
        - apply Z.ltb_lt in Hclip. nia.
        - apply Z.ltb_ge in Hclip. nia. }
      destruct Hpe as (Hp1 & Hp2 & Hp3 & Hp4).
      destruct (IH len tsTo periodEnd (acc ++ [mkPeriod current periodEnd]))
        as (ps & Heq & Ht & Hall & Hfull); try lia.
      exists (mkPeriod current periodEnd :: ps).
      rewrite Heq, <- app_assoc.
      split; [reflexivity|]. split; [|split].
      * simpl. auto with zarith.
      * constructor; [unfold span; simpl; lia | exact Hall].
      * destruct ps as [|q ps']; [exact I|]. split; [|exact Hfull].
        unfold span; simpl. apply Hp3.
        simpl in Ht. destruct Ht as (Hq & Hqlt & Hrest).
        apply tiles_le in Hrest. lia.
    + apply Z.ltb_ge in Hcur. assert (current = tsTo) by lia. subst current.
      exists []. simpl. rewrite app_nil_r. auto.
Qed.

Lemma splitTimePeriodByDays_30 (fuel : nat) (tsFrom tsTo : Z) :
  min_int64 <= tsFrom -> tsTo + monthMs <= max_int64 -> tsFrom <= tsTo ->
  tsTo - tsFrom <= Z.of_nat fuel * monthMs ->
  exists ps,
    splitTimePeriodByDays fuel tsFrom tsTo 30 = Some ps
    /\ tiles tsFrom ps tsTo
    /\ Forall (fun p => span p <= monthMs) ps
    /\ fullButLast monthMs ps.
Proof.
  intros Hlo Hhi Hle Hfuel. unfold splitTimePeriodByDays.
  change (wrap64 (30 * 24 * 60 * 60 * 1000)) with monthMs.
  destruct (daysLoop_tiles fuel monthMs tsTo tsFrom []) as (ps & Heq & H);
    auto; [reflexivity|].
  exists ps. split; [exact Heq | exact H].
Qed.

(* ================================================================== *)
(** ** The classification loop *)

Section Classification.

Variable getLatest : string -> string -> result Z.
Variable deviceID : string.

Let get (k : string) : result Z := getLatest deviceID k.

Lemma classify_fold (keys : list string) :
  forall st,
    let st' := fold_left (classifyStep getLatest deviceID) keys st in
    newSensors st' = newSensors st ++ filter (fun k => isNew (get k)) keys
    /\ existingSensors st'
       = existingSensors st ++ filter (fun k => negb (isNew (get k))) keys
    /\ minTsFrom st' <= minTsFrom st
    /\ (forall k ts, In k keys -> get k = Ok ts -> 0 < ts ->
                     minTsFrom st' <= ts)
    /\ (minTsFrom st' = minTsFrom st
        \/ exists k, In k keys /\ get k = Ok (minTsFrom st')
                     /\ 0 < minTsFrom st').
Proof.
  induction keys as [|k keys IH]; intros st; simpl.
  - rewrite !app_nil_r. repeat split; auto; try lia.
  - specialize (IH (classifyStep getLatest deviceID st k)).
    simpl in IH. destruct IH as (Hn & He & Hm & Hall & Hwit).
    rewrite Hn, He. clear Hn He.
    set (st1 := classifyStep getLatest deviceID st k) in *.
    set (m' := minTsFrom (fold_left (classifyStep getLatest deviceID) keys st1)) in *.
    assert (Hst1 :
      newSensors st1
        = newSensors st ++ (if isNew (get k) then [k] else [])
      /\ existingSensors st1
        = existingSensors st ++ (if isNew (get k) then [] else [k])
      /\ minTsFrom st1 <= minTsFrom st
      /\ (forall ts, get k = Ok ts -> 0 < ts -> minTsFrom st1 <= ts)
      /\ (minTsFrom st1 = minTsFrom st
          \/ get k = Ok (minTsFrom st1) /\ 0 < minTsFrom st1)).
    { unfold st1, classifyStep, get.
      destruct (getLatest deviceID k) as [lastTs|msg]; simpl.
      - destruct (0 <? lastTs) eqn:Hpos; simpl.
        + apply Z.ltb_lt in Hpos.
          destruct (lastTs <? minTsFrom st) eqn:E;
            [apply Z.ltb_lt in E | apply Z.ltb_ge in E];
            (split; [now rewrite app_nil_r|]);
            (split; [reflexivity|]); (split; [lia|]);
            (split; [intros ts [= <-] _; lia|]); auto.
        + apply Z.ltb_ge in Hpos.
          split; [reflexivity|]. split; [now rewrite app_nil_r|].
          split; [lia|]. split; [intros ts [= <-] ?; lia|]. auto.
      - split; [reflexivity|]. split; [now rewrite app_nil_r|].
        split; [lia|]. split; [intros ts [=]|]. auto. }
    destruct Hst1 as (H1 & H2 & H3 & H4 & H5).
    rewrite H1, H2, <- !app_assoc.
    split; [destruct (isNew (get k)); reflexivity|].
    split; [destruct (isNew (get k)); reflexivity|].
    split; [lia|]. split.
    + intros k' ts [<-|Hin] Hget Hts.
      * specialize (H4 ts Hget Hts). lia.
      * eauto.
    + destruct Hwit as [Heq|(k' & Hin & Hget & Hp)].
      * destruct H5 as [H5|(H5 & H6)].
        -- left. lia.
        -- right. exists k. rewrite Heq. auto.
      * right. exists k'. auto.
Qed.

Lemma classify_new (now : Z) (keys : list string) :
  newSensors (classify getLatest deviceID now keys)
  = filter (fun k => isNew (getLatest deviceID k)) keys.
Proof.
  unfold classify.
  destruct (classify_fold keys (mkSensorState [] [] [] now)) as (H & _).
  exact H.
Qed.

Lemma classify_existing (now : Z) (keys : list string) :
  existingSensors (classify getLatest deviceID now keys)
  = filter (fun k => negb (isNew (getLatest deviceID k))) keys.
Proof.
  unfold classify.
  destruct (classify_fold keys (mkSensorState [] [] [] now)) as (_ & H & _).
  exact H.
Qed.

Lemma classify_min_keys (now w : Z) (keys : list string) :
  0 < w ->
  (exists k, In k keys /\ getLatest deviceID k = Ok w) ->
  (forall k ts, In k keys -> getLatest deviceID k = Ok ts ->
                0 < ts -> w <= ts) ->
  minTsFrom (classify getLatest deviceID now keys) = Z.min now w.
Proof.
  intros Hw (k & Hin & Hk) Hleast. unfold classify.
  destruct (classify_fold keys (mkSensorState [] [] [] now))
    as (_ & _ & Hm & Hall & Hwit).
  simpl in *.
  specialize (Hall k w Hin Hk Hw).
  destruct Hwit as [Heq|(k' & Hin' & Hget & Hp)].
  - lia.
  - specialize (Hleast k' _ Hin' Hget Hp). lia.
Qed.

Lemma classify_min (now w : Z) :
  oldest_watermark getLatest deviceID w ->
  minTsFrom (classify getLatest deviceID now sensorKeys) = Z.min now w.
Proof.
  intros (Hw & Hex & Hleast). now apply classify_min_keys.
Qed.

Lemma classify_existing_nonempty (now w : Z) :
  oldest_watermark getLatest deviceID w ->
  existingSensors (classify getLatest deviceID now sensorKeys) <> [].
Proof.
  intros (Hw & (k & Hin & Hk) & _) Hnil.
  assert (Hk' : In k (existingSensors
                        (classify getLatest deviceID now sensorKeys))).
  { rewrite classify_existing. apply filter_In. split; [exact Hin|].
    rewrite Hk. simpl. apply Z.ltb_lt in Hw. rewrite Hw. reflexivity. }
  rewrite Hnil in Hk'. destruct Hk'.
Qed.

End Classification.

(* ================================================================== *)
(** ** The windows of the existing group *)

Ltac sensor_cases H :=
  unfold sensorKeys in H; simpl In in H;
  repeat (destruct H as [H|H]; [subst|]); [..|destruct H].

Lemma onlyAirtemp_oldest (dev : string) (ts : Z) :
  0 < ts -> oldest_watermark (onlyAirtemp ts) dev ts.
Proof.
  intros Hts. split; [exact Hts|]. split.
  - exists "airtemp"%string. split; [left; reflexivity | reflexivity].
  - intros k ts' Hin. sensor_cases Hin; cbn; intros [= <-]; lia.
Qed.

Lemma airtempAndFailure_oldest (dev : string) (ts : Z) :
  0 < ts -> oldest_watermark (airtempAndFailure ts) dev ts.
Proof.
  intros Hts. split; [exact Hts|]. split.
  - exists "airtemp"%string. split; [left; reflexivity | reflexivity].
  - intros k ts' Hin. sensor_cases Hin; cbn; intros [= <-]; lia.
Qed.

Lemma sampleNow_clock : clock_range sampleNow.
Proof. apply conj; discriminate. Qed.

Lemma existing_periods_unfold fuel loc getLatest dev now w :
  oldest_watermark getLatest dev w ->
  p_existingPeriods (processDevice fuel loc getLatest dev now)
  = existingPlan fuel now (computeTsFrom now (Z.min now w)).
Proof.
  intros Hw. unfold processDevice. cbn [p_existingPeriods].
  rewrite (classify_min getLatest dev now w Hw).
  destruct (existingSensors (classify getLatest dev now sensorKeys)) eqn:E.
  - exfalso. exact (classify_existing_nonempty getLatest dev now w Hw E).
  - reflexivity.
Qed.

Lemma computeTsFrom_before now w :
  clock_range now -> 0 < w -> w < now -> computeTsFrom now (Z.min now w) = w + 1.
Proof.
  intros Hc Hw Hlt. apply clock_range_bounds in Hc.
  rewrite Z.min_r by lia. unfold computeTsFrom.
  apply Z.ltb_lt in Hlt as Hb1. apply Z.ltb_lt in Hw as Hb2.
  rewrite Hb1, Hb2. simpl. apply add64_exact. int64_range.
Qed.

Lemma computeTsFrom_not_before now w :
  clock_range now -> now <= w -> computeTsFrom now (Z.min now w) = now - intervalMs.
Proof.
  intros Hc Hle. apply clock_range_bounds in Hc.
  rewrite Z.min_l by lia. unfold computeTsFrom.
  rewrite Z.ltb_irrefl. simpl. apply sub64_exact. int64_range.
Qed.

(** C4.  When the oldest watermark [w] of the existing group lies at most
    30 days before [now] (and before [now]), the planner requests exactly
    one window for that group, [[w + 1, now)]. *)
Theorem single_window_within_30_days fuel loc getLatest dev now w :
  clock_range now -> oldest_watermark getLatest dev w ->
  0 < now - w <= monthMs ->
  p_existingPeriods (processDevice fuel loc getLatest dev now)
  = Some [mkPeriod (w + 1) now].
Proof.
  intros Hc Hw Hgap. rewrite (existing_periods_unfold _ _ _ _ _ w Hw).
  destruct Hw as (Hpos & _).
  rewrite computeTsFrom_before by (auto; lia).
  apply clock_range_bounds in Hc. unfold existingPlan.
  rewrite sub64_exact by int64_range.
  replace (w + 1 <? now - monthMs) with false; [reflexivity|].
  symmetry. apply Z.ltb_ge. lia.
Qed.

Lemma single_window_within_30_days_witness :
  p_existingPeriods
    (processDevice 0 0 (onlyAirtemp (sampleNow - 600000)) "S1" sampleNow)
  = Some [mkPeriod (sampleNow - 600000 + 1) sampleNow].
Proof.
  apply (single_window_within_30_days 0 0 (onlyAirtemp (sampleNow - 600000))
           "S1" sampleNow (sampleNow - 600000)).
  - exact sampleNow_clock.
  - apply onlyAirtemp_oldest. reflexivity.
  - unfold sampleNow, monthMs. lia.
Defined.

(** C5.  When the oldest watermark [w] of the existing group lies more than
    30 days before [now], the planner requests for that group windows that
    follow one another without gap or overlap from [w + 1] to [now], none
    empty, none longer than 30 days, and all but the last exactly 30 days
    long; any [fuel] of at least the number of windows gives the result. *)
Theorem thirty_day_windows_beyond_30_days fuel loc getLatest dev now w :
  clock_range now -> oldest_watermark getLatest dev w ->
  monthMs < now - w ->
  now - w <= Z.of_nat fuel * monthMs ->
  exists ps,
    p_existingPeriods (processDevice fuel loc getLatest dev now) = Some ps
    /\ ps <> []
    /\ tiles (w + 1) ps now
    /\ Forall (fun p => span p <= monthMs) ps
    /\ fullButLast monthMs ps.
Proof.
  intros Hc Hw Hgap Hfuel. rewrite (existing_periods_unfold _ _ _ _ _ w Hw).
  destruct Hw as (Hpos & _).
  assert (Hm : monthMs = 2592000000) by reflexivity.
  rewrite computeTsFrom_before by (auto; lia).
  apply clock_range_bounds in Hc. unfold existingPlan.
  rewrite sub64_exact by int64_range.
  destruct (w + 1 <? now - monthMs) eqn:Hsplit.
  - destruct (splitTimePeriodByDays_30 fuel (w + 1) now)
      as (ps & Heq & Ht & Hall & Hfull); try int64_range; try lia.
    exists ps. repeat split; auto.
    intros ->. simpl in Ht. lia.
  - apply Z.ltb_ge in Hsplit.
    exists [mkPeriod (w + 1) now]. repeat split; simpl; auto; try lia.
    + discriminate.
    + constructor; [unfold span; simpl; lia | constructor].
Qed.

Lemma thirty_day_windows_beyond_30_days_witness :
  exists ps,
    p_existingPeriods
      (processDevice 3 0 (onlyAirtemp (sampleNow - 6048000001)) "S1" sampleNow)
    = Some ps
    /\ ps <> []
    /\ tiles (sampleNow - 6048000001 + 1) ps sampleNow
    /\ Forall (fun p => span p <= monthMs) ps
    /\ fullButLast monthMs ps.
Proof.
  apply (thirty_day_windows_beyond_30_days 3 0
           (onlyAirtemp (sampleNow - 6048000001)) "S1" sampleNow
           (sampleNow - 6048000001)).
  - exact sampleNow_clock.
  - apply onlyAirtemp_oldest. reflexivity.
  - unfold sampleNow, monthMs. lia.
  - unfold sampleNow, monthMs. simpl. lia.
Defined.

(** C3, as the code has it.  When the oldest watermark of the existing group
    is not before [now], the planner does not return an empty sequence: it
    requests the one window of the last 15 minutes, [[now - 15 min, now)]. *)
Theorem default_window_when_watermark_not_before_now
    fuel loc getLatest dev now w :
  clock_range now -> oldest_watermark getLatest dev w -> now <= w ->
  p_existingPeriods (processDevice fuel loc getLatest dev now)
  = Some [mkPeriod (now - intervalMs) now].
Proof.
  intros Hc Hw Hle. rewrite (existing_periods_unfold _ _ _ _ _ w Hw).
  rewrite computeTsFrom_not_before by auto.
  apply clock_range_bounds in Hc. unfold existingPlan.
  rewrite sub64_exact by int64_range.
  replace (now - intervalMs <? now - monthMs) with false; [reflexivity|].
  symmetry. apply Z.ltb_ge. int64_range.
Qed.

Lemma default_window_when_watermark_not_before_now_witness :
  p_existingPeriods (processDevice 0 0 (onlyAirtemp sampleNow) "S1" sampleNow)
  = Some [mkPeriod (sampleNow - intervalMs) sampleNow].
Proof.
  apply (default_window_when_watermark_not_before_now 0 0
           (onlyAirtemp sampleNow) "S1" sampleNow sampleNow).
  - exact sampleNow_clock.
  - apply onlyAirtemp_oldest. reflexivity.
  - apply Z.le_refl.
Defined.

(** C3, as stated, fails: with the only watermark of the station equal to
    [now] (2024-03-15T00:00:00Z), the planner requests the window
    [[now - 15 min, now)] instead of no window. *)
Lemma watermark_equal_to_now_is_given_a_window :
  oldest_watermark (onlyAirtemp sampleNow) "S1" sampleNow
  /\ p_existingPeriods
       (processDevice 0 0 (onlyAirtemp sampleNow) "S1" sampleNow)
     = Some [mkPeriod 1710459900000 1710460800000]
  /\ p_existingPeriods
       (processDevice 0 0 (onlyAirtemp sampleNow) "S1" sampleNow)
     <> Some [].
Proof.
  split; [apply onlyAirtemp_oldest; reflexivity|].
  split; [vm_compute; reflexivity | vm_compute; discriminate].
Qed.

(* ================================================================== *)
(** ** The two sensor groups *)

Lemma existing_sensor_has_watermark
    (getLatest : string -> string -> result Z) (dev k : string) :
  In k (filter (fun k => negb (isNew (getLatest dev k))) sensorKeys) ->
  In k sensorKeys /\ exists ts, getLatest dev k = Ok ts /\ 0 < ts.
Proof.
  intros H. apply filter_In in H. destruct H as (Hin & Hb).
  split; [exact Hin|].
  destruct (getLatest dev k) as [ts|msg]; simpl in Hb; [|discriminate].
  exists ts. split; [reflexivity|].
  rewrite negb_involutive in Hb. now apply Z.ltb_lt.
Qed.

(** C8, as the code has it.  The sensors of a station are split into the
    new group (failed read or no stored reading) and the existing group
    (a stored reading); the new group, when not empty, is given the monthly
    split of [[now - 365 d, now)]; the lower bound of the fetch of the
    existing group is its oldest watermark plus one millisecond when that
    watermark is before [now], and [now - 15 min] otherwise; in both cases it
    is at most one millisecond after the watermark of each existing
    sensor. *)
Theorem sensors_partitioned_and_oldest_watermark_used
    fuel loc getLatest dev now w :
  clock_range now -> oldest_watermark getLatest dev w ->
  let plan := processDevice fuel loc getLatest dev now in
  p_newSensors plan = filter (fun k => isNew (getLatest dev k)) sensorKeys
  /\ p_existingSensors plan
     = filter (fun k => negb (isNew (getLatest dev k))) sensorKeys
  /\ (p_newSensors plan <> [] ->
      p_newPeriods plan = splitTimePeriodByMonth fuel loc (now - yearMs) now)
  /\ (w < now -> p_tsFrom plan = w + 1)
  /\ (now <= w -> p_tsFrom plan = now - intervalMs)
  /\ (forall k ts, In k (p_existingSensors plan) ->
                   getLatest dev k = Ok ts -> p_tsFrom plan <= ts + 1).
Proof.
  intros Hc Hw plan.
  assert (Hnew : p_newSensors plan
                 = filter (fun k => isNew (getLatest dev k)) sensorKeys)
    by apply classify_new.
  assert (Hex : p_existingSensors plan
                = filter (fun k => negb (isNew (getLatest dev k))) sensorKeys)
    by apply classify_existing.
  assert (Hts : p_tsFrom plan = computeTsFrom now (Z.min now w)).
  { unfold plan, processDevice. cbn [p_tsFrom].
    now rewrite (classify_min getLatest dev now w Hw). }
  assert (Hb := clock_range_bounds now Hc).
  split; [exact Hnew|]. split; [exact Hex|]. split; [|split; [|split]].
  - unfold plan, processDevice. cbn [p_newPeriods p_newSensors].
    destruct (newSensors (classify getLatest dev now sensorKeys));
      [intros H; now elim H|].
    intros _. unfold newPlan. now rewrite sub64_exact by int64_range.
  - intros Hlt. rewrite Hts. destruct Hw as (Hpos & _).
    now apply computeTsFrom_before.
  - intros Hle. rewrite Hts. now apply computeTsFrom_not_before.
  - intros k ts Hin Hget. rewrite Hex in Hin.
    apply existing_sensor_has_watermark in Hin.
    destruct Hin as (Hin & ts' & Hget' & Hpos').
    rewrite Hget in Hget'. injection Hget' as <-.
    destruct Hw as (Hpos & _ & Hleast).
    specialize (Hleast k ts Hin Hget Hpos').
    rewrite Hts. destruct (Z.lt_ge_cases w now).
    + rewrite computeTsFrom_before by auto. lia.
    + rewrite computeTsFrom_not_before by auto. int64_range.
Qed.

Lemma sensors_partitioned_and_oldest_watermark_used_witness :
  let plan :=
    processDevice 20 0 (airtempAndFailure (sampleNow - 600000)) "S1" sampleNow in
  p_newSensors plan
  = filter (fun k => isNew (airtempAndFailure (sampleNow - 600000) "S1" k))
           sensorKeys
  /\ p_existingSensors plan
     = filter (fun k => negb (isNew (airtempAndFailure (sampleNow - 600000) "S1" k)))
              sensorKeys
  /\ (p_newSensors plan <> [] ->
      p_newPeriods plan
      = splitTimePeriodByMonth 20 0 (sampleNow - yearMs) sampleNow)
  /\ (sampleNow - 600000 < sampleNow -> p_tsFrom plan = sampleNow - 600000 + 1)
  /\ (sampleNow <= sampleNow - 600000 -> p_tsFrom plan = sampleNow - intervalMs)
  /\ (forall k ts, In k (p_existingSensors plan) ->
                   airtempAndFailure (sampleNow - 600000) "S1" k = Ok ts ->
                   p_tsFrom plan <= ts + 1).
Proof.
  apply (sensors_partitioned_and_oldest_watermark_used 20 0
           (airtempAndFailure (sampleNow - 600000)) "S1" sampleNow
           (sampleNow - 600000)).
  - exact sampleNow_clock.
  - apply airtempAndFailure_oldest. reflexivity.
Defined.

(** C8, as stated, fails: on a station whose only stored reading carries a
    timestamp one minute after [now] and which also has new sensors, the
    lower bound of the fetch of the existing group is [now - 15 min], not
    the oldest watermark plus one millisecond. *)
Lemma watermark_after_now_is_not_the_lower_bound :
  let w := sampleNow + 60000 in
  let plan := processDevice 20 0 (airtempAndFailure w) "S1" sampleNow in
  oldest_watermark (airtempAndFailure w) "S1" w
  /\ p_existingSensors plan = ["airtemp"%string]
  /\ p_newSensors plan <> []
  /\ p_tsFrom plan = sampleNow - 900000
  /\ p_tsFrom plan <> w + 1.
Proof.
  split; [apply airtempAndFailure_oldest; reflexivity|].
  split; [vm_compute; reflexivity|].
  split; [vm_compute; discriminate|].
  split; [vm_compute; reflexivity | vm_compute; discriminate].
Qed.

(* ================================================================== *)
(** ** Re-authentication and retry *)

Lemma Login_granted (w : WeatherAPI) (sid : string) (rest : loginScript) :
  String.eqb sid "" = false ->
  Login w (Decoded "OK" sid :: rest)
  = (Ok tt, mkAPI sid (trace w ++ [EvLogin]), rest).
Proof. intros Hsid. unfold Login. simpl. now rewrite Hsid. Qed.

Lemma last_cons_default (l : list string) (x d : string) :
  last (x :: l) d = last l x.
Proof.
  revert x d. induction l as [|y l IH]; intros x d; [reflexivity|].
  change (last (x :: y :: l) d) with (last (y :: l) d).
  now rewrite !IH.
Qed.

Lemma GetTelemetry_retries (statuses : list string) :
  forall (sids : list string) w logins rest data dev keys a b,
    String.eqb (SessionID w) "" = false ->
    Forall (fun st => String.eqb st "OK" = false) statuses ->
    Forall (fun sid => String.eqb sid "" = false) sids ->
    List.length sids = List.length statuses ->
    GetTelemetry (refusals [] statuses ++ Decoded "OK" data :: rest)
                 w (grants sids ++ logins) dev keys a b
    = (Ok (toMap data),
       mkAPI (last sids (SessionID w))
             (trace w ++ telemetryRetries (SessionID w) sids dev keys a b),
       logins).
Proof.
  induction statuses as [|st statuses IH];
    intros sids w logins rest data dev keys a b Hw Hst Hsids Hlen.
  - destruct sids; [|discriminate]. simpl.
    unfold ensureSession. rewrite Hw. reflexivity.
  - destruct sids as [|sid sids]; [discriminate|].
    inversion Hst as [|? ? Hst1 Hst2]; subst.
    inversion Hsids as [|? ? Hs1 Hs2]; subst.
    simpl in Hlen. injection Hlen as Hlen.
    cbn [refusals map app grants GetTelemetry].
    unfold ensureSession at 1. rewrite Hw, Hst1. cbn [negb].
    rewrite Login_granted by exact Hs1.
    change (map (fun status => Decoded status []) statuses)
      with (refusals (@nil TelemetryData) statuses).
    change (map (fun sid0 => Decoded "OK"%string sid0) sids) with (grants sids).
    rewrite IH; auto. cbn [SessionID trace].
    rewrite (last_cons_default sids sid (SessionID w)).
    unfold telemetryRetries. cbn [flat_map app].
    rewrite <- !app_assoc. reflexivity.
Qed.

Lemma GetDevices_retries (statuses : list string) :
  forall (sids : list string) w logins rest data,
    String.eqb (SessionID w) "" = false ->
    Forall (fun st => String.eqb st "OK" = false) statuses ->
    Forall (fun sid => String.eqb sid "" = false) sids ->
    List.length sids = List.length statuses ->
    GetDevices (refusals [] statuses ++ Decoded "OK" data :: rest)
               w (grants sids ++ logins)
    = (Ok data,
       mkAPI (last sids (SessionID w))
             (trace w ++ devicesRetries (SessionID w) sids),
       logins).
Proof.
  induction statuses as [|st statuses IH];
    intros sids w logins rest data Hw Hst Hsids Hlen.
  - destruct sids; [|discriminate]. simpl.
    unfold ensureSession. rewrite Hw. reflexivity.
  - destruct sids as [|sid sids]; [discriminate|].
    inversion Hst as [|? ? Hst1 Hst2]; subst.
    inversion Hsids as [|? ? Hs1 Hs2]; subst.
    simpl in Hlen. injection Hlen as Hlen.
    cbn [refusals map app grants GetDevices].
    unfold ensureSession at 1. rewrite Hw, Hst1. cbn [negb].
    rewrite Login_granted by exact Hs1.
    change (map (fun status => Decoded status []) statuses)
      with (refusals (@nil Device) statuses).
    change (map (fun sid0 => Decoded "OK"%string sid0) sids) with (grants sids).
    rewrite IH; auto. cbn [SessionID trace].
    rewrite (last_cons_default sids sid (SessionID w)).
    unfold devicesRetries. cbn [flat_map app].
    rewrite <- !app_assoc. reflexivity.
Qed.

(** C2, as the code has it.  A fetch that observes a status other than OK
    logs in again and repeats the same call, and does so after every such
    status, without a bound: when the remote side refuses the first
    [length statuses] requests and grants a session at each login, the fetch
    sends that many logins and one more request than that, each with the
    session of the login before it, and succeeds with the data of the first
    accepted request. *)
Theorem fetch_retries_after_every_refusal
    (statuses sids : list string) (w : WeatherAPI) (logins : loginScript) :
  String.eqb (SessionID w) "" = false ->
  Forall (fun st => String.eqb st "OK" = false) statuses ->
  Forall (fun sid => String.eqb sid "" = false) sids ->
  List.length sids = List.length statuses ->
  (forall rest data dev keys a b,
     GetTelemetry (refusals [] statuses ++ Decoded "OK" data :: rest)
                  w (grants sids ++ logins) dev keys a b
     = (Ok (toMap data),
        mkAPI (last sids (SessionID w))
              (trace w ++ telemetryRetries (SessionID w) sids dev keys a b),
        logins))
  /\ (forall rest data,
       GetDevices (refusals [] statuses ++ Decoded "OK" data :: rest)
                  w (grants sids ++ logins)
       = (Ok data,
          mkAPI (last sids (SessionID w))
                (trace w ++ devicesRetries (SessionID w) sids),
          logins)).
Proof.
  intros Hw Hst Hsids Hlen. split; intros.
  - now apply GetTelemetry_retries.
  - now apply GetDevices_retries.
Qed.

Lemma fetch_retries_after_every_refusal_witness :
  (forall rest data dev keys a b,
     GetTelemetry (refusals [] ["error"; "error"; "error"]%string
                   ++ Decoded "OK" data :: rest)
                  sampleClient (grants ["s1"; "s2"; "s3"]%string ++ [])
                  dev keys a b
     = (Ok (toMap data),
        mkAPI (last ["s1"; "s2"; "s3"]%string (SessionID sampleClient))
              (trace sampleClient
               ++ telemetryRetries (SessionID sampleClient)
                    ["s1"; "s2"; "s3"]%string dev keys a b),
        []))
  /\ (forall rest data,
       GetDevices (refusals [] ["error"; "error"; "error"]%string
                   ++ Decoded "OK" data :: rest)
                  sampleClient (grants ["s1"; "s2"; "s3"]%string ++ [])
       = (Ok data,
          mkAPI (last ["s1"; "s2"; "s3"]%string (SessionID sampleClient))
                (trace sampleClient
                 ++ devicesRetries (SessionID sampleClient)
                      ["s1"; "s2"; "s3"]%string),
          [])).
Proof.
  apply (fetch_retries_after_every_refusal
           ["error"; "error"; "error"]%string ["s1"; "s2"; "s3"]%string
           sampleClient []).
  - reflexivity.
  - repeat constructor.
  - repeat constructor.
  - reflexivity.
Defined.

(** C2, as stated, fails: when the repeated call is refused too, the fetch
    does not return an error; it logs in a second time, sends the request a
    third time and succeeds. *)
Lemma second_refusal_is_retried_again :
  GetTelemetry twoRefusals sampleClient twoGrants "S1" ["airtemp"%string] 0 1000
  = (Ok [],
     mkAPI "s2"
       [ EvTelemetry "s0" "S1" ["airtemp"%string] 0 1000; EvLogin;
         EvTelemetry "s1" "S1" ["airtemp"%string] 0 1000; EvLogin;
         EvTelemetry "s2" "S1" ["airtemp"%string] 0 1000 ],
     [])
  /\ countLogins
       (trace (snd (fst (GetTelemetry twoRefusals sampleClient twoGrants
                           "S1" ["airtemp"%string] 0 1000)))) = 2%nat.
Proof. split; reflexivity. Qed.

(* ================================================================== *)
(** ** Points that are not numeric *)

Lemma storePoints_numeric (dev sk : string) (pts : list TelemetryPoint) :
  forall db,
    storePoints dev sk pts db = storePoints dev sk (filter isNumeric pts) db.
Proof.
  induction pts as [|p pts IH]; intros db; [reflexivity|].
  cbn [storePoints filter]. unfold isNumeric at 1.
  destruct (toFloat (Value p)) as [v|] eqn:Hv.
  - cbn [storePoints]. rewrite Hv.
    destruct (execUpsert db dev sk (Ts p) (Ts p ÷ 1000) v); auto.
  - apply IH.
Qed.

Lemma storeEntries_numericOnly (dev : string)
    (data : list (string * list TelemetryPoint)) :
  forall db, storeEntries dev data db = storeEntries dev (numericOnly data) db.
Proof.
  induction data as [|[sk pts] data IH]; intros db; [reflexivity|].
  cbn [storeEntries numericOnly map fst snd].
  rewrite <- storePoints_numeric.
  destruct (storePoints dev sk pts db); [apply IH | reflexivity].
Qed.

Lemma StoreTelemetry_numericOnly dev data db :
  StoreTelemetry dev data db = StoreTelemetry dev (numericOnly data) db.
Proof. unfold StoreTelemetry. now rewrite <- storeEntries_numericOnly. Qed.


(* ================================================================== *)
(** ** Readings of exactly zero *)

Lemma appendPoint_keeps (m : list (string * list TelemetryPoint))
    (k k' : string) (pts : list TelemetryPoint) (p p' : TelemetryPoint) :
  In (k, pts) m -> In p pts ->
  exists pts', In (k, pts') (appendPoint m k' p') /\ In p pts'.
Proof.
  induction m as [|[k0 pts0] m IH]; intros Hin Hp; [destruct Hin|].
  cbn [appendPoint]. destruct Hin as [Heq|Hin].
  - injection Heq as -> ->.
    destruct (String.eqb k k').
    + exists (pts ++ [p']). split; [left; reflexivity|].
      apply in_or_app. now left.
    + exists pts. split; [left; reflexivity | exact Hp].
  - destruct (String.eqb k0 k').
    + exists pts. split; [right; exact Hin | exact Hp].
    + destruct (IH Hin Hp) as (pts' & H1 & H2).
      exists pts'. split; [right; exact H1 | exact H2].
Qed.

Lemma appendPoint_adds (m : list (string * list TelemetryPoint))
    (k : string) (p : TelemetryPoint) :
  exists pts, In (k, pts) (appendPoint m k p) /\ In p pts.
Proof.
  induction m as [|[k0 pts0] m IH]; cbn [appendPoint].
  - exists [p]. split; left; reflexivity.
  - destruct (String.eqb k0 k) eqn:E.
    + apply String.eqb_eq in E. subst k0.
      exists (pts0 ++ [p]). split; [left; reflexivity|].
      apply in_or_app. right. left. reflexivity.
    + destruct IH as (pts & H1 & H2). exists pts.
      split; [right; exact H1 | exact H2].
Qed.

(** Every record of a response is in the map built from it, under its key. *)
Lemma toMap_complete (ds : list TelemetryData) (r : TelemetryData) :
  In r ds ->
  exists pts, In (Key r, pts) (toMap ds) /\ In (toPoint r) pts.
Proof.
  unfold toMap.
  assert (Hgen : forall ds m,
    (In r ds \/ exists pts, In (Key r, pts) m /\ In (toPoint r) pts) ->
    exists pts,
      In (Key r, pts)
         (fold_left (fun m data => appendPoint m (Key data) (toPoint data)) ds m)
      /\ In (toPoint r) pts).
  { clear ds. induction ds as [|d ds IH]; intros m H; simpl.
    - destruct H as [[]|H]. exact H.
    - apply IH. destruct H as [[->|Hin]|(pts & H1 & H2)].
      + right. apply appendPoint_adds.
      + now left.
      + right. eapply appendPoint_keeps; eauto. }
  intros Hin. apply Hgen. now left.
Qed.

Lemma GetTelemetry_accepted w logins rest ds dev keys a b :
  String.eqb (SessionID w) "" = false ->
  GetTelemetry (Decoded "OK" ds :: rest) w logins dev keys a b
  = (Ok (toMap ds),
     mkAPI (SessionID w) (trace w ++ [EvTelemetry (SessionID w) dev keys a b]),
     logins).
Proof.
  intros Hw. cbn [GetTelemetry]. unfold ensureSession. now rewrite Hw.
Qed.

(** C10.  A record whose [dbl_v] is exactly 0 yields a point whose value is
    the record's [str_v]; when that is absent (nil), the point reaches
    [StoreTelemetry] in the fetched map under the record's key and is
    dropped there: the store acts as on the map without its non-numeric
    points, in which the point does not occur. *)
Theorem zero_readings_never_stored
    (r : TelemetryData) (ds : list TelemetryData) (w : WeatherAPI)
    (logins : loginScript) (rest : list (reply (list TelemetryData)))
    (dev : string) (keys : list string) (a b : Z) (db : DB) :
  String.eqb (SessionID w) "" = false ->
  PrimFloat.eqb (DblV r) 0 = true ->
  In r ds ->
  Value (toPoint r) = StrV r
  /\ fst (fst (GetTelemetry (Decoded "OK" ds :: rest) w logins dev keys a b))
     = Ok (toMap ds)
  /\ (exists pts, In (Key r, pts) (toMap ds) /\ In (toPoint r) pts)
  /\ StoreTelemetry dev (toMap ds) db
     = StoreTelemetry dev (numericOnly (toMap ds)) db
  /\ (StrV r = ANil ->
      forall k pts, In (k, pts) (numericOnly (toMap ds)) ->
                    ~ In (toPoint r) pts).
Proof.
  intros Hw Hzero Hin.
  assert (Hval : Value (toPoint r) = StrV r).
  { unfold toPoint. cbn [Value]. now rewrite Hzero. }
  split; [exact Hval|]. split; [now rewrite GetTelemetry_accepted|].
  split; [now apply toMap_complete|].
  split; [apply StoreTelemetry_numericOnly|].
  intros Hnil k pts Hk Hp. unfold numericOnly in Hk.
  apply in_map_iff in Hk. destruct Hk as ([k0 pts0] & Heq & _).
  injection Heq as _ <-. apply filter_In in Hp. destruct Hp as (_ & Hnum).
  unfold isNumeric in Hnum. rewrite Hval, Hnil in Hnum. discriminate.
Qed.

Lemma zero_readings_never_stored_witness :
  Value (toPoint zeroRecord) = StrV zeroRecord
  /\ fst (fst (GetTelemetry (Decoded "OK" [zeroRecord] :: []) sampleClient []
                 "S1" ["rainfall"%string] 0 sampleNow))
     = Ok (toMap [zeroRecord])
  /\ (exists pts, In (Key zeroRecord, pts) (toMap [zeroRecord])
                  /\ In (toPoint zeroRecord) pts)
  /\ StoreTelemetry "S1" (toMap [zeroRecord]) emptyS1
     = StoreTelemetry "S1" (numericOnly (toMap [zeroRecord])) emptyS1
  /\ (StrV zeroRecord = ANil ->
      forall k pts, In (k, pts) (numericOnly (toMap [zeroRecord])) ->
                    ~ In (toPoint zeroRecord) pts).
Proof.
  apply (zero_readings_never_stored zeroRecord [zeroRecord] sampleClient []
           [] "S1" ["rainfall"%string] 0 sampleNow emptyS1).
  - reflexivity.
  - reflexivity.
  - left. reflexivity.
Defined.

(* ================================================================== *)
(** ** Idempotence of the sink *)

Lemma applyOps_app (dev : string) (l1 l2 : list (string * Z * float)) :
  forall db,
    applyOps dev (l1 ++ l2) db
    = match applyOps dev l1 db with
      | Ok db' => applyOps dev l2 db'
      | Err e => Err e
      end.
Proof.
  induction l1 as [|[[sk ts] v] l1 IH]; intros db; [reflexivity|].
  cbn [app applyOps].
  destruct (execUpsert db dev sk ts (ts ÷ 1000) v); [apply IH | reflexivity].
Qed.

Lemma storePoints_ops (dev sk : string) (pts : list TelemetryPoint) :
  forall db, storePoints dev sk pts db = applyOps dev (pointOps sk pts) db.
Proof.
  induction pts as [|p pts IH]; intros db; [reflexivity|].
  cbn [storePoints pointOps flat_map].
  destruct (toFloat (Value p)) as [v|]; [|apply IH].
  cbn [app applyOps].
  destruct (execUpsert db dev sk (Ts p) (Ts p ÷ 1000) v);
    [apply IH | reflexivity].
Qed.

Lemma storeEntries_ops (dev : string)
    (data : list (string * list TelemetryPoint)) :
  forall db, storeEntries dev data db = applyOps dev (batchOps data) db.
Proof.
  induction data as [|[sk pts] data IH]; intros db; [reflexivity|].
  cbn [storeEntries batchOps flat_map fst snd].
  rewrite applyOps_app, <- storePoints_ops.
  destruct (storePoints dev sk pts db); [apply IH | reflexivity].
Qed.

Lemma keyMatch_setValue dev sk ts v r :
  keyMatch dev sk ts (setValue v r) = keyMatch dev sk ts r.
Proof. reflexivity. Qed.

Lemma hasKey_updateValue dev db op sk ts v :
  hasKey dev (updateValue db dev sk ts v) op = hasKey dev db op.
Proof.
  unfold hasKey, updateValue. cbn [Telemetry].
  induction (Telemetry db) as [|r rows IH]; [reflexivity|].
  cbn [map existsb]. rewrite IH. f_equal.
  destruct (keyMatch dev sk ts r); [apply keyMatch_setValue | reflexivity].
Qed.

Lemma execUpsert_Ok db dev sk ts dv v db' :
  execUpsert db dev sk ts dv v = Ok db' ->
  (hasKey dev db (sk, ts, v) = true /\ db' = updateValue db dev sk ts v)
  \/ (hasKey dev db (sk, ts, v) = false /\ registered dev db = true
      /\ db' = mkDB (Stations db) (Telemetry db ++ [mkRow dev sk ts dv v])).
Proof.
  unfold execUpsert, hasKey, registered, insertRow. cbn [fst snd StationID SensorKey Timestamp].
  destruct (existsb (keyMatch dev sk ts) (Telemetry db)) eqn:Hk; cbn [negb].
  - intros [= <-]. now left.
  - destruct (existsb (String.eqb dev) (Stations db)); cbn [negb];
      [|discriminate].
    intros [= <-]. right. auto.
Qed.

Lemma execUpsert_present db dev sk ts dv v :
  hasKey dev db (sk, ts, v) = true ->
  execUpsert db dev sk ts dv v = Ok (updateValue db dev sk ts v).
Proof.
  unfold execUpsert, hasKey. cbn [fst snd]. now intros ->.
Qed.

Lemma execUpsert_registered db dev sk ts dv v :
  registered dev db = true ->
  exists db', execUpsert db dev sk ts dv v = Ok db'
              /\ registered dev db' = true.
Proof.
  unfold execUpsert, registered, insertRow. cbn [StationID SensorKey Timestamp].
  intros Hr.
  destruct (existsb (keyMatch dev sk ts) (Telemetry db)) eqn:Hk; cbn [negb].
  - eexists. split; [reflexivity | exact Hr].
  - rewrite Hr. cbn [negb]. eexists. split; [reflexivity | exact Hr].
Qed.

Lemma lastVal_app (l1 l2 : list (string * Z * float)) sk ts :
  lastVal (l1 ++ l2) sk ts
  = match lastVal l2 sk ts with
    | Some v => Some v
    | None => lastVal l1 sk ts
    end.
Proof.
  induction l1 as [|[[sk' ts'] v] l1 IH]; cbn [app lastVal].
  - now destruct (lastVal l2 sk ts).
  - rewrite IH. destruct (lastVal l2 sk ts); [reflexivity|].
    reflexivity.
Qed.

Lemma finalize_nil dev r : finalize dev [] r = r.
Proof. unfold finalize. cbn [lastVal]. now destruct (String.eqb _ _). Qed.

Lemma keyMatch_split dev sk ts r :
  keyMatch dev sk ts r
  = String.eqb (StationID r) dev
    && (String.eqb (SensorKey r) sk && (Timestamp r =? ts)).
Proof. unfold keyMatch. now rewrite andb_assoc. Qed.

Lemma finalize_snoc_match dev ops sk ts v r :
  keyMatch dev sk ts r = true ->
  finalize dev (ops ++ [(sk, ts, v)]) r = setValue v r.
Proof.
  rewrite keyMatch_split. intros H. apply andb_true_iff in H.
  destruct H as (Hs & Hk). unfold finalize.
  rewrite Hs, lastVal_app. cbn [lastVal]. now rewrite Hk.
Qed.

Lemma finalize_snoc_other dev ops sk ts v r :
  keyMatch dev sk ts r = false ->
  finalize dev (ops ++ [(sk, ts, v)]) r = finalize dev ops r.
Proof.
  rewrite keyMatch_split. intros H. unfold finalize.
  destruct (String.eqb (StationID r) dev); [|reflexivity].
  cbn [andb] in H. rewrite lastVal_app. cbn [lastVal]. now rewrite H.
Qed.

Lemma finalize_cons dev sk ts v rest r :
  finalize dev rest (if keyMatch dev sk ts r then setValue v r else r)
  = finalize dev ((sk, ts, v) :: rest) r.
Proof.
  rewrite keyMatch_split. unfold finalize. cbn [lastVal].
  destruct (String.eqb (StationID r) dev) eqn:Hs; cbn [andb].
  - destruct (String.eqb (SensorKey r) sk && (Timestamp r =? ts)) eqn:Hk.
    + cbn [setValue StationID SensorKey Timestamp]. rewrite Hs.
      now destruct (lastVal rest (SensorKey r) (Timestamp r)).
    + rewrite Hs. now destruct (lastVal rest (SensorKey r) (Timestamp r)).
  - now rewrite Hs.
Qed.

(** After a successful run every row of the station holds the last value
    the run gave its key, and every key of the run is present. *)
Lemma applyOps_settled (dev : string) (ops : list (string * Z * float)) :
  forall db db1,
    applyOps dev ops db = Ok db1 ->
    Stations db1 = Stations db
    /\ (forall r, In r (Telemetry db1) -> finalize dev ops r = r)
    /\ (forall op, In op ops -> hasKey dev db1 op = true)
    /\ (forall op, hasKey dev db op = true -> hasKey dev db1 op = true).
Proof.
  induction ops as [|[[sk ts] v] ops IH] using rev_ind; intros db db1 Hrun.
  - injection Hrun as <-. split; [reflexivity|].
    split; [intros r _; apply finalize_nil|].
    split; [intros op []|auto].
  - rewrite applyOps_app in Hrun.
    destruct (applyOps dev ops db) as [dbm|e] eqn:Hm; [|discriminate].
    destruct (IH db dbm Hm) as (Hst & Hfin & Hkeys & Hmono).
    cbn [applyOps] in Hrun.
    destruct (execUpsert dbm dev sk ts (ts ÷ 1000) v) as [db'|e] eqn:Hex;
      [|discriminate].
    injection Hrun as ->.
    apply execUpsert_Ok in Hex.
    destruct Hex as [(Hk & ->)|(Hk & Hreg & ->)].
    + split; [exact Hst|]. split; [|split].
      * intros r Hr. unfold updateValue in Hr. cbn [Telemetry] in Hr.
        apply in_map_iff in Hr. destruct Hr as (r0 & <- & Hr0).
        destruct (keyMatch dev sk ts r0) eqn:Hmatch.
        -- rewrite finalize_snoc_match
             by (now rewrite keyMatch_setValue).
           reflexivity.
        -- rewrite finalize_snoc_other by exact Hmatch. now apply Hfin.
      * intros op Hop. rewrite hasKey_updateValue.
        apply in_app_or in Hop. destruct Hop as [Hop|[<-|[]]]; auto.
      * intros op Hop. rewrite hasKey_updateValue. auto.
    + assert (Hgrow : forall op, hasKey dev dbm op = true ->
                hasKey dev
                  (mkDB (Stations dbm)
                        (Telemetry dbm ++ [mkRow dev sk ts (ts ÷ 1000) v])) op
                = true).
      { intros op Hop. unfold hasKey in *. cbn [Telemetry].
        rewrite existsb_app, Hop. reflexivity. }
      split; [exact Hst|]. split; [|split].
      * intros r Hr. cbn [Telemetry] in Hr. apply in_app_or in Hr.
        destruct Hr as [Hr|[<-|[]]].
        -- rewrite finalize_snoc_other; [now apply Hfin|].
           unfold hasKey in Hk. cbn [fst snd] in Hk.
           destruct (keyMatch dev sk ts r) eqn:Hmatch; [|reflexivity].
           rewrite <- Hk. symmetry. apply existsb_exists. eauto.
        -- rewrite finalize_snoc_match; [reflexivity|].
           unfold keyMatch. cbn [StationID SensorKey Timestamp].
           now rewrite !String.eqb_refl, Z.eqb_refl.
      * intros op Hop. apply in_app_or in Hop.
        destruct Hop as [Hop|[<-|[]]]; [auto|].
        unfold hasKey. cbn [Telemetry fst snd]. rewrite existsb_app.
        cbn [existsb]. unfold keyMatch at 2.
        cbn [StationID SensorKey Timestamp].
        rewrite !String.eqb_refl, Z.eqb_refl. cbn. apply orb_true_r.
      * intros op Hop. auto.
Qed.

(** A run all of whose keys are present only updates: it succeeds and maps
    every row of the station to the last value given to its key. *)
Lemma applyOps_all_present (dev : string) (ops : list (string * Z * float)) :
  forall db,
    (forall op, In op ops -> hasKey dev db op = true) ->
    applyOps dev ops db
    = Ok (mkDB (Stations db) (map (finalize dev ops) (Telemetry db))).
Proof.
  induction ops as [|[[sk ts] v] ops IH]; intros db Hall.
  - cbn [applyOps]. destruct db as [st rows]. cbn [Stations Telemetry].
    f_equal. f_equal.
    rewrite (map_ext _ (fun r => r)) by (intros; apply finalize_nil).
    symmetry. apply map_id.
  - cbn [applyOps]. rewrite execUpsert_present by (apply Hall; now left).
    rewrite IH.
    + unfold updateValue. cbn [Stations Telemetry]. rewrite map_map.
      f_equal. f_equal. apply map_ext. intros r. apply finalize_cons.
    + intros op Hop. rewrite hasKey_updateValue. apply Hall. now right.
Qed.

Lemma applyOps_registered (dev : string) (ops : list (string * Z * float)) :
  forall db, registered dev db = true -> exists db1, applyOps dev ops db = Ok db1.
Proof.
  induction ops as [|[[sk ts] v] ops IH]; intros db Hreg.
  - now exists db.
  - cbn [applyOps].
    destruct (execUpsert_registered db dev sk ts (ts ÷ 1000) v Hreg)
      as (db' & -> & Hreg').
    now apply IH.
Qed.

Lemma applyOps_unregistered (dev : string) (ops : list (string * Z * float)) :
  forall db db1,
    registered dev db = false -> applyOps dev ops db = Ok db1 ->
    forall op, In op ops -> hasKey dev db op = true.
Proof.
  induction ops as [|[[sk ts] v] ops IH]; intros db db1 Hreg Hrun op Hop.
  - destruct Hop.
  - cbn [applyOps] in Hrun.
    destruct (execUpsert db dev sk ts (ts ÷ 1000) v) as [db'|e] eqn:Hex;
      [|discriminate].
    apply execUpsert_Ok in Hex.
    destruct Hex as [(Hk & ->)|(_ & Hreg' & _)]; [|congruence].
    destruct Hop as [<-|Hop]; [exact Hk|].
    rewrite <- (hasKey_updateValue dev db op sk ts v).
    eapply IH; eauto.
Qed.

Lemma lastVal_pointOps_other (k sk : string) (ts : Z)
    (pts : list TelemetryPoint) :
  String.eqb sk k = false -> lastVal (pointOps k pts) sk ts = None.
Proof.
  intros Hne. induction pts as [|p pts IH]; [reflexivity|].
  cbn [pointOps flat_map]. fold (pointOps k pts).
  rewrite lastVal_app, IH.
  destruct (toFloat (Value p)); [|reflexivity].
  cbn [lastVal]. now rewrite Hne.
Qed.

Lemma lastVal_batch_absent (d : list (string * list TelemetryPoint))
    (sk : string) (ts : Z) :
  ~ In sk (map fst d) -> lastVal (batchOps d) sk ts = None.
Proof.
  induction d as [|[k pts] d IH]; intros Hnot; [reflexivity|].
  cbn [batchOps flat_map fst snd]. fold (batchOps d).
  cbn [map fst] in Hnot.
  rewrite lastVal_app, IH by (intros H; apply Hnot; now right).
  apply lastVal_pointOps_other. apply String.eqb_neq.
  intros ->. apply Hnot. now left.
Qed.

Lemma lastVal_batch_In (d : list (string * list TelemetryPoint))
    (sk : string) (pts : list TelemetryPoint) (ts : Z) :
  NoDup (map fst d) -> In (sk, pts) d ->
  lastVal (batchOps d) sk ts = lastVal (pointOps sk pts) sk ts.
Proof.
  induction d as [|[k pts'] d IH]; intros Hnd Hin; [destruct Hin|].
  cbn [map fst] in Hnd. inversion Hnd as [|? ? Hk Hnd']; subst.
  cbn [batchOps flat_map fst snd]. fold (batchOps d). rewrite lastVal_app.
  destruct Hin as [Heq|Hin].
  - injection Heq as -> ->. now rewrite lastVal_batch_absent.
  - rewrite (IH Hnd' Hin).
    rewrite (lastVal_pointOps_other k sk ts pts').
    + now destruct (lastVal (pointOps sk pts) sk ts).
    + apply String.eqb_neq. intros ->. apply Hk.
      apply in_map_iff. now exists (k, pts).
Qed.

(** The last value given to a key does not depend on the order in which
    the entries of the map are visited. *)
Lemma lastVal_order (d d' : list (string * list TelemetryPoint))
    (sk : string) (ts : Z) :
  NoDup (map fst d) -> Permutation d d' ->
  lastVal (batchOps d') sk ts = lastVal (batchOps d) sk ts.
Proof.
  intros Hnd Hperm.
  assert (Hnd' : NoDup (map fst d')).
  { eapply Permutation_NoDup; [|exact Hnd]. now apply Permutation_map. }
  destruct (in_dec string_dec sk (map fst d)) as [Hin|Hnot].
  - apply in_map_iff in Hin. destruct Hin as ([k pts] & Hk & Hin).
    cbn [fst] in Hk. subst k.
    rewrite (lastVal_batch_In d sk pts ts Hnd Hin).
    apply lastVal_batch_In; [exact Hnd'|].
    eapply Permutation_in; eauto.
  - rewrite (lastVal_batch_absent d sk ts Hnot).
    apply lastVal_batch_absent. intros Hin. apply Hnot.
    eapply Permutation_in; [|exact Hin].
    apply Permutation_sym. now apply Permutation_map.
Qed.

Lemma batchOps_order (d d' : list (string * list TelemetryPoint)) :
  Permutation d d' -> forall op, In op (batchOps d') -> In op (batchOps d).
Proof.
  intros Hperm op Hop. unfold batchOps in *.
  apply in_flat_map in Hop. destruct Hop as (e & He & Hop).
  apply in_flat_map. exists e. split; [|exact Hop].
  eapply Permutation_in; [|exact He]. now apply Permutation_sym.
Qed.

Lemma rowKey_absent (dev sk : string) (ts : Z) (rows : list Row) :
  existsb (keyMatch dev sk ts) rows = false ->
  ~ In (dev, sk, ts) (map rowKey rows).
Proof.
  intros Hk Hin. apply in_map_iff in Hin. destruct Hin as (r & Hr & Hin).
  assert (Hm : keyMatch dev sk ts r = true).
  { unfold rowKey in Hr. injection Hr as <- <- <-. unfold keyMatch.
    now rewrite !String.eqb_refl, Z.eqb_refl. }
  assert (Ht : existsb (keyMatch dev sk ts) rows = true)
    by (apply existsb_exists; eauto).
  congruence.
Qed.

Lemma applyOps_unique (dev : string) (ops : list (string * Z * float)) :
  forall db db1,
    uniqueKeys db -> applyOps dev ops db = Ok db1 -> uniqueKeys db1.
Proof.
  induction ops as [|[[sk ts] v] ops IH]; intros db db1 Hu Hrun.
  - now injection Hrun as <-.
  - cbn [applyOps] in Hrun.
    destruct (execUpsert db dev sk ts (ts ÷ 1000) v) as [db'|e] eqn:Hex;
      [|discriminate].
    apply (IH db' db1); [|exact Hrun]. clear Hrun IH.
    apply execUpsert_Ok in Hex. unfold uniqueKeys in *.
    change (fun r => (StationID r, SensorKey r, Timestamp r)) with rowKey in *.
    destruct Hex as [(_ & ->)|(Hk & _ & ->)].
    + unfold updateValue. cbn [Telemetry]. rewrite map_map.
      erewrite map_ext; [exact Hu|].
      intros r. now destruct (keyMatch dev sk ts r).
    + cbn [Telemetry]. rewrite map_app. cbn [map].
      eapply Permutation_NoDup; [apply Permutation_cons_append|].
      constructor; [|exact Hu].
      unfold rowKey at 1. cbn [StationID SensorKey Timestamp].
      apply rowKey_absent. exact Hk.
Qed.

(** C6.  Applying [StoreTelemetry] a second time with the same map, whatever
    the order in which each of the two runs visits its entries, leaves the
    stored state of the first run unchanged; the second run raises no error
    when the first raised none; and no run gives two rows to one
    (station, sensor, timestamp). *)
Theorem StoreTelemetry_idempotent
    (dev : string) (d d' : list (string * list TelemetryPoint)) (db : DB) :
  NoDup (map fst d) -> Permutation d d' ->
  let run1 := StoreTelemetry dev d db in
  let run2 := StoreTelemetry dev d' (snd run1) in
  snd run2 = snd run1
  /\ (fst run1 = Ok tt -> fst run2 = Ok tt)
  /\ (uniqueKeys db -> uniqueKeys (snd run1)).
Proof.
  intros Hnd Hperm. unfold StoreTelemetry. rewrite !storeEntries_ops.
  destruct (applyOps dev (batchOps d) db) as [db1|e] eqn:Hrun1; cbn [fst snd].
  - destruct (applyOps_settled dev (batchOps d) db db1 Hrun1)
      as (Hst & Hfin & Hkeys & _).
    rewrite applyOps_all_present
      by (intros op Hop; apply Hkeys; eapply batchOps_order; eauto).
    assert (Hsame : mkDB (Stations db1)
                      (map (finalize dev (batchOps d')) (Telemetry db1)) = db1).
    { destruct db1 as [st rows]. cbn [Stations Telemetry] in *. f_equal.
      rewrite <- (map_id rows) at 2. apply map_ext_in. intros r Hr.
      rewrite <- (Hfin r Hr) at 2. unfold finalize.
      destruct (String.eqb (StationID r) dev); [|reflexivity].
      now rewrite (lastVal_order d d' _ _ Hnd Hperm). }
    rewrite Hsame. cbn [fst snd]. split; [reflexivity|].
    split; [reflexivity|]. intros Hu. eapply applyOps_unique; eauto.
  - destruct (applyOps dev (batchOps d') db) as [db2|e2] eqn:Hrun2;
      cbn [fst snd].
    + exfalso.
      destruct (registered dev db) eqn:Hreg.
      * destruct (applyOps_registered dev (batchOps d) db Hreg) as (x & Hx).
        congruence.
      * assert (Hall : forall op, In op (batchOps d) -> hasKey dev db op = true).
        { intros op Hop.
          apply (applyOps_unregistered dev (batchOps d') db db2 Hreg Hrun2).
          eapply batchOps_order; [apply Permutation_sym; exact Hperm|exact Hop]. }
        rewrite (applyOps_all_present dev (batchOps d) db Hall) in Hrun1.
        discriminate.
    + split; [reflexivity|]. split; [discriminate|]. auto.
Qed.

Lemma StoreTelemetry_idempotent_witness :
  let run1 := StoreTelemetry "S1" sampleBatch emptyS1 in
  let run2 := StoreTelemetry "S1" (rev sampleBatch) (snd run1) in
  snd run2 = snd run1
  /\ (fst run1 = Ok tt -> fst run2 = Ok tt)
  /\ (uniqueKeys emptyS1 -> uniqueKeys (snd run1)).
Proof.
  apply (StoreTelemetry_idempotent "S1" sampleBatch (rev sampleBatch) emptyS1).
  - repeat constructor; cbn; intuition discriminate.
  - apply Permutation_rev.
Defined.

(* ================================================================== *)
(** ** The monthly split of the backfill *)

(** C1.  The windows of the backfill should tile [[now - 365 d, now)].
    With the location UTC and [now] = 2024-02-29T12:00:00Z, the lower bound
    is 2023-03-01T12:00:00Z, a first day of a month, so the test
    [fromTime.Day() > 1] fails and no partial first window is made: the
    first window starts at 2023-03-01T00:00:00Z, twelve hours before the
    lower bound, and the windows do not tile the interval. *)
Theorem backfill_first_window_starts_before_lower_bound :
  exists p ps,
    newPlan 20 0 leapDayNoon = Some (p :: ps)
    /\ Day 0 (Z.quot (leapDayNoon - yearMs) 1000) = 1
    /\ leapDayNoon - yearMs = 1677672000000
    /\ from p = 1677628800000
    /\ from p < leapDayNoon - yearMs
    /\ ~ tiles (leapDayNoon - yearMs) (p :: ps) leapDayNoon.
Proof.
  eexists. eexists. split; [vm_compute; reflexivity|].
  split; [reflexivity|]. split; [reflexivity|]. split; [reflexivity|].
  split; [reflexivity|]. cbn [tiles from]. intros (H & _). discriminate.
Qed.

(* ================================================================== *)
(** ** The map built from a response *)

Lemma appendPoint_key_in (m : list (string * list TelemetryPoint))
    (k k' : string) (p : TelemetryPoint) :
  In k' (map fst (appendPoint m k p)) <-> k' = k \/ In k' (map fst m).
Proof.
  induction m as [|[k0 pts0] m IH]; cbn [appendPoint map fst In].
  - intuition.
  - destruct (String.eqb k0 k) eqn:E; cbn [map fst In].
    + apply String.eqb_eq in E. subst k0. intuition.
    + rewrite IH. intuition.
Qed.

Lemma appendPoint_NoDup (m : list (string * list TelemetryPoint))
    (k : string) (p : TelemetryPoint) :
  NoDup (map fst m) -> NoDup (map fst (appendPoint m k p)).
Proof.
  induction m as [|[k0 pts0] m IH]; cbn [appendPoint map fst]; intros Hnd.
  - constructor; [intros []|constructor].
  - inversion Hnd as [|? ? Hk0 Hnd']; subst.
    destruct (String.eqb k0 k) eqn:E; cbn [map fst].
    + constructor; assumption.
    + constructor; [|now apply IH].
      rewrite appendPoint_key_in. intros [->|Hin]; [|contradiction].
      now rewrite String.eqb_refl in E.
Qed.

Lemma appendPoint_lookup (m : list (string * list TelemetryPoint))
    (k k' : string) (p : TelemetryPoint) :
  lookupPoints k' (appendPoint m k p)
  = lookupPoints k' m ++ (if String.eqb k k' then [p] else []).
Proof.
  unfold lookupPoints.
  induction m as [|[k0 pts0] m IH]; cbn [appendPoint find fst snd].
  - now destruct (String.eqb k k').
  - destruct (String.eqb k0 k) eqn:E; cbn [find fst snd].
    + apply String.eqb_eq in E. subst k0.
      destruct (String.eqb k k'); [reflexivity|].
      now rewrite app_nil_r.
    + destruct (String.eqb k0 k') eqn:E'; [|exact IH].
      apply String.eqb_eq in E'. subst k0. rewrite String.eqb_sym, E.
      now rewrite app_nil_r.
Qed.

Lemma countRecords_shift (m : list (string * list TelemetryPoint)) :
  forall a,
    fold_left (fun n e => n + Z.of_nat (List.length (snd e))) m a
    = a + countRecords m.
Proof.
  unfold countRecords.
  induction m as [|e m IH]; intros a; cbn [fold_left]; [lia|].
  rewrite IH, (IH (0 + _)). lia.
Qed.

Lemma countRecords_cons (e : string * list TelemetryPoint)
    (m : list (string * list TelemetryPoint)) :
  countRecords (e :: m) = Z.of_nat (List.length (snd e)) + countRecords m.
Proof.
  unfold countRecords at 1. cbn [fold_left]. now rewrite countRecords_shift.
Qed.

Lemma appendPoint_count (m : list (string * list TelemetryPoint))
    (k : string) (p : TelemetryPoint) :
  countRecords (appendPoint m k p) = countRecords m + 1.
Proof.
  induction m as [|[k0 pts0] m IH]; cbn [appendPoint].
  - reflexivity.
  - destruct (String.eqb k0 k); rewrite !countRecords_cons; cbn [snd].
    + rewrite length_app. cbn [List.length]. lia.
    + rewrite IH. lia.
Qed.

Lemma toMap_fold (ds : list TelemetryData) :
  forall m,
    let m' := fold_left (fun m data => appendPoint m (Key data) (toPoint data))
                        ds m in
    (NoDup (map fst m) -> NoDup (map fst m'))
    /\ (forall k, lookupPoints k m'
                  = lookupPoints k m
                    ++ map toPoint
                         (filter (fun d => String.eqb (Key d) k) ds))
    /\ countRecords m' = countRecords m + Z.of_nat (List.length ds)
    /\ (forall k, In k (map fst m')
                  <-> In k (map fst m) \/ In k (map Key ds)).
Proof.
  induction ds as [|d ds IH]; intros m; cbn [fold_left].
  - cbn [filter map List.length In]. split; [auto|]. split; [|split].
    + intros k. now rewrite app_nil_r.
    + lia.
    + intuition.
  - specialize (IH (appendPoint m (Key d) (toPoint d))). cbv zeta in IH.
    destruct IH as (Hnd & Hlook & Hcount & Hkeys).
    split; [|split; [|split]].
    + intros H. now apply Hnd, appendPoint_NoDup.
    + intros k. rewrite Hlook, appendPoint_lookup, <- app_assoc.
      cbn [filter]. now destruct (String.eqb (Key d) k).
    + rewrite Hcount, appendPoint_count. cbn [List.length]. lia.
    + intros k. rewrite Hkeys, appendPoint_key_in. cbn [map In].
      intuition.
Qed.

(** What [GetTelemetry] builds from the records of a response is a map in
    which no key occurs twice, whose keys are those of the records, which
    holds under each key the points of the records with that key, in the
    order of the response, and so neither loses nor repeats a record. *)
Theorem toMap_groups_by_key (ds : list TelemetryData) :
  NoDup (map fst (toMap ds))
  /\ (forall k, In k (map fst (toMap ds)) <-> In k (map Key ds))
  /\ (forall k, lookupPoints k (toMap ds)
                = map toPoint (filter (fun d => String.eqb (Key d) k) ds))
  /\ countRecords (toMap ds) = Z.of_nat (List.length ds).
Proof.
  destruct (toMap_fold ds []) as (Hnd & Hlook & Hcount & Hkeys).
  fold (toMap ds) in *. split; [apply Hnd; constructor|].
  split; [|split].
  - intros k. rewrite Hkeys. cbn [map In]. intuition.
  - intros k. now rewrite Hlook.
  - rewrite Hcount. reflexivity.
Qed.

(* ================================================================== *)
(** ** What a fetch sends and returns *)

Lemma Login_effect (w : WeatherAPI) (logins : loginScript) :
  trace (snd (fst (Login w logins))) = trace w ++ [EvLogin]
  /\ match fst (fst (Login w logins)) with
     | Ok _ => String.eqb (SessionID (snd (fst (Login w logins)))) "" = false
     | Err _ => SessionID (snd (fst (Login w logins))) = SessionID w
     end.
Proof.
  unfold Login. destruct logins as [|[| |status sid] rest]; cbn; auto.
  destruct (String.eqb status "error"); cbn; auto.
  destruct (String.eqb sid "") eqn:E; cbn; auto.
Qed.

Lemma ensureSession_effect (w : WeatherAPI) (logins : loginScript) :
  exists added,
    trace (snd (fst (ensureSession w logins))) = trace w ++ added
    /\ Forall (fun e => e = EvLogin) added
    /\ match fst (fst (ensureSession w logins)) with
       | Ok _ =>
           String.eqb (SessionID (snd (fst (ensureSession w logins)))) ""
           = false
       | Err _ => True
       end.
Proof.
  unfold ensureSession. destruct (String.eqb (SessionID w) "") eqn:E.
  - exists [EvLogin]. destruct (Login_effect w logins) as (Ht & Hs).
    split; [exact Ht|]. split; [repeat constructor|].
    destruct (fst (fst (Login w logins))); auto.
  - exists []. cbn. rewrite app_nil_r. auto.
Qed.

Lemma GetTelemetry_invariant (replies : list (reply (list TelemetryData))) :
  forall w logins dev keys a b,
    exists added,
      trace (snd (fst (GetTelemetry replies w logins dev keys a b)))
      = trace w ++ added
      /\ Forall (telemetryEvent dev keys a b) added
      /\ (forall m,
            fst (fst (GetTelemetry replies w logins dev keys a b)) = Ok m ->
            String.eqb
              (SessionID (snd (fst (GetTelemetry replies w logins dev keys a b))))
              "" = false
            /\ exists ds, In (Decoded "OK" ds) replies /\ m = toMap ds).
Proof.
  assert (Hlogin : forall dev keys a b (l : list event),
            Forall (fun e => e = EvLogin) l ->
            Forall (telemetryEvent dev keys a b) l).
  { intros dev keys a b l H. eapply Forall_impl; [|exact H].
    intros e ->. now left. }
  induction replies as [|rp replies IH]; intros w logins dev keys a b;
    cbn [GetTelemetry];
    destruct (ensureSession_effect w logins) as (add0 & Ht0 & Hf0 & Hs0);
    destruct (ensureSession w logins) as [[[u|e] w1] l1];
    cbn [fst snd] in *.
  - exists (add0 ++ [EvTelemetry (SessionID w1) dev keys a b]).
    cbn [trace]. rewrite Ht0, <- app_assoc. split; [reflexivity|].
    split; [|discriminate].
    apply Forall_app. split; [now apply Hlogin|].
    constructor; [|constructor]. right. eauto.
  - exists add0. split; [exact Ht0|]. split; [now apply Hlogin|discriminate].
  - assert (Hreq : Forall (telemetryEvent dev keys a b)
                     (add0 ++ [EvTelemetry (SessionID w1) dev keys a b])).
    { apply Forall_app. split; [now apply Hlogin|].
      constructor; [|constructor]. right. eauto. }
    destruct rp as [| |status data].
    + exists (add0 ++ [EvTelemetry (SessionID w1) dev keys a b]).
      cbn [fst snd trace]. rewrite Ht0, <- app_assoc.
      split; [reflexivity|]. split; [exact Hreq|discriminate].
    + exists (add0 ++ [EvTelemetry (SessionID w1) dev keys a b]).
      cbn [fst snd trace]. rewrite Ht0, <- app_assoc.
      split; [reflexivity|]. split; [exact Hreq|discriminate].
    + destruct (String.eqb status "OK") eqn:Hst; cbn [negb].
      * exists (add0 ++ [EvTelemetry (SessionID w1) dev keys a b]).
        cbn [fst snd trace SessionID]. rewrite Ht0, <- app_assoc.
        split; [reflexivity|]. split; [exact Hreq|].
        intros m [= <-]. split; [exact Hs0|].
        exists data. apply String.eqb_eq in Hst. subst status.
        split; [now left | reflexivity].
      * set (w2 := mkAPI (SessionID w1)
                     (trace w1 ++ [EvTelemetry (SessionID w1) dev keys a b])).
        destruct (Login_effect w2 l1) as (Ht2 & _).
        destruct (Login w2 l1) as [[[u2|e2] w3] l3]; cbn [fst snd] in *.
        -- destruct (IH w3 l3 dev keys a b) as (add3 & Ht3 & Hf3 & Hok3).
           exists ((add0 ++ [EvTelemetry (SessionID w1) dev keys a b])
                   ++ [EvLogin] ++ add3).
           split; [|split].
           ++ rewrite Ht3, Ht2. unfold w2. cbn [trace].
              rewrite Ht0, <- !app_assoc. reflexivity.
           ++ apply Forall_app. split; [exact Hreq|].
              apply Forall_app. split; [|exact Hf3].
              constructor; [now left | constructor].
           ++ intros m Hm. destruct (Hok3 m Hm) as (Hs3 & ds & Hin & ->).
              split; [exact Hs3|]. exists ds. split; [now right | reflexivity].
        -- exists ((add0 ++ [EvTelemetry (SessionID w1) dev keys a b])
                   ++ [EvLogin]).
           split; [|split; [|discriminate]].
           ++ rewrite Ht2. unfold w2. cbn [trace].
              rewrite Ht0, <- !app_assoc. reflexivity.
           ++ apply Forall_app. split; [exact Hreq|].
              constructor; [now left | constructor].
  - exists add0. split; [exact Ht0|]. split; [now apply Hlogin|discriminate].
Qed.

(** Whatever the remote side answers, [GetTelemetry] only adds to the
    requests sent, and what it adds is logins and the telemetry request of
    the call itself, always under a session that is not empty; when it
    returns a map, the session it leaves is not empty and the map is the one
    built from the data of a reply with status OK, with no key twice. *)
Theorem GetTelemetry_sends_only_its_request
    (replies : list (reply (list TelemetryData))) (w : WeatherAPI)
    (logins : loginScript) (dev : string) (keys : list string) (a b : Z) :
  exists added,
    trace (snd (fst (GetTelemetry replies w logins dev keys a b)))
    = trace w ++ added
    /\ Forall (telemetryEvent dev keys a b) added
    /\ (forall m,
          fst (fst (GetTelemetry replies w logins dev keys a b)) = Ok m ->
          String.eqb
            (SessionID (snd (fst (GetTelemetry replies w logins dev keys a b))))
            "" = false
          /\ NoDup (map fst m)
          /\ exists ds, In (Decoded "OK" ds) replies /\ m = toMap ds).
Proof.
  destruct (GetTelemetry_invariant replies w logins dev keys a b)
    as (added & Ht & Hf & Hok).
  exists added. split; [exact Ht|]. split; [exact Hf|].
  intros m Hm. destruct (Hok m Hm) as (Hs & ds & Hin & ->).
  split; [exact Hs|]. split; [|eauto].
  destruct (toMap_fold ds []) as (Hnd & _). apply Hnd. constructor.
Qed.

(* ================================================================== *)
(** ** The watermark read *)

Lemma fold_max_spec (l : list Z) :
  forall a,
    a <= fold_left Z.max l a
    /\ (forall x, In x l -> x <= fold_left Z.max l a)
    /\ (fold_left Z.max l a = a \/ In (fold_left Z.max l a) l).
Proof.
  induction l as [|y l IH]; intros a; cbn [fold_left In].
  - split; [lia|]. split; [intros x []|now left].
  - destruct (IH (Z.max a y)) as (H1 & H2 & H3).
    split; [lia|]. split.
    + intros x [<-|Hx]; [lia|auto].
    + destruct H3 as [H3|H3]; [|now right; right].
      destruct (Z.max_spec a y) as [(_ & E)|(_ & E)];
        [right; left | left]; congruence.
Qed.

Lemma GetLatestTelemetryTimestamp_max_rows
    (db : DB) (stationID sensorKey : string) (r : Row) :
  In r (rowsOf db stationID sensorKey) ->
  exists m, GetLatestTelemetryTimestamp db stationID sensorKey = Ok m
            /\ Timestamp r <= m.
Proof.
  unfold GetLatestTelemetryTimestamp. fold (rowsOf db stationID sensorKey).
  destruct (rowsOf db stationID sensorKey) as [|r0 rows]; [intros []|].
  intros Hin.
  destruct (fold_max_spec (map Timestamp rows) (Timestamp r0)) as (H1 & H2 & _).
  eexists. split; [reflexivity|].
  destruct Hin as [<-|Hin]; [exact H1|]. apply H2. now apply in_map.
Qed.

(** [GetLatestTelemetryTimestamp] returns 0 when the station and sensor
    have no row, and otherwise the greatest timestamp among their rows. *)
Theorem GetLatestTelemetryTimestamp_is_max
    (db : DB) (stationID sensorKey : string) :
  (rowsOf db stationID sensorKey = [] ->
   GetLatestTelemetryTimestamp db stationID sensorKey = Ok 0)
  /\ (rowsOf db stationID sensorKey <> [] ->
      exists m,
        GetLatestTelemetryTimestamp db stationID sensorKey = Ok m
        /\ (exists r, In r (rowsOf db stationID sensorKey) /\ Timestamp r = m)
        /\ (forall r, In r (rowsOf db stationID sensorKey) ->
                      Timestamp r <= m)).
Proof.
  unfold GetLatestTelemetryTimestamp. fold (rowsOf db stationID sensorKey).
  destruct (rowsOf db stationID sensorKey) as [|r rows].
  - split; [reflexivity|]. intros H. now elim H.
  - split; [discriminate|]. intros _.
    destruct (fold_max_spec (map Timestamp rows) (Timestamp r))
      as (H1 & H2 & H3).
    eexists. split; [reflexivity|]. split.
    + destruct H3 as [H3|H3].
      * exists r. split; [now left | now symmetry].
      * apply in_map_iff in H3. destruct H3 as (r' & Hr' & Hin).
        exists r'. split; [now right | exact Hr'].
    + intros r' [<-|Hin]; [exact H1|].
      apply H2. now apply in_map.
Qed.

Lemma GetLatestTelemetryTimestamp_is_max_witness :
  (rowsOf storedS1 "S1" "airtemp" = [] ->
   GetLatestTelemetryTimestamp storedS1 "S1" "airtemp" = Ok 0)
  /\ (rowsOf storedS1 "S1" "airtemp" <> [] ->
      exists m,
        GetLatestTelemetryTimestamp storedS1 "S1" "airtemp" = Ok m
        /\ (exists r, In r (rowsOf storedS1 "S1" "airtemp") /\ Timestamp r = m)
        /\ (forall r, In r (rowsOf storedS1 "S1" "airtemp") ->
                      Timestamp r <= m)).
Proof.
  exact (GetLatestTelemetryTimestamp_is_max storedS1 "S1" "airtemp").
Defined.

(* ================================================================== *)
(** ** What a successful store leaves *)

Lemma lastVal_In (ops : list (string * Z * float)) sk ts v :
  In (sk, ts, v) ops -> exists v', lastVal ops sk ts = Some v'.
Proof.
  induction ops as [|[[sk' ts'] v'] ops IH]; intros Hin; [destruct Hin|].
  cbn [lastVal]. destruct (lastVal ops sk ts) as [x|] eqn:E; [eauto|].
  destruct Hin as [[= -> -> ->]|Hin].
  - rewrite String.eqb_refl, Z.eqb_refl. cbn. eauto.
  - destruct (IH Hin) as (x & Hx). discriminate.
Qed.

Lemma pointOps_In (sk : string) (pts : list TelemetryPoint)
    (p : TelemetryPoint) (v : float) :
  In p pts -> toFloat (Value p) = Some v -> In (sk, Ts p, v) (pointOps sk pts).
Proof.
  intros Hin Hv. unfold pointOps. apply in_flat_map. exists p.
  split; [exact Hin|]. rewrite Hv. now left.
Qed.

Lemma batchOps_In (d : list (string * list TelemetryPoint)) sk pts p v :
  In (sk, pts) d -> In p pts -> toFloat (Value p) = Some v ->
  In (sk, Ts p, v) (batchOps d).
Proof.
  intros Hd Hp Hv. unfold batchOps. apply in_flat_map. exists (sk, pts).
  split; [exact Hd|]. cbn [fst snd]. now apply pointOps_In.
Qed.

Lemma keyMatch_rowKey dev sk ts r :
  keyMatch dev sk ts r = true <-> rowKey r = (dev, sk, ts).
Proof.
  unfold keyMatch, rowKey. rewrite !andb_true_iff, !String.eqb_eq, Z.eqb_eq.
  split.
  - intros ((-> & ->) & ->). reflexivity.
  - intros [= -> -> ->]. auto.
Qed.

(** After a successful [StoreTelemetry], every numeric point of the batch
    has a row under its (station, sensor, timestamp); every such row holds
    the value of the last numeric point of that sensor's list with that
    timestamp; and the watermark read for the sensor is at least the
    timestamp of the point. *)
Theorem StoreTelemetry_last_value_wins
    (dev : string) (d : list (string * list TelemetryPoint)) (db db1 : DB)
    (sk : string) (pts : list TelemetryPoint) (p : TelemetryPoint) (v : float) :
  NoDup (map fst d) ->
  StoreTelemetry dev d db = (Ok tt, db1) ->
  In (sk, pts) d -> In p pts -> toFloat (Value p) = Some v ->
  exists v',
    lastVal (pointOps sk pts) sk (Ts p) = Some v'
    /\ (exists r, In r (Telemetry db1) /\ rowKey r = (dev, sk, Ts p))
    /\ (forall r, In r (Telemetry db1) -> rowKey r = (dev, sk, Ts p) ->
                  r_Value r = v')
    /\ (exists m, GetLatestTelemetryTimestamp db1 dev sk = Ok m /\ Ts p <= m).
Proof.
  intros Hnd Hrun Hd Hp Hv. unfold StoreTelemetry in Hrun.
  rewrite storeEntries_ops in Hrun.
  destruct (applyOps dev (batchOps d) db) as [db'|e] eqn:Hops;
    [|discriminate].
  injection Hrun as ->.
  destruct (applyOps_settled dev (batchOps d) db db1 Hops)
    as (_ & Hfin & Hkeys & _).
  assert (Hop : In (sk, Ts p, v) (batchOps d)) by (eapply batchOps_In; eauto).
  destruct (lastVal_In _ _ _ _ Hop) as (v' & Hlast).
  rewrite (lastVal_batch_In d sk pts (Ts p) Hnd Hd) in Hlast.
  exists v'. split; [exact Hlast|].
  specialize (Hkeys _ Hop). unfold hasKey in Hkeys. cbn [fst snd] in Hkeys.
  apply existsb_exists in Hkeys. destruct Hkeys as (r & Hr & Hmatch).
  apply keyMatch_rowKey in Hmatch.
  assert (Hvals : forall r, In r (Telemetry db1) ->
                    rowKey r = (dev, sk, Ts p) -> r_Value r = v').
  { intros r0 Hr0 Hk0. specialize (Hfin r0 Hr0). unfold finalize in Hfin.
    unfold rowKey in Hk0. injection Hk0 as Hs Hsk Hts.
    rewrite Hs, String.eqb_refl, Hsk, Hts in Hfin.
    rewrite (lastVal_batch_In d sk pts (Ts p) Hnd Hd), Hlast in Hfin.
    rewrite <- Hfin. reflexivity. }
  split; [eauto|]. split; [exact Hvals|].
  assert (Hrows : In r (rowsOf db1 dev sk)).
  { unfold rowsOf. apply filter_In. split; [exact Hr|].
    unfold rowKey in Hmatch. injection Hmatch as -> -> _.
    now rewrite !String.eqb_refl. }
  destruct (GetLatestTelemetryTimestamp_max_rows db1 dev sk r Hrows)
    as (m & Hm & Hle).
  exists m. split; [exact Hm|].
  unfold rowKey in Hmatch. injection Hmatch as _ _ <-. exact Hle.
Qed.

Lemma StoreTelemetry_last_value_wins_witness :
  exists v',
    lastVal (pointOps "airtemp"
               [mkPoint 1000 (AFloat64 1.5%float); mkPoint 2000 (AInt 3);
                mkPoint 1000 (AFloat64 2.5%float)])
            "airtemp" (Ts (mkPoint 1000 (AFloat64 1.5%float))) = Some v'
    /\ (exists r, In r (Telemetry storedS1)
                  /\ rowKey r
                     = ("S1"%string, "airtemp"%string,
                        Ts (mkPoint 1000 (AFloat64 1.5%float))))
    /\ (forall r, In r (Telemetry storedS1) ->
                  rowKey r
                  = ("S1"%string, "airtemp"%string,
                     Ts (mkPoint 1000 (AFloat64 1.5%float))) ->
                  r_Value r = v')
    /\ (exists m, GetLatestTelemetryTimestamp storedS1 "S1" "airtemp" = Ok m
                  /\ Ts (mkPoint 1000 (AFloat64 1.5%float)) <= m).
Proof.
  apply (StoreTelemetry_last_value_wins "S1" sampleBatch emptyS1 storedS1
           "airtemp"
           [mkPoint 1000 (AFloat64 1.5%float); mkPoint 2000 (AInt 3);
            mkPoint 1000 (AFloat64 2.5%float)]
           (mkPoint 1000 (AFloat64 1.5%float)) 1.5%float).
  - repeat constructor; cbn; intuition discriminate.
  - vm_compute. reflexivity.
  - left. reflexivity.
  - left. reflexivity.
  - reflexivity.
Defined.

(* ================================================================== *)
(** ** When a store fails, and what it never touches *)

Lemma registered_In (dev : string) (db : DB) :
  registered dev db = true <-> In dev (Stations db).
Proof.
  unfold registered. rewrite existsb_exists. split.
  - intros (x & Hx & E). apply String.eqb_eq in E. now subst.
  - intros H. exists dev. split; [exact H | apply String.eqb_refl].
Qed.

Lemma applyOps_Ok_iff (dev : string) (ops : list (string * Z * float))
    (db : DB) :
  (exists db1, applyOps dev ops db = Ok db1)
  <-> registered dev db = true
      \/ (forall op, In op ops -> hasKey dev db op = true).
Proof.
  split.
  - intros (db1 & Hrun). destruct (registered dev db) eqn:Hreg; [now left|].
    right. eapply applyOps_unregistered; eauto.
  - intros [Hreg|Hall].
    + now apply applyOps_registered.
    + eexists. now apply applyOps_all_present.
Qed.

Lemma applyOps_Err (dev : string) (ops : list (string * Z * float)) :
  forall db e, applyOps dev ops db = Err e -> e = "FK_Telemetry_Stations"%string.
Proof.
  induction ops as [|[[sk ts] v] ops IH]; intros db e Hrun; [discriminate|].
  cbn [applyOps] in Hrun.
  destruct (execUpsert db dev sk ts (ts ÷ 1000) v) as [db'|e'] eqn:Hex.
  - eapply IH; eauto.
  - injection Hrun as <-. unfold execUpsert, insertRow in Hex.
    cbn [StationID SensorKey Timestamp] in Hex.
    destruct (existsb (keyMatch dev sk ts) (Telemetry db)) eqn:Hk;
      cbn [negb] in Hex; [discriminate|].
    destruct (negb (existsb (String.eqb dev) (Stations db)));
      [now injection Hex as <- | discriminate].
Qed.

(** Of the two constraints of the table Telemetry, [StoreTelemetry] never
    breaks the unique key; it breaks the foreign key on Stations, and then
    fails, exactly when the station is not in Stations and some numeric
    point of the batch has no row yet; a failed call leaves the stored state
    as it was. *)
Theorem StoreTelemetry_fails_only_on_unknown_station
    (dev : string) (d : list (string * list TelemetryPoint)) (db : DB) :
  (fst (StoreTelemetry dev d db) = Ok tt
   <-> registered dev db = true
       \/ (forall op, In op (batchOps d) -> hasKey dev db op = true))
  /\ (forall e, fst (StoreTelemetry dev d db) = Err e ->
                e = "FK_Telemetry_Stations"%string
                /\ snd (StoreTelemetry dev d db) = db).
Proof.
  unfold StoreTelemetry. rewrite storeEntries_ops.
  rewrite <- applyOps_Ok_iff.
  destruct (applyOps dev (batchOps d) db) as [db1|e] eqn:Hrun; cbn [fst snd].
  - split; [|discriminate]. split; [eauto | reflexivity].
  - split.
    + split; [discriminate|]. intros (db1 & H). discriminate.
    + intros e' [= <-]. split; [|reflexivity]. eapply applyOps_Err; eauto.
Qed.

Lemma StoreTelemetry_fails_only_on_unknown_station_witness :
  (fst (StoreTelemetry "S9" sampleBatch emptyS1) = Ok tt
   <-> registered "S9" emptyS1 = true
       \/ (forall op, In op (batchOps sampleBatch) ->
                      hasKey "S9" emptyS1 op = true))
  /\ (forall e, fst (StoreTelemetry "S9" sampleBatch emptyS1) = Err e ->
                e = "FK_Telemetry_Stations"%string
                /\ snd (StoreTelemetry "S9" sampleBatch emptyS1) = emptyS1).
Proof.
  exact (StoreTelemetry_fails_only_on_unknown_station "S9" sampleBatch emptyS1).
Defined.

Lemma execUpsert_frame db dev sk ts dv v db' :
  execUpsert db dev sk ts dv v = Ok db' ->
  Stations db' = Stations db
  /\ filter (otherStation dev) (Telemetry db')
     = filter (otherStation dev) (Telemetry db)
  /\ (forall r, In r (Telemetry db) ->
        exists r', In r' (Telemetry db')
                   /\ rowKey r' = rowKey r /\ DateValue r' = DateValue r).
Proof.
  intros Hex. apply execUpsert_Ok in Hex.
  destruct Hex as [(_ & ->)|(_ & _ & ->)].
  - unfold updateValue. cbn [Stations Telemetry].
    split; [reflexivity|]. split.
    + induction (Telemetry db) as [|r rows IH]; [reflexivity|].
      cbn [map filter]. rewrite IH.
      destruct (keyMatch dev sk ts r) eqn:Hm; [|reflexivity].
      unfold otherStation. cbn [setValue StationID].
      rewrite keyMatch_split in Hm. apply andb_true_iff in Hm.
      destruct Hm as (Hs & _). now rewrite Hs.
    + intros r Hr.
      exists (if keyMatch dev sk ts r then setValue v r else r).
      split; [now apply (in_map (fun r => if keyMatch dev sk ts r
                                          then setValue v r else r))|].
      now destruct (keyMatch dev sk ts r).
  - cbn [Stations Telemetry]. split; [reflexivity|]. split.
    + rewrite filter_app. cbn [filter]. unfold otherStation at 2.
      cbn [StationID]. rewrite String.eqb_refl. cbn. apply app_nil_r.
    + intros r Hr. exists r. split; [|auto].
      apply in_or_app. now left.
Qed.

Lemma applyOps_frame (dev : string) (ops : list (string * Z * float)) :
  forall db db1,
    applyOps dev ops db = Ok db1 ->
    Stations db1 = Stations db
    /\ filter (otherStation dev) (Telemetry db1)
       = filter (otherStation dev) (Telemetry db)
    /\ (forall r, In r (Telemetry db) ->
          exists r', In r' (Telemetry db1)
                     /\ rowKey r' = rowKey r /\ DateValue r' = DateValue r).
Proof.
  induction ops as [|[[sk ts] v] ops IH]; intros db db1 Hrun.
  - injection Hrun as <-. split; [reflexivity|]. split; [reflexivity|].
    intros r Hr. exists r. auto.
  - cbn [applyOps] in Hrun.
    destruct (execUpsert db dev sk ts (ts ÷ 1000) v) as [db'|e] eqn:Hex;
      [|discriminate].
    destruct (execUpsert_frame _ _ _ _ _ _ _ Hex) as (H1 & H2 & H3).
    destruct (IH db' db1 Hrun) as (G1 & G2 & G3).
    split; [congruence|]. split; [congruence|].
    intros r Hr. destruct (H3 r Hr) as (r' & Hr' & Hk & Hd).
    destruct (G3 r' Hr') as (r'' & Hr'' & Hk' & Hd').
    exists r''. split; [exact Hr''|]. split; congruence.
Qed.

(** Whatever its outcome, [StoreTelemetry] leaves the table Stations and
    the rows of every other station as they were, deletes no row, and
    changes neither the key nor the date of a row. *)
Theorem StoreTelemetry_touches_one_station
    (dev : string) (d : list (string * list TelemetryPoint)) (db : DB) :
  Stations (snd (StoreTelemetry dev d db)) = Stations db
  /\ filter (otherStation dev) (Telemetry (snd (StoreTelemetry dev d db)))
     = filter (otherStation dev) (Telemetry db)
  /\ (forall r, In r (Telemetry db) ->
        exists r', In r' (Telemetry (snd (StoreTelemetry dev d db)))
                   /\ rowKey r' = rowKey r /\ DateValue r' = DateValue r).
Proof.
  unfold StoreTelemetry. rewrite storeEntries_ops.
  destruct (applyOps dev (batchOps d) db) as [db1|e] eqn:Hrun; cbn [snd].
  - now apply (applyOps_frame dev (batchOps d)).
  - split; [reflexivity|]. split; [reflexivity|].
    intros r Hr. exists r. auto.
Qed.

Lemma StoreTelemetry_touches_one_station_witness :
  Stations (snd (StoreTelemetry "S1" sampleBatch storedS1)) = Stations storedS1
  /\ filter (otherStation "S1")
            (Telemetry (snd (StoreTelemetry "S1" sampleBatch storedS1)))
     = filter (otherStation "S1") (Telemetry storedS1)
  /\ (forall r, In r (Telemetry storedS1) ->
        exists r', In r' (Telemetry (snd (StoreTelemetry "S1" sampleBatch storedS1)))
                   /\ rowKey r' = rowKey r /\ DateValue r' = DateValue r).
Proof.
  exact (StoreTelemetry_touches_one_station "S1" sampleBatch storedS1).
Defined.

(* ================================================================== *)
(** ** Stations before readings *)

Lemma mergeStation_effect (db : DB) (device : Device) :
  Telemetry (mergeStation db device) = Telemetry db
  /\ (forall id, In id (Stations (mergeStation db device))
                 <-> In id (Stations db) \/ id = ID device)
  /\ (NoDup (Stations db) -> NoDup (Stations (mergeStation db device))).
Proof.
  unfold mergeStation.
  destruct (existsb (String.eqb (ID device)) (Stations db)) eqn:E.
  - split; [reflexivity|]. split; [|auto].
    intros id. split; [now left|]. intros [H| ->]; [exact H|].
    now apply (registered_In (ID device) db).
  - cbn [Stations Telemetry]. split; [reflexivity|]. split.
    + intros id. rewrite in_app_iff. cbn [In]. intuition.
    + intros Hnd. eapply Permutation_NoDup; [apply Permutation_cons_append|].
      constructor; [|exact Hnd]. intros Hin.
      apply (registered_In (ID device) db) in Hin.
      unfold registered in Hin. congruence.
Qed.

Lemma StoreStations_effect (devices : list Device) :
  forall db,
    Telemetry (StoreStations devices db) = Telemetry db
    /\ (forall id, In id (Stations (StoreStations devices db))
                   <-> In id (Stations db) \/ In id (map ID devices))
    /\ (NoDup (Stations db) -> NoDup (Stations (StoreStations devices db))).
Proof.
  unfold StoreStations.
  induction devices as [|dv devices IH]; intros db; cbn [fold_left map In].
  - split; [reflexivity|]. split; [intuition | auto].
  - destruct (IH (mergeStation db dv)) as (H1 & H2 & H3).
    destruct (mergeStation_effect db dv) as (G1 & G2 & G3).
    split; [congruence|]. split; [|auto].
    intros id. rewrite H2, G2. intuition.
Qed.

(** [StoreStations] adds to Stations the IDs of the devices that are not
    there yet, keeps every ID that was there and the IDs distinct, and does
    not touch Telemetry; after it, [GetStations] lists every device and
    [StoreTelemetry] succeeds for any batch of any of the devices. *)
Theorem StoreStations_makes_readings_storable
    (devices : list Device) (db : DB) :
  Telemetry (StoreStations devices db) = Telemetry db
  /\ (forall id, In id (GetStations (StoreStations devices db))
                 <-> In id (GetStations db) \/ In id (map ID devices))
  /\ (NoDup (GetStations db) ->
      NoDup (GetStations (StoreStations devices db)))
  /\ (forall dv d, In dv devices ->
        fst (StoreTelemetry (ID dv) d (StoreStations devices db)) = Ok tt).
Proof.
  destruct (StoreStations_effect devices db) as (H1 & H2 & H3).
  split; [exact H1|]. split; [exact H2|]. split; [exact H3|].
  intros dv d Hdv. unfold StoreTelemetry. rewrite storeEntries_ops.
  destruct (applyOps_registered (ID dv) (batchOps d)
              (StoreStations devices db)) as (db1 & ->); [|reflexivity].
  apply registered_In, H2. right. now apply in_map.
Qed.

Lemma StoreStations_makes_readings_storable_witness :
  Telemetry (StoreStations sampleDevices emptyS1) = Telemetry emptyS1
  /\ (forall id, In id (GetStations (StoreStations sampleDevices emptyS1))
                 <-> In id (GetStations emptyS1)
                     \/ In id (map ID sampleDevices))
  /\ (NoDup (GetStations emptyS1) ->
      NoDup (GetStations (StoreStations sampleDevices emptyS1)))
  /\ (forall dv d, In dv sampleDevices ->
        fst (StoreTelemetry (ID dv) d (StoreStations sampleDevices emptyS1))
        = Ok tt).
Proof.
  exact (StoreStations_makes_readings_storable sampleDevices emptyS1).
Defined.

Lemma mergeStation_known (db : DB) (device : Device) :
  In (ID device) (Stations db) -> mergeStation db device = db.
Proof.
  intros H. apply (registered_In (ID device) db) in H.
  unfold mergeStation. unfold registered in H. now rewrite H.
Qed.

Lemma StoreStations_known (devices : list Device) :
  forall db,
    (forall dv, In dv devices -> In (ID dv) (Stations db)) ->
    StoreStations devices db = db.
Proof.
  unfold StoreStations.
  induction devices as [|dv devices IH]; intros db Hall; [reflexivity|].
  cbn [fold_left]. rewrite mergeStation_known by (apply Hall; now left).
  apply IH. intros dv' H. apply Hall. now right.
Qed.

(** Storing the same device list a second time changes nothing. *)
Theorem StoreStations_idempotent (devices : list Device) (db : DB) :
  StoreStations devices (StoreStations devices db) = StoreStations devices db.
Proof.
  apply StoreStations_known. intros dv Hdv.
  apply (StoreStations_effect devices db). right. now apply in_map.
Qed.

(* ================================================================== *)
(** ** The fixed-length split, for any length *)

Lemma tiles_count (len : Z) (ps : list timePeriod) :
  0 < len ->
  forall a b,
    tiles a ps b -> Forall (fun p => span p <= len) ps ->
    fullButLast len ps ->
    Z.of_nat (List.length ps) = (b - a + len - 1) / len.
Proof.
  intros Hlen. induction ps as [|p ps IH]; intros a b Ht Hall Hfull.
  - cbn in Ht. subst b. cbn [List.length Z.of_nat].
    symmetry. apply Z.div_small. lia.
  - cbn [tiles] in Ht. destruct Ht as (Ha & Hlt & Hrest).
    inversion Hall as [|? ? Hp Hall']; subst. unfold span in Hp.
    destruct ps as [|q ps'].
    + cbn in Hrest. subst b. change (Z.of_nat (List.length [p])) with 1.
      apply (Z.div_unique _ _ _ (to p - from p - 1)); lia.
    + destruct Hfull as (Hspan & Hfull'). unfold span in Hspan.
      specialize (IH (to p) b Hrest Hall' Hfull').
      change (List.length (p :: q :: ps')) with (S (List.length (q :: ps'))).
      rewrite Nat2Z.inj_succ, IH.
      replace (b - from p + len - 1) with (b - to p + len - 1 + 1 * len) by lia.
      rewrite Z.div_add by lia. lia.
Qed.

(** For a positive number of days (and no overflow of int64),
    [splitTimePeriodByDays] returns, on any fuel of at least the number of
    windows, windows that tile [[tsFrom, tsTo)], none longer than the
    length asked for and all but the last exactly that long; their number is
    the length of the interval divided by the window length, rounded up. *)
Theorem splitTimePeriodByDays_tiles (fuel : nat) (tsFrom tsTo days : Z) :
  0 < days -> days * 86400000 <= max_int64 ->
  tsTo + days * 86400000 <= max_int64 ->
  min_int64 <= tsFrom -> tsFrom <= tsTo ->
  tsTo - tsFrom <= Z.of_nat fuel * (days * 86400000) ->
  exists ps,
    splitTimePeriodByDays fuel tsFrom tsTo days = Some ps
    /\ tiles tsFrom ps tsTo
    /\ Forall (fun p => span p <= days * 86400000) ps
    /\ fullButLast (days * 86400000) ps
    /\ Z.of_nat (List.length ps)
       = (tsTo - tsFrom + days * 86400000 - 1) / (days * 86400000).
Proof.
  intros Hd Hprod Hhi Hlo Hle Hfuel. unfold splitTimePeriodByDays.
  replace (days * 24 * 60 * 60 * 1000) with (days * 86400000) by lia.
  rewrite wrap64_id by int64_range.
  destruct (daysLoop_tiles fuel (days * 86400000) tsTo tsFrom [])
    as (ps & Heq & Ht & Hall & Hfull); try lia.
  exists ps. cbn [app] in Heq. repeat split; auto.
  apply tiles_count; auto. lia.
Qed.

Lemma splitTimePeriodByDays_tiles_witness :
  exists ps,
    splitTimePeriodByDays 10 0 (10 * 86400000) 7 = Some ps
    /\ tiles 0 ps (10 * 86400000)
    /\ Forall (fun p => span p <= 7 * 86400000) ps
    /\ fullButLast (7 * 86400000) ps
    /\ Z.of_nat (List.length ps)
       = (10 * 86400000 - 0 + 7 * 86400000 - 1) / (7 * 86400000).
Proof.
  apply (splitTimePeriodByDays_tiles 10 0 (10 * 86400000) 7).
  - reflexivity.
  - discriminate.
  - discriminate.
  - discriminate.
  - discriminate.
  - discriminate.
Defined.

Lemma daysLoop_stuck (fuel : nat) :
  forall tsTo current acc,
    in_int64 current -> current < tsTo ->
    daysLoop fuel 0 tsTo current acc = None.
Proof.
  induction fuel as [|fuel IH]; intros tsTo current acc Hr Hlt; cbn [daysLoop];
    apply Z.ltb_lt in Hlt as Hb; rewrite Hb; [reflexivity|].
  rewrite add64_exact by (now rewrite Z.add_0_r). rewrite Z.add_0_r.
  replace (tsTo <? current) with false by (symmetry; apply Z.ltb_ge; lia).
  now apply IH.
Qed.

(** On an interval that is empty or inverted [splitTimePeriodByDays]
    returns no window, whatever the number of days; on a non-empty interval
    with zero days its loop never ends: no amount of fuel gives a result. *)
Theorem splitTimePeriodByDays_degenerate (fuel : nat) (tsFrom : Z) :
  (forall tsTo days,
     tsTo <= tsFrom -> splitTimePeriodByDays fuel tsFrom tsTo days = Some [])
  /\ (forall tsTo,
       in_int64 tsFrom -> tsFrom < tsTo ->
       splitTimePeriodByDays fuel tsFrom tsTo 0 = None).
Proof.
  split.
  - intros tsTo days Hle. unfold splitTimePeriodByDays.
    destruct fuel; cbn [daysLoop];
      replace (tsFrom <? tsTo) with false
        by (symmetry; apply Z.ltb_ge; lia); reflexivity.
  - intros tsTo Hr Hlt. unfold splitTimePeriodByDays.
    change (wrap64 (0 * 24 * 60 * 60 * 1000)) with 0.
    now apply daysLoop_stuck.
Qed.

Lemma splitTimePeriodByDays_degenerate_witness :
  (forall tsTo days,
     tsTo <= sampleNow ->
     splitTimePeriodByDays 5 sampleNow tsTo days = Some [])
  /\ (forall tsTo,
       in_int64 sampleNow -> sampleNow < tsTo ->
       splitTimePeriodByDays 5 sampleNow tsTo 0 = None).
Proof.
  exact (splitTimePeriodByDays_degenerate 5 sampleNow).
Defined.

(* ================================================================== *)
(** ** The windows of the existing group, whatever the watermarks *)

Lemma tiles_forward (ps : list timePeriod) :
  forall a b, tiles a ps b -> Forall (fun p => from p <= to p) ps.
Proof.
  induction ps as [|p ps IH]; intros a b Ht; [constructor|].
  cbn [tiles] in Ht. destruct Ht as (_ & Hlt & Hrest).
  constructor; [lia | eauto].
Qed.

Lemma computeTsFrom_range (now m : Z) :
  clock_range now ->
  computeTsFrom now m <= now
  /\ (computeTsFrom now m = now - intervalMs \/ 2 <= computeTsFrom now m).
Proof.
  intros Hc. apply clock_range_bounds in Hc. unfold computeTsFrom.
  destruct (m <? now) eqn:E1; cbn [andb].
  - destruct (0 <? m) eqn:E2.
    + apply Z.ltb_lt in E1, E2. rewrite add64_exact by int64_range. lia.
    + rewrite sub64_exact by int64_range. unfold intervalMs. lia.
  - rewrite sub64_exact by int64_range. unfold intervalMs. lia.
Qed.

Lemma existingPlan_forward (fuel : nat) (now ts : Z) :
  clock_range now -> (3559 <= fuel)%nat -> ts <= now ->
  ts = now - intervalMs \/ 2 <= ts ->
  exists ps,
    existingPlan fuel now ts = Some ps
    /\ Forall (fun p => from p <= to p /\ span p <= monthMs) ps
    /\ (ts < now -> tiles ts ps now)
    /\ (ts = now -> ps = [mkPeriod now now]).
Proof.
  intros Hc Hfuel Hle Hts. apply clock_range_bounds in Hc.
  unfold existingPlan. rewrite sub64_exact by int64_range.
  destruct (ts <? now - monthMs) eqn:Hsplit.
  - apply Z.ltb_lt in Hsplit.
    assert (Hts2 : 2 <= ts) by int64_range.
    destruct (splitTimePeriodByDays_30 fuel ts now)
      as (ps & Heq & Ht & Hall & _); try int64_range.
    exists ps. split; [exact Heq|]. split; [|split; [auto | int64_range]].
    apply tiles_forward in Ht. rewrite Forall_forall in *.
    intros p Hp. split; auto.
  - apply Z.ltb_ge in Hsplit. exists [mkPeriod ts now].
    split; [reflexivity|]. split; [|split].
    + constructor; [|constructor]. unfold span. cbn [from to]. lia.
    + intros Hlt. cbn [tiles from to]. auto.
    + now intros ->.
Qed.

(** For every state of the watermarks, the fetch of the existing group never
    starts after [now] and, on a fuel of 3559 or more, the planner returns
    its windows: none is inverted or longer than 30 days; they tile
    [[tsFrom, now)] when [tsFrom < now], and are the one empty window
    [[now, now)] when [tsFrom = now] (the oldest watermark is [now - 1]);
    an empty group is given no window. *)
Theorem existing_windows_never_inverted
    (fuel : nat) (loc : Z) (getLatest : string -> string -> result Z)
    (dev : string) (now : Z) :
  clock_range now -> (3559 <= fuel)%nat ->
  let plan := processDevice fuel loc getLatest dev now in
  p_tsFrom plan <= now
  /\ exists ps,
       p_existingPeriods plan = Some ps
       /\ Forall (fun p => from p <= to p /\ span p <= monthMs) ps
       /\ (p_existingSensors plan = [] -> ps = [])
       /\ (p_existingSensors plan <> [] ->
           (p_tsFrom plan < now -> tiles (p_tsFrom plan) ps now)
           /\ (p_tsFrom plan = now -> ps = [mkPeriod now now])).
Proof.
  intros Hc Hfuel plan. unfold plan, processDevice.
  cbn [p_tsFrom p_existingPeriods p_existingSensors].
  generalize (minTsFrom (classify getLatest dev now sensorKeys)). intros m.
  destruct (computeTsFrom_range now m Hc) as (Hle & Hts).
  split; [exact Hle|].
  destruct (existingSensors (classify getLatest dev now sensorKeys)) as [|k ks].
  - exists []. split; [reflexivity|]. split; [constructor|].
    split; [reflexivity|]. intros H. now elim H.
  - destruct (existingPlan_forward fuel now (computeTsFrom now m) Hc Hfuel Hle Hts)
      as (ps & Heq & Hall & Ht & He).
    exists ps. split; [exact Heq|]. split; [exact Hall|].
    split; [discriminate|]. intros _. split; assumption.
Qed.

Lemma existing_windows_never_inverted_witness :
  let plan := processDevice 3559 0 (onlyAirtemp (sampleNow - 1)) "S1" sampleNow in
  p_tsFrom plan <= sampleNow
  /\ exists ps,
       p_existingPeriods plan = Some ps
       /\ Forall (fun p => from p <= to p /\ span p <= monthMs) ps
       /\ (p_existingSensors plan = [] -> ps = [])
       /\ (p_existingSensors plan <> [] ->
           (p_tsFrom plan < sampleNow -> tiles (p_tsFrom plan) ps sampleNow)
           /\ (p_tsFrom plan = sampleNow -> ps = [mkPeriod sampleNow sampleNow])).
Proof.
  apply (existing_windows_never_inverted 3559 0 (onlyAirtemp (sampleNow - 1))
           "S1" sampleNow).
  - exact sampleNow_clock.
  - apply le_n.
Defined.

(* ================================================================== *)
(** ** From the sink back to the planner *)

Lemma stored_point_has_row
    (dev : string) (d : list (string * list TelemetryPoint)) (db db1 : DB)
    (sk : string) (pts : list TelemetryPoint) (p : TelemetryPoint) (v : float) :
  StoreTelemetry dev d db = (Ok tt, db1) ->
  In (sk, pts) d -> In p pts -> toFloat (Value p) = Some v ->
  exists r, In r (rowsOf db1 dev sk) /\ Timestamp r = Ts p.
Proof.
  intros Hrun Hd Hp Hv. unfold StoreTelemetry in Hrun.
  rewrite storeEntries_ops in Hrun.
  destruct (applyOps dev (batchOps d) db) as [db'|e] eqn:Hops;
    [|discriminate].
  injection Hrun as ->.
  destruct (applyOps_settled dev (batchOps d) db db1 Hops)
    as (_ & _ & Hkeys & _).
  assert (Hop : In (sk, Ts p, v) (batchOps d)) by (eapply batchOps_In; eauto).
  specialize (Hkeys _ Hop). unfold hasKey in Hkeys. cbn [fst snd] in Hkeys.
  apply existsb_exists in Hkeys. destruct Hkeys as (r & Hr & Hmatch).
  apply keyMatch_rowKey in Hmatch. unfold rowKey in Hmatch.
  injection Hmatch as Hs Hk Ht.
  exists r. split; [|exact Ht].
  unfold rowsOf. apply filter_In. split; [exact Hr|].
  now rewrite Hs, Hk, !String.eqb_refl.
Qed.

Lemma classify_lower_bound (getLatest : string -> string -> result Z)
    (dev : string) (now : Z) (keys : list string) (k : string) (m : Z) :
  In k keys -> getLatest dev k = Ok m -> 0 < m ->
  minTsFrom (classify getLatest dev now keys) <= m
  /\ (minTsFrom (classify getLatest dev now keys) = now
      \/ 0 < minTsFrom (classify getLatest dev now keys)).
Proof.
  intros Hin Hk Hm. unfold classify.
  destruct (classify_fold getLatest dev keys (mkSensorState [] [] [] now))
    as (_ & _ & _ & Hall & Hwit).
  cbn [minTsFrom] in Hwit. split; [eauto|].
  destruct Hwit as [Heq|(k' & _ & _ & Hp)]; [now left | now right].
Qed.

(** The watermark follows the stored data: after a successful
    [StoreTelemetry], a configured sensor for which the batch held a
    numeric point with a positive timestamp is, at the next
    [processDevice] that reads the watermarks from that state, in the
    existing group and not in the new one; its watermark is at least that
    timestamp, and the fetch of the existing group starts no later than one
    millisecond after it. *)
Theorem stored_sensor_becomes_existing
    (fuel : nat) (loc : Z) (dev : string)
    (d : list (string * list TelemetryPoint)) (db db1 : DB)
    (sk : string) (pts : list TelemetryPoint) (p : TelemetryPoint)
    (v : float) (now : Z) :
  StoreTelemetry dev d db = (Ok tt, db1) ->
  In (sk, pts) d -> In p pts -> toFloat (Value p) = Some v ->
  0 < Ts p -> In sk sensorKeys -> clock_range now ->
  let plan := processDevice fuel loc (GetLatestTelemetryTimestamp db1) dev now in
  In sk (p_existingSensors plan)
  /\ ~ In sk (p_newSensors plan)
  /\ exists m, GetLatestTelemetryTimestamp db1 dev sk = Ok m
               /\ Ts p <= m /\ p_tsFrom plan <= m + 1.
Proof.
  intros Hrun Hd Hp Hv Hpos Hsk Hc plan.
  destruct (stored_point_has_row dev d db db1 sk pts p v Hrun Hd Hp Hv)
    as (r & Hr & Hts).
  destruct (GetLatestTelemetryTimestamp_max_rows db1 dev sk r Hr)
    as (m & Hm & Hle).
  rewrite Hts in Hle.
  assert (Hnew : isNew (GetLatestTelemetryTimestamp db1 dev sk) = false).
  { rewrite Hm. cbn [isNew]. apply negb_false_iff, Z.ltb_lt. lia. }
  unfold plan, processDevice. cbn [p_existingSensors p_newSensors p_tsFrom].
  rewrite classify_new, classify_existing.
  split; [|split].
  - apply filter_In. split; [exact Hsk|]. now rewrite Hnew.
  - intros H. apply filter_In in H. destruct H as (_ & H). congruence.
  - exists m. split; [exact Hm|]. split; [exact Hle|].
    destruct (classify_lower_bound (GetLatestTelemetryTimestamp db1) dev now
                sensorKeys sk m Hsk Hm) as (Hmin & Hshape); [lia|].
    revert Hmin Hshape.
    generalize (minTsFrom
                  (classify (GetLatestTelemetryTimestamp db1) dev now sensorKeys)).
    intros m0 Hmin Hshape. apply clock_range_bounds in Hc.
    unfold computeTsFrom.
    destruct (m0 <? now) eqn:E1; cbn [andb].
    + destruct (0 <? m0) eqn:E2.
      * apply Z.ltb_lt in E1, E2. rewrite add64_exact by int64_range. lia.
      * apply Z.ltb_lt in E1. apply Z.ltb_ge in E2. lia.
    + apply Z.ltb_ge in E1. rewrite sub64_exact by int64_range.
      unfold intervalMs. lia.
Qed.

Lemma stored_sensor_becomes_existing_witness :
  let plan :=
    processDevice 0 0 (GetLatestTelemetryTimestamp storedS1) "S1" sampleNow in
  In "airtemp"%string (p_existingSensors plan)
  /\ ~ In "airtemp"%string (p_newSensors plan)
  /\ exists m, GetLatestTelemetryTimestamp storedS1 "S1" "airtemp" = Ok m
               /\ Ts (mkPoint 2000 (AInt 3)) <= m /\ p_tsFrom plan <= m + 1.
Proof.
  apply (stored_sensor_becomes_existing 0 0 "S1" sampleBatch emptyS1 storedS1
           "airtemp"
           [mkPoint 1000 (AFloat64 1.5%float); mkPoint 2000 (AInt 3);
            mkPoint 1000 (AFloat64 2.5%float)]
           (mkPoint 2000 (AInt 3)) (f64_of_Z 3) sampleNow).
  - vm_compute. reflexivity.
  - left. reflexivity.
  - right. left. reflexivity.
  - reflexivity.
  - reflexivity.
  - left. reflexivity.
  - exact sampleNow_clock.
Defined.

(* ================================================================== *)
(** ** The calendar *)

Lemma checkFrom_spec (n : nat) :
  forall d0 d,
    checkFrom n d0 = true -> d0 <= d < d0 + Z.of_nat n -> dayCheck d = true.
Proof.
  induction n as [|n IH]; intros d0 d Hc Hr; [lia|].
  cbn [checkFrom] in Hc. apply andb_true_iff in Hc. destruct Hc as (H0 & Hc).
  destruct (Z.eq_dec d d0) as [->|Hne]; [exact H0|].
  apply (IH (d0 + 1)); [exact Hc | lia].
Qed.

Lemma calendar_checked : checkFrom checkedDays firstCheckedDay = true.
Proof. vm_compute. reflexivity. Qed.

Lemma checkedDay_ok (d : Z) : checkedDay d -> dayCheck d = true.
Proof.
  intros Hd. apply (checkFrom_spec checkedDays firstCheckedDay d).
  - exact calendar_checked.
  - unfold checkedDay in Hd. unfold checkedDays. rewrite Z2Nat.id; lia.
Qed.

Lemma civil_eqb_eq (a b : civil) : civil_eqb a b = true -> a = b.
Proof.
  destruct a as [y m d], b as [y' m' d']. unfold civil_eqb. cbn.
  rewrite !andb_true_iff, !Z.eqb_eq. intros ((-> & ->) & ->). reflexivity.
Qed.

Lemma dayCheck_facts (d : Z) :
  checkedDay d ->
  let c  := civil_from_days d in
  let s  := d - (c_day c - 1) in
  let nd := nextMonthDay (c_year c) (c_month c) in
  1 <= c_month c <= 12 /\ 1 <= c_day c <= 31
  /\ days_from_civil (c_year c) (c_month c) 1 = s
  /\ civil_from_days s = mkCivil (c_year c) (c_month c) 1
  /\ d < nd /\ 28 <= nd - s <= 31
  /\ civil_from_days nd
     = mkCivil (c_year c + c_month c / 12) (c_month c mod 12 + 1) 1.
Proof.
  intros Hd c s nd. pose proof (checkedDay_ok d Hd) as H.
  unfold dayCheck, dayCheckAt in H. fold c in H. fold s in H. fold nd in H.
  rewrite !andb_true_iff in H.
  destruct H as (((((((((H1 & H2) & H3) & H4) & H5) & H6) & H7) & H8) & H9) & H10).
  apply Z.leb_le in H1, H2, H3, H4, H8, H9. apply Z.eqb_eq in H5.
  apply Z.ltb_lt in H7. apply civil_eqb_eq in H6, H10.
  repeat split; auto.
Qed.

Lemma Date_month (loc y m : Z) :
  1 <= m <= 12 -> Date loc y m 1 0 = days_from_civil y m 1 * secondsPerDay - loc.
Proof.
  intros Hm. unfold Date.
  rewrite (Z.div_small (m - 1) 12), (Z.mod_small (m - 1) 12) by lia.
  replace (y + 0) with y by lia. replace (m - 1 + 1) with m by lia. lia.
Qed.

Lemma Date_next (loc y m : Z) :
  Date loc y (m + 1) 1 0 = nextMonthDay y m * secondsPerDay - loc.
Proof.
  unfold Date, nextMonthDay. replace (m + 1 - 1) with m by lia. lia.
Qed.

Lemma instant_of_day (loc s : Z) :
  (s * secondsPerDay - loc + loc) / secondsPerDay = s
  /\ secOfDay loc (s * secondsPerDay - loc) = 0.
Proof.
  unfold secOfDay. replace (s * secondsPerDay - loc + loc) with (s * secondsPerDay) by lia.
  unfold secondsPerDay. split; [apply Z.div_mul | apply Z.mod_mul]; lia.
Qed.

Lemma civilOf_instant (loc s : Z) :
  civilOf loc (s * secondsPerDay - loc) = civil_from_days s.
Proof. unfold civilOf. now rewrite (proj1 (instant_of_day loc s)). Qed.

(** From the first instant of a month, [AddDate(0, 1, 0)] leads to the first
    instant of the next month, 28 to 31 days later. *)
Lemma AddMonths_start (loc s : Z) :
  checkedDay s -> c_day (civil_from_days s) = 1 ->
  let nd := nextMonthDay (c_year (civil_from_days s))
                         (c_month (civil_from_days s)) in
  AddMonths loc (s * secondsPerDay - loc) 1 = nd * secondsPerDay - loc
  /\ c_day (civil_from_days nd) = 1
  /\ 28 <= nd - s <= 31.
Proof.
  intros Hs Hd nd. pose proof (dayCheck_facts s Hs) as H. cbv zeta in H.
  rewrite Hd in H. replace (s - (1 - 1)) with s in H by lia.
  destruct H as (Hm & _ & _ & _ & _ & Hlen & Hnext).
  split; [|split; [unfold nd; now rewrite Hnext | exact Hlen]].
  unfold AddMonths, Year, Month, Day.
  rewrite civilOf_instant, Hd, (proj2 (instant_of_day loc s)).
  apply Date_next.
Qed.

Lemma monthStart_instant (loc s : Z) :
  c_day (civil_from_days s) = 1 -> monthStart loc (s * secondsPerDay - loc).
Proof.
  intros Hd. unfold monthStart, Day. rewrite civilOf_instant.
  split; [exact Hd | apply instant_of_day].
Qed.

Lemma unixMilli_exact (t : Z) :
  -9223372036 <= t <= 9223372036 -> unixMilli t = t * 1000.
Proof.
  intros Ht. unfold unixMilli, mul64. rewrite wrap64_id by int64_range.
  replace (t * 1000000000) with (t * 1000 * 1000000) by lia.
  apply Z.quot_mul. lia.
Qed.

(** The month of an instant: its first instant is the instant itself less
    the days and seconds elapsed in the month, and lies on a checked day;
    the first instant of the next month is after the instant. *)
Lemma month_of_instant (loc t : Z) :
  -86400 <= loc <= 86400 -> 946684800 <= t <= 4102444800 ->
  let s  := (t + loc) / secondsPerDay - (Day loc t - 1) in
  let nd := nextMonthDay (Year loc t) (Month loc t) in
  Date loc (Year loc t) (Month loc t) 1 0 = s * secondsPerDay - loc
  /\ checkedDay s /\ c_day (civil_from_days s) = 1
  /\ 1 <= Day loc t <= 31
  /\ s * secondsPerDay - loc
     = t - secOfDay loc t - (Day loc t - 1) * secondsPerDay
  /\ 0 <= secOfDay loc t < secondsPerDay
  /\ AddMonths loc (s * secondsPerDay - loc) 1 = nd * secondsPerDay - loc
  /\ c_day (civil_from_days nd) = 1
  /\ 28 <= nd - s <= 31
  /\ t < nd * secondsPerDay - loc.
Proof.
  intros Hloc Ht s nd.
  assert (Hday : checkedDay ((t + loc) / secondsPerDay)).
  { unfold checkedDay, firstCheckedDay, secondsPerDay. split.
    - apply Z.div_le_lower_bound; lia.
    - apply Z.div_lt_upper_bound; lia. }
  pose proof (dayCheck_facts _ Hday) as H. cbv zeta in H.
  fold (civilOf loc t) in H. fold (Day loc t) in H. fold (Year loc t) in H.
  fold (Month loc t) in H. fold s in H. fold nd in H.
  destruct H as (Hm & Hd & Hs & Hcs & Hlt & Hlen & Hnext).
  assert (Hchk : checkedDay s).
  { unfold checkedDay, firstCheckedDay in *. unfold s.
    assert (10956 <= (t + loc) / secondsPerDay)
      by (unfold secondsPerDay; apply Z.div_le_lower_bound; lia).
    lia. }
  assert (Hcd : c_day (civil_from_days s) = 1) by now rewrite Hcs.
  pose proof (Z.div_mod (t + loc) secondsPerDay) as Hdm.
  pose proof (Z.mod_pos_bound (t + loc) secondsPerDay) as Hmod.
  unfold secondsPerDay in Hdm at 1, Hmod at 1.
  specialize (Hdm ltac:(lia)). specialize (Hmod ltac:(lia)).
  fold (secOfDay loc t) in Hdm, Hmod.
  pose proof (AddMonths_start loc s Hchk Hcd) as Hadd. cbv zeta in Hadd.
  rewrite Hcs in Hadd. cbn [c_year c_month] in Hadd. fold nd in Hadd.
  destruct Hadd as (Hadd & Hnd & Hndlen).
  split; [rewrite Date_month by exact Hm; now rewrite Hs|].
  split; [exact Hchk|]. split; [exact Hcd|]. split; [exact Hd|].
  split; [unfold s; lia|]. split; [exact Hmod|].
  split; [exact Hadd|]. split; [exact Hnd|]. split; [exact Hndlen|].
  revert Hlt Hdm Hmod. generalize ((t + loc) / secondsPerDay).
  generalize (secOfDay loc t). generalize nd. unfold secondsPerDay.
  intros; lia.
Qed.

(* ================================================================== *)
(** ** The monthly split *)

Lemma quot_1000 (ts : Z) : 0 <= ts -> ts ÷ 1000 = ts / 1000.
Proof. intros H. apply Z.quot_div_nonneg; lia. Qed.

Lemma div_1000_bounds (ts : Z) :
  1000 * (ts / 1000) <= ts < 1000 * (ts / 1000) + 1000
  /\ ts = 1000 * (ts / 1000) + ts mod 1000.
Proof.
  pose proof (Z.div_mod ts 1000 ltac:(lia)).
  pose proof (Z.mod_pos_bound ts 1000 ltac:(lia)). lia.
Qed.

Lemma month_start_ms (loc s : Z) :
  c_day (civil_from_days s) = 1 ->
  ((s * secondsPerDay - loc) * 1000) mod 1000 = 0
  /\ monthStart loc (((s * secondsPerDay - loc) * 1000) ÷ 1000).
Proof.
  intros Hcd. split; [apply Z.mod_mul; lia|].
  rewrite Z.quot_mul by lia. now apply monthStart_instant.
Qed.

Lemma monthLoop_tiles (fuel : nat) :
  forall loc tsTo s acc,
    -86400 <= loc <= 86400 -> 0 <= tsTo <= 4102444800000 ->
    checkedDay s -> c_day (civil_from_days s) = 1 ->
    (s * secondsPerDay - loc) * 1000 < tsTo ->
    tsTo mod 1000 = 0 \/ ~ monthStart loc (tsTo ÷ 1000) ->
    tsTo - (s * secondsPerDay - loc) * 1000 <= Z.of_nat fuel * (28 * dayMs) ->
    exists ps,
      monthLoop fuel loc (tsTo ÷ 1000) tsTo (s * secondsPerDay - loc) acc
      = Some (acc ++ ps)
      /\ tiles ((s * secondsPerDay - loc) * 1000) ps tsTo
      /\ Forall (fun p => span p <= 31 * dayMs /\ from p mod 1000 = 0
                          /\ monthStart loc (from p ÷ 1000)) ps.
Proof.
  induction fuel as [|fuel IH];
    intros loc tsTo s acc Hloc Hto Hs Hcd Hlt Hedge Hfuel.
  - unfold dayMs in Hfuel. lia.
  - destruct (AddMonths_start loc s Hs Hcd) as (Hadd & Hnd & Hlen).
    set (nd := nextMonthDay (c_year (civil_from_days s))
                            (c_month (civil_from_days s))) in *.
    assert (Hsr : 10917 <= s) by (unfold checkedDay, firstCheckedDay in Hs; lia).
    destruct (month_start_ms loc s Hcd) as (Hmod0 & Hstart0).
    assert (Hstart : monthStart loc (s * secondsPerDay - loc))
      by now apply monthStart_instant.
    destruct (div_1000_bounds tsTo) as (Hdiv & Hdm).
    assert (Hq : tsTo ÷ 1000 = tsTo / 1000) by (apply quot_1000; lia).
    assert (Hcur_lt : s * secondsPerDay - loc < tsTo / 1000).
    { destruct (Z.lt_ge_cases (s * secondsPerDay - loc) (tsTo / 1000))
        as [H|H]; [exact H|]. exfalso.
      assert (Heq : s * secondsPerDay - loc = tsTo / 1000) by lia.
      destruct Hedge as [Hm|Hn]; [lia|].
      apply Hn. rewrite Hq, <- Heq. exact Hstart. }
    assert (Hu1 : unixMilli (s * secondsPerDay - loc)
                  = (s * secondsPerDay - loc) * 1000)
      by (apply unixMilli_exact; unfold secondsPerDay in *; lia).
    assert (Hu2 : unixMilli (nd * secondsPerDay - loc)
                  = (nd * secondsPerDay - loc) * 1000)
      by (apply unixMilli_exact; unfold secondsPerDay in *; lia).
    cbn [monthLoop]. rewrite Hq.
    rewrite (proj2 (Z.ltb_lt _ _) Hcur_lt). cbv zeta.
    rewrite Hadd, Hu1, Hu2.
    destruct (tsTo <=? (nd * secondsPerDay - loc) * 1000) eqn:Hdone.
    + apply Z.leb_le in Hdone.
      exists [mkPeriod ((s * secondsPerDay - loc) * 1000) tsTo].
      split; [|split].
      * destruct (tsTo <? (nd * secondsPerDay - loc) * 1000) eqn:E;
          [reflexivity|].
        apply Z.ltb_ge in E.
        replace ((nd * secondsPerDay - loc) * 1000) with tsTo by lia.
        reflexivity.
      * cbn [tiles from to]. auto.
      * constructor; [|constructor]. cbn [from]. unfold span. cbn [from to].
        split; [|split; assumption].
        unfold secondsPerDay, dayMs in *. lia.
    + apply Z.leb_gt in Hdone.
      replace (tsTo <? (nd * secondsPerDay - loc) * 1000) with false
        by (symmetry; apply Z.ltb_ge; lia).
      assert (Hndc : checkedDay nd).
      { unfold checkedDay, firstCheckedDay in *. unfold secondsPerDay in *. lia. }
      rewrite <- Hq.
      destruct (IH loc tsTo nd
                  (acc ++ [mkPeriod ((s * secondsPerDay - loc) * 1000)
                                    ((nd * secondsPerDay - loc) * 1000)])
                  Hloc Hto Hndc Hnd Hdone Hedge)
        as (ps & Heq & Ht & Hall).
      { unfold secondsPerDay, dayMs in *. lia. }
      exists (mkPeriod ((s * secondsPerDay - loc) * 1000)
                       ((nd * secondsPerDay - loc) * 1000) :: ps).
      split; [|split].
      * rewrite Heq, <- app_assoc. reflexivity.
      * cbn [tiles from to]. split; [reflexivity|]. split; [|exact Ht].
        unfold secondsPerDay. lia.
      * constructor; [|exact Hall]. cbn [from]. unfold span. cbn [from to].
        split; [|split; assumption].
        unfold secondsPerDay, dayMs in *. lia.
Qed.

Lemma monthLoop_done (fuel : nat) (loc toTime tsTo cur : Z)
    (acc : list timePeriod) :
  toTime <= cur -> monthLoop fuel loc toTime tsTo cur acc = Some acc.
Proof.
  intros H. apply Z.ltb_ge in H. destruct fuel; cbn [monthLoop]; now rewrite H.
Qed.

Lemma splitTimePeriodByMonth_spec (fuel : nat) (loc tsFrom tsTo : Z) :
  -86400 <= loc <= 86400 -> century tsFrom -> century tsTo ->
  tsFrom < tsTo ->
  tsTo mod 1000 = 0 \/ ~ monthStart loc (tsTo ÷ 1000) ->
  tsTo - tsFrom + 31 * dayMs <= Z.of_nat fuel * (28 * dayMs) ->
  exists ps,
    splitTimePeriodByMonth fuel loc tsFrom tsTo = Some ps
    /\ tiles (effectiveStart loc tsFrom) ps tsTo
    /\ effectiveStart loc tsFrom
       = (if 1 <? Day loc (tsFrom ÷ 1000) then tsFrom
          else (tsFrom ÷ 1000 - secOfDay loc (tsFrom ÷ 1000)) * 1000)
    /\ Forall (fun p => span p <= 31 * dayMs) ps
    /\ Forall (fun p => from p mod 1000 = 0 /\ monthStart loc (from p ÷ 1000))
              (tl ps).
Proof.
  intros Hloc Hfrom Hto Hlt Hedge Hfuel. unfold century in *.
  assert (Hqf : tsFrom ÷ 1000 = tsFrom / 1000) by (apply quot_1000; lia).
  destruct (div_1000_bounds tsFrom) as (Hdf & _).
  destruct (div_1000_bounds tsTo) as (Hdt & _).
  assert (Hqt : tsTo ÷ 1000 = tsTo / 1000) by (apply quot_1000; lia).
  assert (Hft : 946684800 <= tsFrom ÷ 1000 <= 4102444800) by lia.
  pose proof (month_of_instant loc (tsFrom ÷ 1000) Hloc Hft) as H.
  cbv zeta in H.
  set (ft := tsFrom ÷ 1000) in *.
  set (s := (ft + loc) / secondsPerDay - (Day loc ft - 1)) in *.
  set (nd := nextMonthDay (Year loc ft) (Month loc ft)) in *.
  destruct H as (Hdate & Hs & Hcd & Hday & Hcur & Hsod & Hadd & Hnd & Hlen & Hnext).
  assert (Hu1 : unixMilli (s * secondsPerDay - loc)
                = (s * secondsPerDay - loc) * 1000)
    by (apply unixMilli_exact; unfold secondsPerDay in *; lia).
  assert (Hu2 : unixMilli (nd * secondsPerDay - loc)
                = (nd * secondsPerDay - loc) * 1000)
    by (apply unixMilli_exact; unfold secondsPerDay in *; lia).
  unfold splitTimePeriodByMonth, effectiveStart. cbv zeta. fold ft.
  rewrite Hdate.
  destruct (1 <? Day loc ft) eqn:Hd1.
  - apply Z.ltb_lt in Hd1. rewrite Hadd, Hu2.
    destruct (Z.lt_ge_cases ((nd * secondsPerDay - loc) * 1000) tsTo)
      as [Hmore|Hlast].
    + rewrite Z.min_l by lia.
      assert (Hndc : checkedDay nd).
      { unfold checkedDay, firstCheckedDay in *. unfold secondsPerDay in *. lia. }
      destruct (monthLoop_tiles fuel loc tsTo nd
                  [mkPeriod tsFrom ((nd * secondsPerDay - loc) * 1000)]
                  Hloc ltac:(lia) Hndc Hnd Hmore Hedge)
        as (ps & Heq & Ht & Hall).
      { unfold secondsPerDay, dayMs in *. lia. }
      exists (mkPeriod tsFrom ((nd * secondsPerDay - loc) * 1000) :: ps).
      split; [exact Heq|]. split; [|split; [reflexivity|split]].
      * cbn [tiles from to]. split; [reflexivity|]. split; [|exact Ht].
        unfold secondsPerDay in *. lia.
      * constructor.
        -- unfold span. cbn [from to]. unfold secondsPerDay, dayMs in *. lia.
        -- eapply Forall_impl; [|exact Hall]. intros p Hp. apply Hp.
      * cbn [tl]. eapply Forall_impl; [|exact Hall]. intros p Hp. apply Hp.
    + rewrite Z.min_r by lia.
      rewrite monthLoop_done
        by (rewrite Hqt; apply Z.div_le_upper_bound; lia).
      exists [mkPeriod tsFrom tsTo].
      split; [reflexivity|]. split; [|split; [reflexivity|split]].
      * cbn [tiles from to]. auto.
      * constructor; [|constructor]. unfold span. cbn [from to].
        unfold secondsPerDay, dayMs in *. lia.
      * constructor.
  - apply Z.ltb_ge in Hd1. assert (Hone : Day loc ft = 1) by lia.
    rewrite Hone in Hcur.
    assert (Hbelow : (s * secondsPerDay - loc) * 1000 < tsTo)
      by (unfold secondsPerDay in *; lia).
    destruct (monthLoop_tiles fuel loc tsTo s [] Hloc ltac:(lia) Hs Hcd
                Hbelow Hedge)
      as (ps & Heq & Ht & Hall).
    { unfold secondsPerDay, dayMs in *. lia. }
    exists ps. rewrite Hu1. split; [exact Heq|]. split; [exact Ht|].
    split; [rewrite Hcur; f_equal; lia|]. split.
    + eapply Forall_impl; [|exact Hall]. intros p Hp. apply Hp.
    + destruct ps as [|p ps]; [constructor|]. cbn [tl].
      inversion Hall as [|? ? _ Hall']; subst.
      eapply Forall_impl; [|exact Hall']. intros q Hq. apply Hq.
Qed.

(** In a location whose offset from UTC is constant and at most a day,
    from 2000 to 2099 and with [tsFrom < tsTo], [splitTimePeriodByMonth]
    returns (on a fuel of at least the number of months spanned plus two)
    windows that tile
    [[effectiveStart, tsTo)]: from [tsFrom] itself when it falls after the
    first day of its month, and otherwise from the first instant of that
    day, which is before [tsFrom] unless [tsFrom] is that instant.  No
    window is longer than 31 days, and every window after the first starts
    at the first instant of a month.  The upper bound must not fall within
    the first second of a month after its first instant: there the loop
    stops short of it. *)
Theorem splitTimePeriodByMonth_tiles (fuel : nat) (loc tsFrom tsTo : Z) :
  -86400 <= loc <= 86400 -> century tsFrom -> century tsTo ->
  tsFrom < tsTo ->
  tsTo mod 1000 = 0 \/ ~ monthStart loc (tsTo ÷ 1000) ->
  tsTo - tsFrom + 31 * dayMs <= Z.of_nat fuel * (28 * dayMs) ->
  exists ps,
    splitTimePeriodByMonth fuel loc tsFrom tsTo = Some ps
    /\ tiles (effectiveStart loc tsFrom) ps tsTo
    /\ effectiveStart loc tsFrom
       = (if 1 <? Day loc (tsFrom ÷ 1000) then tsFrom
          else (tsFrom ÷ 1000 - secOfDay loc (tsFrom ÷ 1000)) * 1000)
    /\ Forall (fun p => span p <= 31 * dayMs) ps
    /\ Forall (fun p => from p mod 1000 = 0 /\ monthStart loc (from p ÷ 1000))
              (tl ps)
    /\ ps <> []
    /\ effectiveStart loc tsFrom <= tsFrom.
Proof.
  intros Hloc Hfrom Hto Hlt Hedge Hfuel.
  destruct (splitTimePeriodByMonth_spec fuel loc tsFrom tsTo
              Hloc Hfrom Hto Hlt Hedge Hfuel)
    as (ps & Heq & Ht & Heff & Hspan & Haligned).
  assert (Hle : effectiveStart loc tsFrom <= tsFrom).
  { rewrite Heff. destruct (1 <? Day loc (tsFrom ÷ 1000)); [lia|].
    unfold century in Hfrom.
    rewrite quot_1000 by lia.
    destruct (div_1000_bounds tsFrom) as (Hdiv & _).
    pose proof (Z.mod_pos_bound (tsFrom / 1000 + loc) secondsPerDay
                  ltac:(reflexivity)) as Hsod.
    fold (secOfDay loc (tsFrom / 1000)) in Hsod. lia. }
  exists ps. repeat (split; [assumption|]). split; [|exact Hle].
  intros ->. cbn [tiles] in Ht. lia.
Qed.

Lemma splitTimePeriodByMonth_tiles_witness :
  exists ps,
    splitTimePeriodByMonth 20 10800 (leapDayNoon - yearMs) leapDayNoon = Some ps
    /\ tiles (effectiveStart 10800 (leapDayNoon - yearMs)) ps leapDayNoon
    /\ effectiveStart 10800 (leapDayNoon - yearMs)
       = (if 1 <? Day 10800 ((leapDayNoon - yearMs) ÷ 1000)
          then leapDayNoon - yearMs
          else ((leapDayNoon - yearMs) ÷ 1000
                - secOfDay 10800 ((leapDayNoon - yearMs) ÷ 1000)) * 1000)
    /\ Forall (fun p => span p <= 31 * dayMs) ps
    /\ Forall (fun p => from p mod 1000 = 0
                        /\ monthStart 10800 (from p ÷ 1000))
              (tl ps)
    /\ ps <> []
    /\ effectiveStart 10800 (leapDayNoon - yearMs) <= leapDayNoon - yearMs.
Proof.
  apply (splitTimePeriodByMonth_tiles 20 10800 (leapDayNoon - yearMs) leapDayNoon).
  - split; discriminate.
  - split; discriminate.
  - split; discriminate.
  - reflexivity.
  - left. reflexivity.
  - discriminate.
Defined.

(** The backfill of the new sensors, in a location whose offset from UTC is
    constant and at most a day: from 2001 to 2099, on a fuel of 15 or more,
    and provided [now] does not fall within the first second of a month
    after its first instant (there the loop stops short of [now]), the
    windows requested for a non-empty new group tile [[now - 365 d, now)]
    exactly when [now - 365 d] falls after the first day of its month; when
    it falls on a first day, they start at the first instant of that day
    instead. *)
Theorem backfill_windows_tile
    (fuel : nat) (loc : Z) (getLatest : string -> string -> result Z)
    (dev : string) (now : Z) :
  -86400 <= loc <= 86400 -> century (now - yearMs) -> century now ->
  (15 <= fuel)%nat ->
  now mod 1000 = 0 \/ ~ monthStart loc (now ÷ 1000) ->
  p_newSensors (processDevice fuel loc getLatest dev now) <> [] ->
  exists ps,
    p_newPeriods (processDevice fuel loc getLatest dev now) = Some ps
    /\ (1 < Day loc ((now - yearMs) ÷ 1000) -> tiles (now - yearMs) ps now)
    /\ (Day loc ((now - yearMs) ÷ 1000) <= 1 ->
        tiles (((now - yearMs) ÷ 1000
                - secOfDay loc ((now - yearMs) ÷ 1000)) * 1000) ps now)
    /\ Forall (fun p => span p <= 31 * dayMs) ps
    /\ Forall (fun p => from p mod 1000 = 0 /\ monthStart loc (from p ÷ 1000))
              (tl ps).
Proof.
  intros Hloc Hfrom Hto Hfuel Hedge.
  unfold processDevice. cbn [p_newPeriods p_newSensors].
  destruct (newSensors (classify getLatest dev now sensorKeys));
    [intros Hnew; now elim Hnew|].
  intros _. unfold newPlan. unfold century in *.
  rewrite sub64_exact by int64_range.
  destruct (splitTimePeriodByMonth_spec fuel loc (now - yearMs) now)
    as (ps & Heq & Ht & Heff & Hspan & Haligned); auto.
  - unfold yearMs. lia.
  - unfold yearMs, dayMs. lia.
  - exists ps. split; [exact Heq|]. rewrite Heff in Ht.
    split; [|split; [|split; assumption]].
    + intros Hd. apply Z.ltb_lt in Hd. now rewrite Hd in Ht.
    + intros Hd. apply Z.ltb_ge in Hd. now rewrite Hd in Ht.
Qed.

Lemma backfill_windows_tile_witness :
  exists ps,
    p_newPeriods
      (processDevice 15 10800 (airtempAndFailure (sampleNow - 600000)) "S1" sampleNow)
    = Some ps
    /\ (1 < Day 10800 ((sampleNow - yearMs) ÷ 1000) ->
        tiles (sampleNow - yearMs) ps sampleNow)
    /\ (Day 10800 ((sampleNow - yearMs) ÷ 1000) <= 1 ->
        tiles (((sampleNow - yearMs) ÷ 1000
                - secOfDay 10800 ((sampleNow - yearMs) ÷ 1000)) * 1000)
              ps sampleNow)
    /\ Forall (fun p => span p <= 31 * dayMs) ps
    /\ Forall (fun p => from p mod 1000 = 0
                        /\ monthStart 10800 (from p ÷ 1000))
              (tl ps).
Proof.
  apply (backfill_windows_tile 15 10800
           (airtempAndFailure (sampleNow - 600000)) "S1" sampleNow).
  - split; discriminate.
  - split; discriminate.
  - split; discriminate.
  - apply le_n.
  - left. reflexivity.
  - vm_compute. discriminate.
Defined.

(* ================================================================== *)
(** ** A failed window does not stop the others *)

Lemma GetTelemetry_with_session (replies : list (reply (list TelemetryData))) :
  forall w logins dev keys a b,
    String.eqb (SessionID w) "" = false ->
    exists more,
      trace (snd (fst (GetTelemetry replies w logins dev keys a b)))
      = trace w ++ EvTelemetry (SessionID w) dev keys a b :: more
      /\ Forall (telemetryEvent dev keys a b) more
      /\ String.eqb
           (SessionID (snd (fst (GetTelemetry replies w logins dev keys a b))))
           "" = false.
Proof.
  induction replies as [|rp replies IH]; intros w logins dev keys a b Hw;
    cbn [GetTelemetry]; unfold ensureSession; rewrite Hw.
  - exists []. cbn [fst snd trace SessionID]. auto.
  - destruct rp as [| |status data].
    + exists []. cbn [fst snd trace SessionID]. auto.
    + exists []. cbn [fst snd trace SessionID]. auto.
    + destruct (String.eqb status "OK"); cbn [negb].
      * exists []. cbn [fst snd trace SessionID]. auto.
      * set (w2 := mkAPI (SessionID w)
                     (trace w ++ [EvTelemetry (SessionID w) dev keys a b])).
        destruct (Login_effect w2 logins) as (Ht2 & Hs2).
        destruct (Login w2 logins) as [[[u2|e2] w3] l3]; cbn [fst snd] in *.
        -- destruct (IH w3 l3 dev keys a b Hs2) as (more & Ht3 & Hf3 & Hs3).
           exists (EvLogin :: EvTelemetry (SessionID w3) dev keys a b :: more).
           split; [|split; [|exact Hs3]].
           ++ rewrite Ht3, Ht2. unfold w2. cbn [trace].
              rewrite <- !app_assoc. reflexivity.
           ++ constructor; [now left|]. constructor; [|exact Hf3].
              right. eauto.
        -- exists [EvLogin]. split; [|split].
           ++ rewrite Ht2. unfold w2. cbn [trace].
              rewrite <- !app_assoc. reflexivity.
           ++ constructor; [now left | constructor].
           ++ rewrite Hs2. unfold w2. cbn [SessionID]. exact Hw.
Qed.

Lemma countRecords_nonneg (m : list (string * list TelemetryPoint)) :
  0 <= countRecords m.
Proof.
  induction m as [|e m IH]; [reflexivity|]. rewrite countRecords_cons. lia.
Qed.

Lemma processAndSaveTelemetry_count dev m db :
  0 <= fst (processAndSaveTelemetry dev m db) <= countRecords m.
Proof.
  pose proof (countRecords_nonneg m). unfold processAndSaveTelemetry.
  destruct (countRecords m =? 0); [cbn; lia|].
  destruct (StoreTelemetry dev m db) as [[u|e] db']; cbn; lia.
Qed.

(** With a session at hand, the loop over the windows of a group requests
    every window, whether or not the fetches before it failed; it sends
    nothing but logins and requests for these windows (same station, same
    keys); it leaves a session at hand; and the count of records it returns
    never decreases. *)
Theorem processPeriods_requests_every_window
    (dev : string) (keys : list string) (periods : list timePeriod) :
  forall remote w logins db total,
    String.eqb (SessionID w) "" = false ->
    exists added,
      trace (snd (fst (fst (processPeriods dev keys periods remote w logins
                              db total))))
      = trace w ++ added
      /\ (forall p, In p periods -> Exists (requestFor dev keys p) added)
      /\ Forall (fun e => e = EvLogin
                          \/ exists p, In p periods /\ requestFor dev keys p e)
                added
      /\ String.eqb
           (SessionID (snd (fst (fst (processPeriods dev keys periods remote
                                        w logins db total)))))
           "" = false
      /\ total <= fst (fst (fst (processPeriods dev keys periods remote w
                                   logins db total))).
Proof.
  induction periods as [|p periods IH]; intros remote w logins db total Hw.
  - exists []. cbn [processPeriods fst snd]. rewrite app_nil_r.
    split; [reflexivity|]. split; [intros p []|].
    split; [constructor|]. split; [exact Hw | lia].
  - cbn [processPeriods].
    destruct (GetTelemetry_with_session (hd [] remote) w logins dev keys
                (from p) (to p) Hw) as (more & Ht & Hf & Hs).
    assert (Hmore : Forall (fun e => e = EvLogin
                      \/ exists q, In q (p :: periods)
                                   /\ requestFor dev keys q e)
                      (EvTelemetry (SessionID w) dev keys (from p) (to p)
                       :: more)).
    { constructor.
      - right. exists p. split; [now left|]. now exists (SessionID w).
      - eapply Forall_impl; [|exact Hf].
        intros e [->|(sid & _ & ->)]; [now left|].
        right. exists p. split; [now left|]. now exists sid. }
    destruct (GetTelemetry (hd [] remote) w logins dev keys (from p) (to p))
      as [[[telemetry|e] w1] l1]; cbn [fst snd] in *.
    + pose proof (processAndSaveTelemetry_count dev telemetry db) as Hcount.
      destruct (processAndSaveTelemetry dev telemetry db) as [n db'].
      cbn [fst] in Hcount.
      destruct (IH (tl remote) w1 l1 db' (total + n) Hs)
        as (added & Ht' & Hall & Honly & Hs' & Htot).
      exists ((EvTelemetry (SessionID w) dev keys (from p) (to p) :: more)
              ++ added).
      split; [rewrite Ht', Ht, <- app_assoc; reflexivity|].
      split; [|split; [|split; [exact Hs' | lia]]].
      * intros q [<-|Hq].
        -- apply Exists_app. left. constructor. now exists (SessionID w).
        -- apply Exists_app. right. now apply Hall.
      * apply Forall_app. split; [exact Hmore|].
        eapply Forall_impl; [|exact Honly].
        intros e0 [->|(q & Hq & Hreq)]; [now left|].
        right. exists q. split; [now right | exact Hreq].
    + destruct (IH (tl remote) w1 l1 db total Hs)
        as (added & Ht' & Hall & Honly & Hs' & Htot).
      exists ((EvTelemetry (SessionID w) dev keys (from p) (to p) :: more)
              ++ added).
      split; [rewrite Ht', Ht, <- app_assoc; reflexivity|].
      split; [|split; [|split; [exact Hs' | lia]]].
      * intros q [<-|Hq].
        -- apply Exists_app. left. constructor. now exists (SessionID w).
        -- apply Exists_app. right. now apply Hall.
      * apply Forall_app. split; [exact Hmore|].
        eapply Forall_impl; [|exact Honly].
        intros e0 [->|(q & Hq & Hreq)]; [now left|].
        right. exists q. split; [now right | exact Hreq].
Qed.

Lemma processPeriods_requests_every_window_witness :
  exists added,
    trace (snd (fst (fst (processPeriods "S1" ["airtemp"%string]
                            [mkPeriod 0 1000; mkPeriod 1000 2000]
                            [[TransportError]; [Decoded "OK" [zeroRecord]]]
                            sampleClient [] emptyS1 0))))
    = trace sampleClient ++ added
    /\ (forall p, In p [mkPeriod 0 1000; mkPeriod 1000 2000] ->
                  Exists (requestFor "S1" ["airtemp"%string] p) added)
    /\ Forall (fun e => e = EvLogin
                        \/ exists p, In p [mkPeriod 0 1000; mkPeriod 1000 2000]
                                     /\ requestFor "S1" ["airtemp"%string] p e)
              added
    /\ String.eqb
         (SessionID (snd (fst (fst (processPeriods "S1" ["airtemp"%string]
                                      [mkPeriod 0 1000; mkPeriod 1000 2000]
                                      [[TransportError];
                                       [Decoded "OK" [zeroRecord]]]
                                      sampleClient [] emptyS1 0)))))
         "" = false
    /\ 0 <= fst (fst (fst (processPeriods "S1" ["airtemp"%string]
                             [mkPeriod 0 1000; mkPeriod 1000 2000]
                             [[TransportError]; [Decoded "OK" [zeroRecord]]]
                             sampleClient [] emptyS1 0))).
Proof.
  apply (processPeriods_requests_every_window "S1" ["airtemp"%string]
           [mkPeriod 0 1000; mkPeriod 1000 2000]
           [[TransportError]; [Decoded "OK" [zeroRecord]]]
           sampleClient [] emptyS1 0).
  reflexivity.
Defined.

(* ================================================================== *)
(** ** The outcome of [processAndSaveTelemetry] *)

Lemma countRecords_zero (m : list (string * list TelemetryPoint)) :
  countRecords m = 0 -> Forall (fun e => snd e = []) m.
Proof.
  induction m as [|e m IH]; intros H; [constructor|].
  rewrite countRecords_cons in H. pose proof (countRecords_nonneg m).
  constructor; [|apply IH; lia].
  destruct (snd e); [reflexivity|]. cbn [List.length] in H. lia.
Qed.

Lemma storeEntries_no_points (dev : string)
    (m : list (string * list TelemetryPoint)) (db : DB) :
  Forall (fun e => snd e = []) m -> storeEntries dev m db = Ok db.
Proof.
  intros H. induction H as [|[sk pts] m Hpts _ IH]; [reflexivity|].
  cbn [snd] in Hpts. subst pts. cbn [storeEntries storePoints]. exact IH.
Qed.

(** [processAndSaveTelemetry] leaves exactly the state [StoreTelemetry]
    would leave: skipping the store for a batch without points loses
    nothing.  The count it returns is 0 when the batch has no point or the
    store failed, and the number of fetched points otherwise. *)
Theorem processAndSaveTelemetry_outcome
    (dev : string) (m : list (string * list TelemetryPoint)) (db : DB) :
  snd (processAndSaveTelemetry dev m db) = snd (StoreTelemetry dev m db)
  /\ (fst (processAndSaveTelemetry dev m db) = 0
      <-> countRecords m = 0 \/ fst (StoreTelemetry dev m db) <> Ok tt)
  /\ (fst (processAndSaveTelemetry dev m db) <> 0 ->
      fst (processAndSaveTelemetry dev m db) = countRecords m).
Proof.
  unfold processAndSaveTelemetry.
  destruct (countRecords m =? 0) eqn:Hc.
  - apply Z.eqb_eq in Hc. cbn [fst snd]. split; [|split].
    + unfold StoreTelemetry.
      now rewrite (storeEntries_no_points dev m db (countRecords_zero m Hc)).
    + split; auto.
    + intros H. now elim H.
  - apply Z.eqb_neq in Hc.
    destruct (StoreTelemetry dev m db) as [[[]|e] db']; cbn [fst snd].
    + split; [reflexivity|]. split; [|reflexivity].
      split; [intros H; now elim Hc|]. intros [H|H]; [now elim Hc|now elim H].
    + split; [reflexivity|]. split; [|intros H; now elim H].
      split; [intros _; right; discriminate | reflexivity].
Qed.

Lemma processAndSaveTelemetry_outcome_witness :
  snd (processAndSaveTelemetry "S1" sampleBatch emptyS1)
  = snd (StoreTelemetry "S1" sampleBatch emptyS1)
  /\ (fst (processAndSaveTelemetry "S1" sampleBatch emptyS1) = 0
      <-> countRecords sampleBatch = 0
          \/ fst (StoreTelemetry "S1" sampleBatch emptyS1) <> Ok tt)
  /\ (fst (processAndSaveTelemetry "S1" sampleBatch emptyS1) <> 0 ->
      fst (processAndSaveTelemetry "S1" sampleBatch emptyS1)
      = countRecords sampleBatch).
Proof.
  exact (processAndSaveTelemetry_outcome "S1" sampleBatch emptyS1).
Defined.

(* ================================================================== *)
(** ** Configuration *)

Lemma getEnv_default_empty (env : string -> string) (key : string) :
  getEnv env key "" = env key.
Proof.
  unfold getEnv. destruct (String.eqb (env key) "") eqn:E; [|reflexivity].
  apply String.eqb_eq in E. now rewrite E.
Qed.

Lemma getEnv_nonempty (env : string -> string) (key d : string) :
  d <> ""%string -> getEnv env key d <> ""%string.
Proof.
  intros Hd. unfold getEnv. destruct (String.eqb (env key) "") eqn:E.
  - exact Hd.
  - now apply String.eqb_neq.
Qed.

(** [LoadConfig] returns a configuration exactly when the four credentials
    are set to non-empty values; the configuration then carries them, its
    base URL, server and database name are never empty (the default stands
    in for an empty value), and the collection interval is 15 whenever
    COLLECTION_INTERVAL is unset or does not scan as an integer. *)
Theorem LoadConfig_requires_credentials
    (env : string -> string) (scan : string -> option Z) :
  ((exists cfg, LoadConfig env scan = Ok cfg)
   <-> env "API_LOGIN"%string <> ""%string
       /\ env "API_PASSWORD"%string <> ""%string
       /\ env "DB_LOGIN"%string <> ""%string
       /\ env "DB_PASSWORD"%string <> ""%string)
  /\ (forall cfg, LoadConfig env scan = Ok cfg ->
        ApiLogin cfg = env "API_LOGIN"%string
        /\ ApiPassword cfg = env "API_PASSWORD"%string
        /\ DbLogin cfg = env "DB_LOGIN"%string
        /\ DbPassword cfg = env "DB_PASSWORD"%string
        /\ ApiBaseURL cfg <> ""%string /\ DbServer cfg <> ""%string
        /\ DbName cfg <> ""%string
        /\ (env "COLLECTION_INTERVAL"%string = ""%string
            \/ scan (env "COLLECTION_INTERVAL"%string) = None ->
            CollectionInterval cfg = 15)).
Proof.
  unfold LoadConfig. cbv zeta. cbn [ApiLogin ApiPassword DbLogin DbPassword].
  rewrite !getEnv_default_empty.
  destruct (string_dec (env "API_LOGIN"%string) "") as [E1|E1];
    [rewrite (proj2 (String.eqb_eq _ _) E1)
    |rewrite (proj2 (String.eqb_neq _ _) E1)]; cbn [orb].
  { split; [|discriminate]. split; [intros (cfg & H); discriminate|].
    intros (H & _). contradiction. }
  destruct (string_dec (env "API_PASSWORD"%string) "") as [E2|E2];
    [rewrite (proj2 (String.eqb_eq _ _) E2)
    |rewrite (proj2 (String.eqb_neq _ _) E2)]; cbn [orb].
  { split; [|discriminate]. split; [intros (cfg & H); discriminate|].
    intros (_ & H & _). contradiction. }
  destruct (string_dec (env "DB_LOGIN"%string) "") as [E3|E3];
    [rewrite (proj2 (String.eqb_eq _ _) E3)
    |rewrite (proj2 (String.eqb_neq _ _) E3)]; cbn [orb].
  { split; [|discriminate]. split; [intros (cfg & H); discriminate|].
    intros (_ & _ & H & _). contradiction. }
  destruct (string_dec (env "DB_PASSWORD"%string) "") as [E4|E4];
    [rewrite (proj2 (String.eqb_eq _ _) E4)
    |rewrite (proj2 (String.eqb_neq _ _) E4)]; cbn [orb].
  { split; [|discriminate]. split; [intros (cfg & H); discriminate|].
    intros (_ & _ & _ & H). contradiction. }
  split; [split; [auto | eauto]|].
  intros cfg H. injection H as <-.
  cbn [ApiLogin ApiPassword DbLogin DbPassword ApiBaseURL DbServer DbName
       CollectionInterval].
  repeat (split; [reflexivity|]).
  split; [apply getEnv_nonempty; discriminate|].
  split; [apply getEnv_nonempty; discriminate|].
  split; [apply getEnv_nonempty; discriminate|].
  unfold getEnvAsInt. intros [H| H].
  - now rewrite H.
  - destruct (String.eqb (env "COLLECTION_INTERVAL"%string) ""); [reflexivity|].
    now rewrite H.
Qed.

Lemma LoadConfig_requires_credentials_witness :
  ((exists cfg, LoadConfig credentialsOnly neverScans = Ok cfg)
   <-> credentialsOnly "API_LOGIN"%string <> ""%string
       /\ credentialsOnly "API_PASSWORD"%string <> ""%string
       /\ credentialsOnly "DB_LOGIN"%string <> ""%string
       /\ credentialsOnly "DB_PASSWORD"%string <> ""%string)
  /\ (forall cfg, LoadConfig credentialsOnly neverScans = Ok cfg ->
        ApiLogin cfg = credentialsOnly "API_LOGIN"%string
        /\ ApiPassword cfg = credentialsOnly "API_PASSWORD"%string
        /\ DbLogin cfg = credentialsOnly "DB_LOGIN"%string
        /\ DbPassword cfg = credentialsOnly "DB_PASSWORD"%string
        /\ ApiBaseURL cfg <> ""%string /\ DbServer cfg <> ""%string
        /\ DbName cfg <> ""%string
        /\ (credentialsOnly "COLLECTION_INTERVAL"%string = ""%string
            \/ neverScans (credentialsOnly "COLLECTION_INTERVAL"%string) = None ->
            CollectionInterval cfg = 15)).
Proof.
  exact (LoadConfig_requires_credentials credentialsOnly neverScans).
Defined.

(* ================================================================== *)
(** ** What is stored of a batch *)







(* ================================================================== *)
(** ** A failed watermark read *)

Lemma effectiveStart_bound (loc tsFrom : Z) :
  century tsFrom ->
  effectiveStart loc tsFrom
  = (if 1 <? Day loc (tsFrom ÷ 1000) then tsFrom
     else (tsFrom ÷ 1000 - secOfDay loc (tsFrom ÷ 1000)) * 1000) ->
  effectiveStart loc tsFrom <= tsFrom.
Proof.
  intros Hfrom Heff. rewrite Heff.
  destruct (1 <? Day loc (tsFrom ÷ 1000)); [lia|].
  unfold century in Hfrom. rewrite quot_1000 by lia.
  destruct (div_1000_bounds tsFrom) as (Hdiv & _).
  pose proof (Z.mod_pos_bound (tsFrom / 1000 + loc) secondsPerDay
                ltac:(reflexivity)) as Hsod.
  fold (secOfDay loc (tsFrom / 1000)) in Hsod. lia.
Qed.

(** C9.  A sensor whose watermark read returns an error is put in the new
    group, and the loop goes on: every other configured sensor is still
    classified by its own read.  The new group is given the full-history
    plan: its windows are the monthly split of [[now - 365 d, now)], and (in
    a location of constant offset at most a day from UTC, from 2001 to 2099,
    [now] not within the first second of a month after its first instant)
    any fuel of 15 or more returns them: a non-empty sequence of windows
    that starts no later than [now - 365 d] and runs without gap or overlap
    up to [now]. *)
Theorem read_error_classified_new fuel loc getLatest dev now k msg :
  In k sensorKeys -> getLatest dev k = Err msg ->
  let plan := processDevice fuel loc getLatest dev now in
  In k (p_newSensors plan)
  /\ (clock_range now ->
      p_newPeriods plan
      = splitTimePeriodByMonth fuel loc (now - yearMs) now)
  /\ (-86400 <= loc <= 86400 -> century (now - yearMs) -> century now ->
      now mod 1000 = 0 \/ ~ monthStart loc (now ÷ 1000) ->
      (15 <= fuel)%nat ->
      exists ps,
        p_newPeriods plan = Some ps /\ ps <> []
        /\ tiles (effectiveStart loc (now - yearMs)) ps now
        /\ effectiveStart loc (now - yearMs) <= now - yearMs)
  /\ (forall k', In k' sensorKeys ->
        (In k' (p_newSensors plan) <-> isNew (getLatest dev k') = true)
        /\ (In k' (p_existingSensors plan)
            <-> isNew (getLatest dev k') = false)).
Proof.
  intros Hin Hget plan. unfold plan, processDevice.
  cbn [p_newPeriods p_newSensors p_existingSensors].
  rewrite classify_new, classify_existing.
  assert (Hk : In k (filter (fun k => isNew (getLatest dev k)) sensorKeys)).
  { apply filter_In. split; [exact Hin|]. now rewrite Hget. }
  split; [exact Hk|].
  destruct (filter (fun k => isNew (getLatest dev k)) sensorKeys) as [|k0 ks]
    eqn:Hnew; [destruct Hk|].
  split; [|split].
  - intros Hc. apply clock_range_bounds in Hc. unfold newPlan.
    now rewrite sub64_exact by int64_range.
  - intros Hloc Hfrom Hto Hedge Hfuel. unfold newPlan.
    assert (Hsub : sub64 now yearMs = now - yearMs)
      by (unfold century in *; apply sub64_exact; int64_range).
    rewrite Hsub.
    destruct (splitTimePeriodByMonth_spec fuel loc (now - yearMs) now)
      as (ps & Heq & Ht & Heff & _); auto.
    + unfold yearMs. lia.
    + unfold yearMs, dayMs. lia.
    + pose proof (effectiveStart_bound loc (now - yearMs) Hfrom Heff) as Hle.
      exists ps. split; [exact Heq|]. split; [|split; assumption].
      intros ->. cbn [tiles] in Ht. unfold yearMs in *. lia.
  - intros k' Hin'. rewrite <- Hnew, !filter_In, negb_true_iff. tauto.
Qed.

Lemma read_error_classified_new_witness :
  let plan :=
    processDevice 20 0 (airtempAndFailure (sampleNow - 600000)) "S1" sampleNow in
  In "soiltemp"%string (p_newSensors plan)
  /\ p_newPeriods plan
     = splitTimePeriodByMonth 20 0 (sampleNow - yearMs) sampleNow
  /\ (exists ps,
        p_newPeriods plan = Some ps /\ ps <> []
        /\ tiles (effectiveStart 0 (sampleNow - yearMs)) ps sampleNow
        /\ effectiveStart 0 (sampleNow - yearMs) <= sampleNow - yearMs)
  /\ (forall k', In k' sensorKeys ->
        (In k' (p_newSensors plan)
         <-> isNew (airtempAndFailure (sampleNow - 600000) "S1" k') = true)
        /\ (In k' (p_existingSensors plan)
            <-> isNew (airtempAndFailure (sampleNow - 600000) "S1" k') = false)).
Proof.
  intros plan.
  pose proof (read_error_classified_new 20 0
                (airtempAndFailure (sampleNow - 600000)) "S1" sampleNow
                "soiltemp" "timeout") as H.
  cbv zeta in H. fold plan in H.
  destruct H as (H1 & H2 & H3 & H4).
  - right. left. reflexivity.
  - reflexivity.
  - split; [exact H1|]. split; [apply H2; split; discriminate|].
    split; [|exact H4].
    apply H3.
    + split; discriminate.
    + split; discriminate.
    + split; discriminate.
    + left. reflexivity.
    + do 5 apply le_S. apply le_n.
Defined.
